(** * ESP8266 UART driver (Sming/Arch/Esp8266/Components/driver/uart.cpp)

    A shallow embedding of the driver: the port instances, the registry,
    the memory-mapped registers the driver reads and writes, and the driver
    functions as state-passing functions over them. *)

From Stdlib Require Import ZArith Lia List Bool.
From coqutil Require Import Z.bitblast.
Import ListNotations.
Local Open Scope Z_scope.
Local Open Scope bool_scope.

(** ** Fixed-width integers

    The driver runs on a 32-bit target: [size_t] and [uint32_t] are 32 bits
    wide, and the narrower fields of the instance are [uint8_t] and
    [uint16_t]. Values are kept in [Z] and wrapped where the C code
    truncates. *)

Definition uint8 (x : Z) : Z := x mod 2 ^ 8.
Definition uint16 (x : Z) : Z := x mod 2 ^ 16.
Definition uint32 (x : Z) : Z := x mod 2 ^ 32.

(** Modelled from the spec: BitManipulations.h is not among the sources. The
    three helpers the driver uses read, set and clear one bit of a word. *)
Definition bitRead (value bit : Z) : bool := Z.testbit value bit.
Definition bitSet (value bit : Z) : Z := Z.lor value (Z.shiftl 1 bit).
Definition bitClear (value bit : Z) : Z := Z.land value (Z.lnot (Z.shiftl 1 bit)).

(** A total map updated at one key: the arrays and the memory of the model. *)
Definition upd {A : Type} (f : Z -> A) (k : Z) (v : A) : Z -> A :=
  fun x => if x =? k then v else f x.

(** ** Constants of driver/uart.h and espinc/uart_register.h *)

(** Modelled from the spec: the two headers are not among the sources. The
    spec has physical ports 0 and 1, a virtual port that aliases port 0, and
    -1 for no port; it names the interrupt sources and the FIFOs. The port
    numbers, sizes and bit positions below are those of the ESP8266 UART
    peripheral which the driver's macros stand for. *)

Definition UART0 : Z := 0.
Definition UART1 : Z := 1.
Definition UART2 : Z := 2. (* virtual port, backed by UART0 *)
Definition UART_NO : Z := -1.
Definition UART_PHYSICAL_COUNT : Z := 2.
Definition UART_COUNT : Z := 3.
Definition UART_PIN_DEFAULT : Z := 255.
Definition UART_RX_FIFO_SIZE : Z := 0x80.
Definition UART_TX_FIFO_SIZE : Z := 0x80.
Definition UART_CLK_FREQ : Z := 80 * 1000000.

(* option bits of uart->options *)
Definition UART_OPT_TXWAIT : Z := 0.
Definition UART_OPT_CALLBACK_RAW : Z := 1.

(* interrupt bits, shared by UART_INT_RAW, _ST, _ENA and _CLR *)
Definition UART_RXFIFO_FULL_INT_ST : Z := 0x001.
Definition UART_TXFIFO_EMPTY_INT_ST : Z := 0x002.
Definition UART_PARITY_ERR_INT_ST : Z := 0x004.
Definition UART_FRM_ERR_INT_ST : Z := 0x008.
Definition UART_RXFIFO_OVF_INT_ST : Z := 0x010.
Definition UART_BRK_DET_INT_ST : Z := 0x080.
Definition UART_RXFIFO_TOUT_INT_ST : Z := 0x100.

Definition UART_RXFIFO_FULL_INT_ENA : Z := 0x001.
Definition UART_TXFIFO_EMPTY_INT_ENA : Z := 0x002.
Definition UART_RXFIFO_OVF_INT_ENA : Z := 0x010.
Definition UART_BRK_DET_INT_ENA : Z := 0x080.
Definition UART_RXFIFO_TOUT_INT_ENA : Z := 0x100.

Definition UART_RXFIFO_FULL_INT_CLR : Z := 0x001.
Definition UART_TXFIFO_EMPTY_INT_CLR : Z := 0x002.
Definition UART_RXFIFO_OVF_INT_CLR : Z := 0x010.
Definition UART_RXFIFO_TOUT_INT_CLR : Z := 0x100.

(* bit numbers of the flags the claims speak about *)
Definition FULL_BIT : Z := 0.
Definition EMPTY_BIT : Z := 1.
Definition OVF_BIT : Z := 4.
Definition BRK_BIT : Z := 7.
Definition TOUT_BIT : Z := 8.

(* UART_STATUS fields *)
Definition UART_RXFIFO_CNT : Z := 0xFF.
Definition UART_RXFIFO_CNT_S : Z := 0.
Definition UART_TXFIFO_CNT : Z := 0xFF.
Definition UART_TXFIFO_CNT_S : Z := 16.

(* UART_CONF0 and UART_CONF1 fields *)
Definition UART_TXD_BRK : Z := 0x100.
Definition UART_RXFIFO_RST : Z := 0x20000.
Definition UART_TXFIFO_RST : Z := 0x40000.
Definition UART_RXFIFO_FULL_THRHD_S : Z := 0.
Definition UART_RX_TOUT_THRHD_S : Z := 24.
Definition UART_RX_TOUT_EN : Z := 0x80000000.

(* pin-swap control bit of UART_SWAP_REG *)
Definition UART_SWAP0 : Z := 0x4.
Definition SWAP0_BIT : Z := 2.

(** uart.cpp, lines 63-70 *)
Definition RX_FIFO_FULL_THRESHOLD : Z := 120.
Definition RX_FIFO_HEADROOM : Z := UART_RX_FIFO_SIZE - RX_FIFO_FULL_THRESHOLD.
Definition DEFAULT_RX_HEADROOM : Z := 32 - RX_FIFO_HEADROOM.

(** ** Data model *)

Inductive smg_uart_mode_t := UART_FULL | UART_RX_ONLY | UART_TX_ONLY.

Definition mode_eqb (a b : smg_uart_mode_t) : bool :=
  match a, b with
  | UART_FULL, UART_FULL | UART_RX_ONLY, UART_RX_ONLY
  | UART_TX_ONLY, UART_TX_ONLY => true
  | _, _ => false
  end.

Inductive smg_uart_notify_code_t :=
  | UART_NOTIFY_AFTER_OPEN
  | UART_NOTIFY_BEFORE_CLOSE
  | UART_NOTIFY_AFTER_WRITE
  | UART_NOTIFY_BEFORE_READ
  | UART_NOTIFY_WAIT_TX.

(** Modelled from the spec: driver/SerialBuffer.h is not among the sources.
    The spec's Circular Byte Buffer has a capacity fixed at allocation,
    [available] bytes ready to read and [free_space = capacity - available];
    a write to a full buffer and a read of an empty one fail silently. The
    bytes are kept oldest first; the two cursors are their ends. *)
Record SerialBuffer := mkBuffer {
  capacity : Z;
  contents : list Z
}.

Definition available (b : SerialBuffer) : Z := Z.of_nat (length (contents b)).
Definition getFreeSpace (b : SerialBuffer) : Z := capacity b - available b.
Definition isEmpty (b : SerialBuffer) : bool := available b =? 0.

Definition writeChar (c : Z) (b : SerialBuffer) : bool * SerialBuffer :=
  if getFreeSpace b <=? 0 then (false, b)
  else (true, mkBuffer (capacity b) (contents b ++ [c])).

(* -1 when the buffer is empty *)
Definition readChar (b : SerialBuffer) : Z * SerialBuffer :=
  match contents b with
  | [] => (-1, b)
  | c :: rest => (c, mkBuffer (capacity b) rest)
  end.

Definition clear (b : SerialBuffer) : SerialBuffer := mkBuffer (capacity b) [].

Definition buffer_ok (b : SerialBuffer) : Prop :=
  available b <= capacity b /\ capacity b < 2 ^ 32.

(** The port instance, [smg_uart_t]. Function pointers are kept as the
    number of the routine they point to; [None] is the null pointer. *)
Record smg_uart_t := mkUart {
  uart_nr : Z;
  baud_rate : Z;
  mode : smg_uart_mode_t;
  options : Z;
  rx_pin : Z;
  tx_pin : Z;
  rx_headroom : Z;
  status : Z;
  rx_buffer : option SerialBuffer;
  tx_buffer : option SerialBuffer;
  callback : option nat;
  param : Z
}.

(* memset(uart, 0, sizeof(smg_uart_t)) *)
Definition zero_uart : smg_uart_t :=
  mkUart 0 0 UART_FULL 0 0 0 0 0 None None None 0.

Definition set_uart_nr v u := mkUart v (baud_rate u) (mode u) (options u) (rx_pin u) (tx_pin u) (rx_headroom u) (status u) (rx_buffer u) (tx_buffer u) (callback u) (param u).
Definition set_baud_rate v u := mkUart (uart_nr u) v (mode u) (options u) (rx_pin u) (tx_pin u) (rx_headroom u) (status u) (rx_buffer u) (tx_buffer u) (callback u) (param u).
Definition set_mode v u := mkUart (uart_nr u) (baud_rate u) v (options u) (rx_pin u) (tx_pin u) (rx_headroom u) (status u) (rx_buffer u) (tx_buffer u) (callback u) (param u).
Definition set_options v u := mkUart (uart_nr u) (baud_rate u) (mode u) v (rx_pin u) (tx_pin u) (rx_headroom u) (status u) (rx_buffer u) (tx_buffer u) (callback u) (param u).
Definition set_rx_pin v u := mkUart (uart_nr u) (baud_rate u) (mode u) (options u) v (tx_pin u) (rx_headroom u) (status u) (rx_buffer u) (tx_buffer u) (callback u) (param u).
Definition set_tx_pin v u := mkUart (uart_nr u) (baud_rate u) (mode u) (options u) (rx_pin u) v (rx_headroom u) (status u) (rx_buffer u) (tx_buffer u) (callback u) (param u).
Definition set_rx_headroom v u := mkUart (uart_nr u) (baud_rate u) (mode u) (options u) (rx_pin u) (tx_pin u) v (status u) (rx_buffer u) (tx_buffer u) (callback u) (param u).
Definition set_status v u := mkUart (uart_nr u) (baud_rate u) (mode u) (options u) (rx_pin u) (tx_pin u) (rx_headroom u) v (rx_buffer u) (tx_buffer u) (callback u) (param u).
Definition set_rx_buffer v u := mkUart (uart_nr u) (baud_rate u) (mode u) (options u) (rx_pin u) (tx_pin u) (rx_headroom u) (status u) v (tx_buffer u) (callback u) (param u).
Definition set_tx_buffer v u := mkUart (uart_nr u) (baud_rate u) (mode u) (options u) (rx_pin u) (tx_pin u) (rx_headroom u) (status u) (rx_buffer u) v (callback u) (param u).
Definition set_callback v u := mkUart (uart_nr u) (baud_rate u) (mode u) (options u) (rx_pin u) (tx_pin u) (rx_headroom u) (status u) (rx_buffer u) (tx_buffer u) v (param u).
Definition set_param v u := mkUart (uart_nr u) (baud_rate u) (mode u) (options u) (rx_pin u) (tx_pin u) (rx_headroom u) (status u) (rx_buffer u) (tx_buffer u) (callback u) v.

(** Modelled from the spec: the two inline tests of driver/uart.h. A role is
    enabled unless the mode is the one of the other role alone. *)
Definition smg_uart_rx_enabled (u : smg_uart_t) : bool := negb (mode_eqb (mode u) UART_TX_ONLY).
Definition smg_uart_tx_enabled (u : smg_uart_t) : bool := negb (mode_eqb (mode u) UART_RX_ONLY).

(** ** Hardware register interface *)

(** Modelled from the spec: the memory-mapped registers, the pin multiplexer
    and the interrupt controller are an external collaborator, reached
    through macros that are not among the sources. Each port has a receive
    and a transmit FIFO, the raw and the masked interrupt status, the
    interrupt enable bits, the clock divider and two configuration words.
    Writing a mask to [UART_INT_CLR] clears those status bits; a write to
    [UART_CONF0] with a FIFO reset bit set empties that FIFO; [UART_STATUS]
    reports the two FIFO occupancies. No byte arrives or leaves on the wire
    while a driver function runs. *)

Record uart_port := mkPort {
  rx_fifo : list Z;
  tx_fifo : list Z;
  int_raw : Z;
  int_st : Z;
  int_ena : Z;
  clkdiv : Z;
  conf0 : Z;
  conf1 : Z
}.

Inductive peri_reg :=
  | UART_FIFO (nr : Z)
  | UART_INT_RAW (nr : Z)
  | UART_INT_ST (nr : Z)
  | UART_INT_ENA (nr : Z)
  | UART_INT_CLR (nr : Z)
  | UART_CLKDIV (nr : Z)
  | UART_STATUS (nr : Z)
  | UART_CONF0 (nr : Z)
  | UART_CONF1 (nr : Z)
  | UART_SWAP_REG.

Inductive io_mux_reg :=
  | PERIPHS_IO_MUX_U0TXD_U
  | PERIPHS_IO_MUX_GPIO2_U
  | PERIPHS_IO_MUX_U0RXD_U
  | PERIPHS_IO_MUX_MTCK_U
  | PERIPHS_IO_MUX_MTDO_U.

Inductive pin_func :=
  | FUNC_UART0_TXD | FUNC_UART0_TXD_BK | FUNC_UART0_RXD | FUNC_UART0_CTS
  | FUNC_UART0_RTS | FUNC_UART1_TXD_BK
  | FUNC_GPIO1 | FUNC_GPIO2 | FUNC_GPIO3 | FUNC_GPIO13 | FUNC_GPIO15.

Definition io_mux_reg_eqb (a b : io_mux_reg) : bool :=
  match a, b with
  | PERIPHS_IO_MUX_U0TXD_U, PERIPHS_IO_MUX_U0TXD_U
  | PERIPHS_IO_MUX_GPIO2_U, PERIPHS_IO_MUX_GPIO2_U
  | PERIPHS_IO_MUX_U0RXD_U, PERIPHS_IO_MUX_U0RXD_U
  | PERIPHS_IO_MUX_MTCK_U, PERIPHS_IO_MUX_MTCK_U
  | PERIPHS_IO_MUX_MTDO_U, PERIPHS_IO_MUX_MTDO_U => true
  | _, _ => false
  end.

(** What the callbacks of the application observe. The routines themselves
    are application code: a call is recorded, newest first, and leaves the
    driver state as it is. *)
Inductive event :=
  | EvCallback (uart : Z) (status : Z)
  | EvNotify (uart : Z) (code : smg_uart_notify_code_t).

(** ** Driver state

    The file-scope variables of uart.cpp ([isrMask], [uartInstances],
    [notifyCallbacks]), the memory holding the instances (a pointer is an
    address, [new] takes the next free one), and the hardware. *)
Record driver := mkDriver {
  memory : Z -> smg_uart_t;
  next_free : Z;
  uartInstances : Z -> option Z;
  notifyCallbacks : Z -> option nat;
  isrMask : Z;
  ports : Z -> uart_port;
  swap_reg : Z;
  io_mux : io_mux_reg -> pin_func;
  ets_uart_intr_enabled : bool;
  ets_uart_intr_attached : bool;
  trace : list event
}.

Definition set_memory v s := mkDriver v (next_free s) (uartInstances s) (notifyCallbacks s) (isrMask s) (ports s) (swap_reg s) (io_mux s) (ets_uart_intr_enabled s) (ets_uart_intr_attached s) (trace s).
Definition set_next_free v s := mkDriver (memory s) v (uartInstances s) (notifyCallbacks s) (isrMask s) (ports s) (swap_reg s) (io_mux s) (ets_uart_intr_enabled s) (ets_uart_intr_attached s) (trace s).
Definition set_uartInstances v s := mkDriver (memory s) (next_free s) v (notifyCallbacks s) (isrMask s) (ports s) (swap_reg s) (io_mux s) (ets_uart_intr_enabled s) (ets_uart_intr_attached s) (trace s).
Definition set_notifyCallbacks v s := mkDriver (memory s) (next_free s) (uartInstances s) v (isrMask s) (ports s) (swap_reg s) (io_mux s) (ets_uart_intr_enabled s) (ets_uart_intr_attached s) (trace s).
Definition set_isrMask v s := mkDriver (memory s) (next_free s) (uartInstances s) (notifyCallbacks s) v (ports s) (swap_reg s) (io_mux s) (ets_uart_intr_enabled s) (ets_uart_intr_attached s) (trace s).
Definition set_ports v s := mkDriver (memory s) (next_free s) (uartInstances s) (notifyCallbacks s) (isrMask s) v (swap_reg s) (io_mux s) (ets_uart_intr_enabled s) (ets_uart_intr_attached s) (trace s).
Definition set_swap_reg v s := mkDriver (memory s) (next_free s) (uartInstances s) (notifyCallbacks s) (isrMask s) (ports s) v (io_mux s) (ets_uart_intr_enabled s) (ets_uart_intr_attached s) (trace s).
Definition set_io_mux v s := mkDriver (memory s) (next_free s) (uartInstances s) (notifyCallbacks s) (isrMask s) (ports s) (swap_reg s) v (ets_uart_intr_enabled s) (ets_uart_intr_attached s) (trace s).
Definition set_intr_enabled v s := mkDriver (memory s) (next_free s) (uartInstances s) (notifyCallbacks s) (isrMask s) (ports s) (swap_reg s) (io_mux s) v (ets_uart_intr_attached s) (trace s).
Definition set_intr_attached v s := mkDriver (memory s) (next_free s) (uartInstances s) (notifyCallbacks s) (isrMask s) (ports s) (swap_reg s) (io_mux s) (ets_uart_intr_enabled s) v (trace s).
Definition set_trace v s := mkDriver (memory s) (next_free s) (uartInstances s) (notifyCallbacks s) (isrMask s) (ports s) (swap_reg s) (io_mux s) (ets_uart_intr_enabled s) (ets_uart_intr_attached s) v.

(* [uart->field = v] through a pointer *)
Definition store (p : Z) (f : smg_uart_t -> smg_uart_t) (s : driver) : driver :=
  set_memory (upd (memory s) p (f (memory s p))) s.

Definition set_port (nr : Z) (f : uart_port -> uart_port) (s : driver) : driver :=
  set_ports (upd (ports s) nr (f (ports s nr))) s.

Definition with_rx_fifo v (r : uart_port) := mkPort v (tx_fifo r) (int_raw r) (int_st r) (int_ena r) (clkdiv r) (conf0 r) (conf1 r).
Definition with_tx_fifo v (r : uart_port) := mkPort (rx_fifo r) v (int_raw r) (int_st r) (int_ena r) (clkdiv r) (conf0 r) (conf1 r).
Definition with_int_ena v (r : uart_port) := mkPort (rx_fifo r) (tx_fifo r) (int_raw r) (int_st r) v (clkdiv r) (conf0 r) (conf1 r).
Definition with_int_clr v (r : uart_port) := mkPort (rx_fifo r) (tx_fifo r) (Z.land (int_raw r) (Z.lnot v)) (Z.land (int_st r) (Z.lnot v)) (int_ena r) (clkdiv r) (conf0 r) (conf1 r).
Definition with_clkdiv v (r : uart_port) := mkPort (rx_fifo r) (tx_fifo r) (int_raw r) (int_st r) (int_ena r) v (conf0 r) (conf1 r).
Definition with_conf0 v (r : uart_port) :=
  mkPort (if Z.testbit v 17 then [] else rx_fifo r) (if Z.testbit v 18 then [] else tx_fifo r)
         (int_raw r) (int_st r) (int_ena r) (clkdiv r) v (conf1 r).
Definition with_conf1 v (r : uart_port) := mkPort (rx_fifo r) (tx_fifo r) (int_raw r) (int_st r) (int_ena r) (clkdiv r) (conf0 r) v.

Definition fifo_count (l : list Z) : Z := Z.land (Z.of_nat (length l)) 0xFF.

Definition READ_PERI_REG (r : peri_reg) (s : driver) : Z :=
  match r with
  | UART_FIFO nr => hd 0 (rx_fifo (ports s nr))
  | UART_INT_RAW nr => int_raw (ports s nr)
  | UART_INT_ST nr => int_st (ports s nr)
  | UART_INT_ENA nr => int_ena (ports s nr)
  | UART_INT_CLR nr => 0
  | UART_CLKDIV nr => clkdiv (ports s nr)
  | UART_STATUS nr =>
      Z.lor (Z.shiftl (fifo_count (rx_fifo (ports s nr))) UART_RXFIFO_CNT_S)
            (Z.shiftl (fifo_count (tx_fifo (ports s nr))) UART_TXFIFO_CNT_S)
  | UART_CONF0 nr => conf0 (ports s nr)
  | UART_CONF1 nr => conf1 (ports s nr)
  | UART_SWAP_REG => swap_reg s
  end.

Definition WRITE_PERI_REG (r : peri_reg) (v : Z) (s : driver) : driver :=
  match r with
  | UART_FIFO nr => set_port nr (fun p => with_tx_fifo (tx_fifo p ++ [uint8 v]) p) s
  | UART_INT_RAW nr => s
  | UART_INT_ST nr => s
  | UART_INT_ENA nr => set_port nr (with_int_ena v) s
  | UART_INT_CLR nr => set_port nr (with_int_clr v) s
  | UART_CLKDIV nr => set_port nr (with_clkdiv v) s
  | UART_STATUS nr => s
  | UART_CONF0 nr => set_port nr (with_conf0 v) s
  | UART_CONF1 nr => set_port nr (with_conf1 v) s
  | UART_SWAP_REG => set_swap_reg v s
  end.

(* reading UART_FIFO takes the oldest received byte out of the FIFO *)
Definition READ_UART_FIFO (nr : Z) (s : driver) : Z * driver :=
  (READ_PERI_REG (UART_FIFO nr) s, set_port nr (fun p => with_rx_fifo (tl (rx_fifo p)) p) s).

Definition SET_PERI_REG_MASK (r : peri_reg) (mask : Z) (s : driver) : driver :=
  WRITE_PERI_REG r (Z.lor (READ_PERI_REG r s) mask) s.

Definition CLEAR_PERI_REG_MASK (r : peri_reg) (mask : Z) (s : driver) : driver :=
  WRITE_PERI_REG r (Z.land (READ_PERI_REG r s) (Z.lnot mask)) s.

Definition PIN_FUNC_SELECT (r : io_mux_reg) (f : pin_func) (s : driver) : driver :=
  set_io_mux (fun x => if io_mux_reg_eqb x r then f else io_mux s x) s.

Definition ETS_UART_INTR_DISABLE (s : driver) : driver := set_intr_enabled false s.
Definition ETS_UART_INTR_ENABLE (s : driver) : driver := set_intr_enabled true s.
Definition ETS_UART_INTR_ATTACH (s : driver) : driver := set_intr_attached true s.

Definition log (e : event) (s : driver) : driver := set_trace (e :: trace s) s.

Definition is_some {A} (o : option A) : bool :=
  match o with Some _ => true | None => false end.

(** ** The driver, uart.cpp

    A [smg_uart_t*] is [option Z]: [None] is the null pointer. *)

Definition uart_rxfifo_count (nr : Z) (s : driver) : Z :=
  uint8 (Z.land (Z.shiftr (READ_PERI_REG (UART_STATUS nr) s) UART_RXFIFO_CNT_S) UART_RXFIFO_CNT).

Definition uart_txfifo_count (nr : Z) (s : driver) : Z :=
  uint8 (Z.land (Z.shiftr (READ_PERI_REG (UART_STATUS nr) s) UART_TXFIFO_CNT_S) UART_TXFIFO_CNT).

Definition uart_txfifo_free (nr : Z) (s : driver) : Z :=
  uint8 (UART_TX_FIFO_SIZE - uart_txfifo_count nr s - 1).

Definition uart_txfifo_full (nr : Z) (s : driver) : bool :=
  uart_txfifo_count nr s >=? UART_TX_FIFO_SIZE - 1.

Definition notify (uart : Z) (code : smg_uart_notify_code_t) (s : driver) : driver :=
  match notifyCallbacks s (uart_nr (memory s uart)) with
  | Some _ => log (EvNotify uart code) s
  | None => s
  end.

Definition uart_isr_enabled (nr : Z) (s : driver) : bool := bitRead (isrMask s) nr.

Definition is_physical (nr : Z) : bool := (nr >=? 0) && (nr <? UART_PHYSICAL_COUNT).

Definition is_physical_uart (uart : option Z) (s : driver) : bool :=
  match uart with
  | Some p => is_physical (uart_nr (memory s p))
  | None => false
  end.

Definition get_physical (uart : option Z) (s : driver) : option Z :=
  match uart with
  | Some p => if uart_nr (memory s p) =? UART2 then uartInstances s UART0 else Some p
  | None => None
  end.

(* uart->rx_buffer->writeChar(c) *)
Definition rx_buffer_writeChar (uart c : Z) (s : driver) : driver :=
  match rx_buffer (memory s uart) with
  | Some b => store uart (set_rx_buffer (Some (snd (writeChar c b)))) s
  | None => s
  end.

(* uart->tx_buffer->readChar() *)
Definition tx_buffer_readChar (uart : Z) (s : driver) : Z * driver :=
  match tx_buffer (memory s uart) with
  | Some b => (fst (readChar b), store uart (set_tx_buffer (Some (snd (readChar b)))) s)
  | None => (-1, s)
  end.

(** [while(read-- != 0) { c = READ_PERI_REG(UART_FIFO); writeChar(c); }]
    with [n] the number of passes left. The test that ends the loop
    decrements the 32-bit counter once more. *)
Fixpoint isr_rx_loop (n : nat) (read : Z) (nr uart : Z) (s : driver) : Z * driver :=
  match n with
  | O => (uint32 (read - 1), s)
  | S n' =>
      let read := uint32 (read - 1) in
      let '(c, s) := READ_UART_FIFO nr s in
      let s := rx_buffer_writeChar uart c s in
      isr_rx_loop n' read nr uart s
  end.

(** [while(count-- != 0) { WRITE_PERI_REG(UART_FIFO, readChar()); }] *)
Fixpoint isr_tx_loop (n : nat) (count : Z) (nr uart : Z) (s : driver) : Z * driver :=
  match n with
  | O => (uint32 (count - 1), s)
  | S n' =>
      let count := uint32 (count - 1) in
      let '(c, s) := tx_buffer_readChar uart s in
      let s := WRITE_PERI_REG (UART_FIFO nr) c s in
      isr_tx_loop n' count nr uart s
  end.

(** handle_uart_interrupt, lines 181-210: Rx FIFO full, timeout or overflow.
    [st] is the local [status]; the result is its new value. *)
Definition isr_rx (nr uart usis st : Z) (s : driver) : Z * driver :=
  if negb (Z.land usis (Z.lor (Z.lor UART_RXFIFO_FULL_INT_ST UART_RXFIFO_TOUT_INT_ST)
                              UART_RXFIFO_OVF_INT_ST) =? 0) then
    let '(read, st, s) :=
      match rx_buffer (memory s uart) with
      | Some b =>
          let avail := uart_rxfifo_count nr s in
          let space := getFreeSpace b in
          let read := if avail <=? space then avail else space in
          let space := uint32 (space - read) in
          let '(read, s) := isr_rx_loop (Z.to_nat read) read nr uart s in
          let st := if space >? rx_headroom (memory s uart)
                    then Z.land st (Z.lnot UART_RXFIFO_FULL_INT_ST) else st in
          (read, st, s)
      | None => (0, st, s)
      end in
    let s :=
      if negb (Z.land usis UART_RXFIFO_OVF_INT_ST =? 0) then
        CLEAR_PERI_REG_MASK (UART_INT_ENA nr) UART_RXFIFO_OVF_INT_ENA s
      else if read =? 0 then
        CLEAR_PERI_REG_MASK (UART_INT_ENA nr)
          (Z.lor UART_RXFIFO_FULL_INT_ENA UART_RXFIFO_TOUT_INT_ENA) s
      else s in
    (st, s)
  else (st, s).

(** handle_uart_interrupt, lines 212-232: Tx FIFO empty. *)
Definition isr_tx (nr uart usis st : Z) (s : driver) : Z * driver :=
  if negb (Z.land usis UART_TXFIFO_EMPTY_INT_ST =? 0) then
    let s :=
      match tx_buffer (memory s uart) with
      | Some b =>
          let space := uart_txfifo_free nr s in
          let avail := available b in
          let count := if avail <=? space then avail else space in
          snd (isr_tx_loop (Z.to_nat count) count nr uart s)
      | None => s
      end in
    if uart_txfifo_count nr s =? 0 then
      (st, CLEAR_PERI_REG_MASK (UART_INT_ENA nr) UART_TXFIFO_EMPTY_INT_ENA s)
    else
      (Z.land st (Z.lnot UART_TXFIFO_EMPTY_INT_ST), s)
  else (st, s).

(** The status word the handler ends up with, and the state after the
    servicing of lines 178-233. *)
Definition isr_service (nr uart usis : Z) (s : driver) : Z * driver :=
  if negb (bitRead (options (memory s uart)) UART_OPT_CALLBACK_RAW) then
    let '(st, s) := isr_rx nr uart usis usis s in
    isr_tx nr uart usis st s
  else (usis, s).

Definition handle_uart_interrupt (nr : Z) (uart : option Z) (s : driver) : driver :=
  let usis := READ_PERI_REG (UART_INT_ST nr) s in
  if usis =? 0 then s
  else
    match uart with
    | None => WRITE_PERI_REG (UART_INT_ENA nr) 0 s
    | Some p =>
        if negb (uart_isr_enabled nr s) then WRITE_PERI_REG (UART_INT_ENA nr) 0 s
        else
          let '(st, s) := isr_service nr p usis s in
          let s := store p (fun u => set_status (uint16 (Z.lor (status u) st)) u) s in
          let s := if negb (st =? 0) && is_some (callback (memory s p))
                   then log (EvCallback p st) s else s in
          WRITE_PERI_REG (UART_INT_CLR nr) usis s
    end.

Definition uart_isr (s : driver) : driver :=
  let s := handle_uart_interrupt UART0 (uartInstances s UART0) s in
  handle_uart_interrupt UART1 (uartInstances s UART1) s.

Definition smg_uart_set_callback (uart : option Z) (cb : option nat) (prm : Z) (s : driver)
  : driver :=
  match uart with
  | Some p =>
      let s := store p (set_callback None) s in
      let s := store p (set_param prm) s in
      store p (set_callback cb) s
  | None => s
  end.

(** PIN_FUNC_SELECT per pin *)
Definition uart0_pin_select (pin : Z) (s : driver) : driver :=
  if pin =? 1 then PIN_FUNC_SELECT PERIPHS_IO_MUX_U0TXD_U FUNC_UART0_TXD s
  else if pin =? 2 then PIN_FUNC_SELECT PERIPHS_IO_MUX_GPIO2_U FUNC_UART0_TXD_BK s
  else if pin =? 3 then PIN_FUNC_SELECT PERIPHS_IO_MUX_U0RXD_U FUNC_UART0_RXD s
  else if pin =? 13 then PIN_FUNC_SELECT PERIPHS_IO_MUX_MTCK_U FUNC_UART0_CTS s
  else if pin =? 15 then PIN_FUNC_SELECT PERIPHS_IO_MUX_MTDO_U FUNC_UART0_RTS s
  else s.

Definition uart0_pin_restore (pin : Z) (s : driver) : driver :=
  if pin =? 1 then PIN_FUNC_SELECT PERIPHS_IO_MUX_U0TXD_U FUNC_GPIO1 s
  else if pin =? 2 then PIN_FUNC_SELECT PERIPHS_IO_MUX_GPIO2_U FUNC_GPIO2 s
  else if pin =? 3 then PIN_FUNC_SELECT PERIPHS_IO_MUX_U0RXD_U FUNC_GPIO3 s
  else if pin =? 13 then PIN_FUNC_SELECT PERIPHS_IO_MUX_MTCK_U FUNC_GPIO13 s
  else if pin =? 15 then PIN_FUNC_SELECT PERIPHS_IO_MUX_MTDO_U FUNC_GPIO15 s
  else s.

Definition uart1_pin_select (pin : Z) (s : driver) : driver :=
  if pin =? 2 then PIN_FUNC_SELECT PERIPHS_IO_MUX_GPIO2_U FUNC_UART1_TXD_BK s else s.

Definition uart1_pin_restore (pin : Z) (s : driver) : driver :=
  if pin =? 2 then PIN_FUNC_SELECT PERIPHS_IO_MUX_GPIO2_U FUNC_GPIO2 s else s.

(* [uart_nr] is a uint8_t *)
Definition smg_uart_get_uart (nr : Z) (s : driver) : option Z :=
  if nr <? UART_COUNT then uartInstances s nr else None.

Definition smg_uart_disable_interrupts (s : driver) : driver := ETS_UART_INTR_DISABLE s.

Definition smg_uart_restore_interrupts (s : driver) : driver :=
  if negb (isrMask s =? 0) then ETS_UART_INTR_ENABLE s else s.

(** [smg_uart_read]: [buffer] is [false] for a null destination; the result
    is the bytes stored into it, their number being the returned count. *)

(* while(read < size && !uart->rx_buffer->isEmpty()) buf[read++] = readChar() *)
Fixpoint read_buffer_loop (left : nat) (uart : Z) (buf : list Z) (s : driver)
  : list Z * driver :=
  match left with
  | O => (buf, s)
  | S left' =>
      match rx_buffer (memory s uart) with
      | Some b =>
          if isEmpty b then (buf, s)
          else read_buffer_loop left' uart (buf ++ [uint8 (fst (readChar b))])
                 (store uart (set_rx_buffer (Some (snd (readChar b)))) s)
      | None => (buf, s)
      end
  end.

(* while(read < size && uart_rxfifo_count(nr) != 0) buf[read++] = READ_PERI_REG(UART_FIFO(nr)) *)
Fixpoint read_fifo_loop (left : nat) (nr : Z) (buf : list Z) (s : driver)
  : list Z * driver :=
  match left with
  | O => (buf, s)
  | S left' =>
      if uart_rxfifo_count nr s =? 0 then (buf, s)
      else let '(c, s) := READ_UART_FIFO nr s in
           read_fifo_loop left' nr (buf ++ [uint8 c]) s
  end.

Definition smg_uart_read (uart : option Z) (buffer : bool) (size : Z) (s : driver)
  : list Z * driver :=
  match uart with
  | None => ([], s)
  | Some p =>
      if negb (smg_uart_rx_enabled (memory s p)) || negb buffer || (size =? 0) then ([], s)
      else
        let s := notify p UART_NOTIFY_BEFORE_READ s in
        let '(buf, s) :=
          if is_some (rx_buffer (memory s p))
          then read_buffer_loop (Z.to_nat size) p [] s else ([], s) in
        if is_physical_uart uart s then
          let nr := uart_nr (memory s p) in
          let '(buf, s) :=
            read_fifo_loop (Z.to_nat (size - Z.of_nat (length buf))) nr buf s in
          let s := WRITE_PERI_REG (UART_INT_CLR nr)
                     (Z.lor (Z.lor UART_RXFIFO_FULL_INT_CLR UART_RXFIFO_TOUT_INT_CLR)
                            UART_RXFIFO_OVF_INT_CLR) s in
          let s := SET_PERI_REG_MASK (UART_INT_ENA nr)
                     (Z.lor (Z.lor UART_RXFIFO_FULL_INT_ENA UART_RXFIFO_TOUT_INT_ENA)
                            UART_RXFIFO_OVF_INT_ENA) s in
          (buf, s)
        else (buf, s)
  end.

Definition smg_uart_start_isr (uart : option Z) (s : driver) : driver :=
  match uart with
  | None => s
  | Some p =>
      if negb (is_physical_uart uart s) then s
      else
        let u := memory s p in
        let conf1v :=
          if smg_uart_rx_enabled u
          then Z.lor (Z.lor (Z.shiftl RX_FIFO_FULL_THRESHOLD UART_RXFIFO_FULL_THRHD_S)
                            (Z.shiftl 0x02 UART_RX_TOUT_THRHD_S)) UART_RX_TOUT_EN
          else 0 in
        let intena :=
          if smg_uart_rx_enabled u
          then Z.lor (Z.lor (Z.lor UART_RXFIFO_FULL_INT_ENA UART_RXFIFO_TOUT_INT_ENA)
                            UART_BRK_DET_INT_ENA) UART_RXFIFO_OVF_INT_ENA
          else 0 in
        let s := WRITE_PERI_REG (UART_CONF1 (uart_nr u)) conf1v s in
        let s := WRITE_PERI_REG (UART_INT_CLR (uart_nr u)) 0xffff s in
        let s := WRITE_PERI_REG (UART_INT_ENA (uart_nr u)) intena s in
        let oldmask := isrMask s in
        let s := set_isrMask (uint8 (bitSet (isrMask s) (uart_nr u))) s in
        if oldmask =? 0
        then ETS_UART_INTR_ENABLE (ETS_UART_INTR_ATTACH (ETS_UART_INTR_DISABLE s))
        else s
  end.

(** [smg_uart_write]: [buffer] is [None] for a null source, else the [size]
    bytes to send. [rest] is the part of the source not yet accepted,
    [buf + written]. *)

(* while(written < size && !uart_txfifo_full(nr)) WRITE_PERI_REG(UART_FIFO(nr), buf[written++]) *)
Fixpoint write_fifo_loop (rest : list Z) (written nr : Z) (s : driver)
  : list Z * Z * driver :=
  match rest with
  | [] => (rest, written, s)
  | c :: rest' =>
      if uart_txfifo_full nr s then (rest, written, s)
      else write_fifo_loop rest' (written + 1) nr (WRITE_PERI_REG (UART_FIFO nr) c s)
  end.

(* while(written < size && uart->tx_buffer->writeChar(buf[written])) ++written *)
Fixpoint write_buffer_loop (rest : list Z) (written uart : Z) (s : driver)
  : list Z * Z * driver :=
  match rest with
  | [] => (rest, written, s)
  | c :: rest' =>
      match tx_buffer (memory s uart) with
      | Some b =>
          if fst (writeChar c b)
          then write_buffer_loop rest' (written + 1) uart
                 (store uart (set_tx_buffer (Some (snd (writeChar c b)))) s)
          else (rest, written, s)
      | None => (rest, written, s)
      end
  end.

(** One pass of the body of [while(written < size)], lines 470-489. *)
Definition write_pass (rest : list Z) (written uart : Z) (isPhysical : bool) (s : driver)
  : list Z * Z * driver :=
  let nr := uart_nr (memory s uart) in
  let '(rest, written, s) :=
    if isPhysical &&
       match tx_buffer (memory s uart) with Some b => isEmpty b | None => true end
    then
      let '(rest, written, s) := write_fifo_loop rest written nr s in
      let s := WRITE_PERI_REG (UART_INT_CLR nr) UART_TXFIFO_EMPTY_INT_CLR s in
      let s := SET_PERI_REG_MASK (UART_INT_ENA nr) UART_TXFIFO_EMPTY_INT_ENA s in
      (rest, written, s)
    else (rest, written, s) in
  let '(rest, written, s) :=
    if is_some (tx_buffer (memory s uart))
    then write_buffer_loop rest written uart s else (rest, written, s) in
  (rest, written, notify uart UART_NOTIFY_AFTER_WRITE s).

(** The outer loop. With UART_OPT_TXWAIT it spins until everything is
    accepted, which needs the hardware to drain the FIFO meanwhile: [None]
    when [fuel] passes were not enough. *)
Fixpoint write_loop (fuel : nat) (rest : list Z) (written uart : Z) (isPhysical : bool)
    (s : driver) : option (Z * driver) :=
  match fuel with
  | O => None
  | S fuel' =>
      match rest with
      | [] => Some (written, s)
      | _ =>
          let '(rest, written, s) := write_pass rest written uart isPhysical s in
          if negb (bitRead (options (memory s uart)) UART_OPT_TXWAIT)
          then Some (written, s)
          else write_loop fuel' rest written uart isPhysical s
      end
  end.

Definition smg_uart_write (fuel : nat) (uart : option Z) (buffer : option (list Z))
    (s : driver) : option (Z * driver) :=
  match uart, buffer with
  | Some p, Some buf =>
      if negb (smg_uart_tx_enabled (memory s p)) || (Z.of_nat (length buf) =? 0)
      then Some (0, s)
      else write_loop fuel buf 0 p (is_physical_uart uart s) s
  | _, _ => Some (0, s)
  end.

Definition smg_uart_get_status (uart : option Z) (s : driver) : Z * driver :=
  match uart with
  | None => (0, s)
  | Some p =>
      let s := smg_uart_disable_interrupts s in
      let st := uint8 (Z.land (status (memory s p))
                              (Z.lor UART_BRK_DET_INT_ST UART_RXFIFO_OVF_INT_ST)) in
      let s := store p (set_status 0) s in
      let '(st, s) :=
        match get_physical uart s with
        | Some q =>
            let nr := uart_nr (memory s q) in
            let intraw := READ_PERI_REG (UART_INT_RAW nr) s in
            let intraw :=
              Z.land intraw
                (Z.lor (Z.lor (Z.lor UART_BRK_DET_INT_ST UART_RXFIFO_OVF_INT_ST)
                              UART_FRM_ERR_INT_ST) UART_PARITY_ERR_INT_ST) in
            let st := uint8 (Z.lor st intraw) in
            (st, WRITE_PERI_REG (UART_INT_CLR nr) st s)
        | None => (st, s)
        end in
      (st, smg_uart_restore_interrupts s)
  end.

Definition smg_uart_flush (uart : option Z) (m : smg_uart_mode_t) (s : driver) : driver :=
  match uart with
  | None => s
  | Some p =>
      let flushRx := negb (mode_eqb m UART_TX_ONLY)
                     && negb (mode_eqb (mode (memory s p)) UART_TX_ONLY) in
      let flushTx := negb (mode_eqb m UART_RX_ONLY)
                     && negb (mode_eqb (mode (memory s p)) UART_RX_ONLY) in
      let s := smg_uart_disable_interrupts s in
      let s := if flushRx then store p (fun u => set_rx_buffer (option_map clear (rx_buffer u)) u) s
               else s in
      let s := if flushTx then store p (fun u => set_tx_buffer (option_map clear (tx_buffer u)) u) s
               else s in
      let s :=
        if is_physical_uart uart s then
          let nr := uart_nr (memory s p) in
          let flushBits := Z.lor (if flushTx then UART_TXFIFO_RST else 0)
                                 (if flushRx then UART_RXFIFO_RST else 0) in
          let s := SET_PERI_REG_MASK (UART_CONF0 nr) flushBits s in
          let s := CLEAR_PERI_REG_MASK (UART_CONF0 nr) flushBits s in
          let s := if flushTx
                   then CLEAR_PERI_REG_MASK (UART_INT_ENA nr) UART_TXFIFO_EMPTY_INT_ENA s
                   else s in
          if flushRx then
            let s := WRITE_PERI_REG (UART_INT_CLR nr)
                       (uint32 (Z.lnot UART_TXFIFO_EMPTY_INT_CLR)) s in
            SET_PERI_REG_MASK (UART_INT_ENA nr)
              (Z.lor (Z.lor UART_RXFIFO_FULL_INT_ENA UART_RXFIFO_TOUT_INT_ENA)
                     UART_RXFIFO_OVF_INT_ENA) s
          else s
        else s in
      smg_uart_restore_interrupts s
  end.

Definition smg_uart_set_baudrate_reg (nr : Z) (baud : Z) (s : driver) : Z * driver :=
  if negb (is_physical nr) || (baud =? 0) then (0, s)
  else
    let clkdivv := UART_CLK_FREQ / baud in
    let s := WRITE_PERI_REG (UART_CLKDIV nr) clkdivv s in
    (if clkdivv =? 0 then 0 else UART_CLK_FREQ / clkdivv, s).

Definition smg_uart_set_baudrate (uart : option Z) (baud : Z) (s : driver) : Z * driver :=
  match get_physical uart s with
  | None => (0, s)
  | Some q =>
      let '(baud, s) := smg_uart_set_baudrate_reg (uart_nr (memory s q)) baud s in
      (baud, store q (set_baud_rate baud) s)
  end.


Definition smg_uart_detach (nr : Z) (s : driver) : driver :=
  if negb (is_physical nr) then s
  else
    let s := smg_uart_disable_interrupts s in
    let s := set_isrMask (uint8 (bitClear (isrMask s) nr)) s in
    let s := WRITE_PERI_REG (UART_CONF1 nr) 0 s in
    let s := WRITE_PERI_REG (UART_INT_CLR nr) 0xffff s in
    let s := WRITE_PERI_REG (UART_INT_ENA nr) 0 s in
    smg_uart_restore_interrupts s.

Definition smg_uart_detach_all (s : driver) : driver :=
  let s := smg_uart_disable_interrupts s in
  let detach_regs nr s :=
    let s := WRITE_PERI_REG (UART_CONF1 nr) 0 s in
    let s := WRITE_PERI_REG (UART_INT_CLR nr) 0xffff s in
    WRITE_PERI_REG (UART_INT_ENA nr) 0 s in
  let s := detach_regs 0 s in
  let s := detach_regs 1 s in
  set_isrMask 0 s.

Definition smg_uart_set_notify (nr : Z) (cb : option nat) (s : driver) : bool * driver :=
  if nr >=? UART_COUNT then (false, s)
  else (true, set_notifyCallbacks (upd (notifyCallbacks s) nr cb) s).

Definition smg_uart_rx_available (uart : option Z) (s : driver) : Z * driver :=
  match uart with
  | None => (0, s)
  | Some p =>
      if negb (smg_uart_rx_enabled (memory s p)) then (0, s)
      else
        let s := smg_uart_disable_interrupts s in
        let avail := if is_physical_uart uart s
                     then uart_rxfifo_count (uart_nr (memory s p)) s else 0 in
        let avail := match rx_buffer (memory s p) with
                     | Some b => uint32 (avail + available b)
                     | None => avail
                     end in
        (avail, smg_uart_restore_interrupts s)
  end.

Definition smg_uart_tx_free (uart : option Z) (s : driver) : Z * driver :=
  match uart with
  | None => (0, s)
  | Some p =>
      if negb (smg_uart_tx_enabled (memory s p)) then (0, s)
      else
        let s := smg_uart_disable_interrupts s in
        let space := if is_physical_uart uart s
                     then uart_txfifo_free (uart_nr (memory s p)) s else 0 in
        let space := match tx_buffer (memory s p) with
                     | Some b => uint32 (space + getFreeSpace b)
                     | None => space
                     end in
        (space, smg_uart_restore_interrupts s)
  end.

Definition smg_uart_set_break (uart : option Z) (state : bool) (s : driver) : driver :=
  match get_physical uart s with
  | Some q =>
      if state then SET_PERI_REG_MASK (UART_CONF0 (uart_nr (memory s q))) UART_TXD_BRK s
      else CLEAR_PERI_REG_MASK (UART_CONF0 (uart_nr (memory s q))) UART_TXD_BRK s
  | None => s
  end.

(** [smg_uart_config_t] *)
Record smg_uart_config_t := mkConfig {
  cfg_uart_nr : Z;
  cfg_tx_pin : Z;
  cfg_mode : smg_uart_mode_t;
  cfg_options : Z;
  cfg_baudrate : Z;
  cfg_format : Z;
  cfg_rx_size : Z;
  cfg_tx_size : Z
}.

(** Modelled from the spec: [smg_uart_realloc_buffer] is defined outside the
    sources. A buffer is optional: a request of size zero leaves the port
    without one and succeeds; otherwise a buffer of that capacity is
    allocated, and the call fails when the allocation does. [alloc_ok] tells
    which allocations the heap grants. *)
Definition smg_uart_realloc_buffer (alloc_ok : Z -> bool) (buffer : option SerialBuffer)
    (new_size : Z) : bool * option SerialBuffer :=
  if new_size =? 0 then (true, None)
  else if alloc_ok new_size then (true, Some (mkBuffer new_size []))
  else (false, buffer).

(** The tail of [smg_uart_init_ex], lines 741-748. *)
Definition init_finish (cfg : smg_uart_config_t) (uart : Z) (s : driver) : option Z * driver :=
  let s := snd (smg_uart_set_baudrate (Some uart) (cfg_baudrate cfg) s) in
  let s := smg_uart_flush (Some uart) UART_FULL s in
  let s := set_uartInstances (upd (uartInstances s) (cfg_uart_nr cfg) (Some uart)) s in
  let s := smg_uart_start_isr (Some uart) s in
  let s := notify uart UART_NOTIFY_AFTER_OPEN s in
  (Some uart, s).

(** [new_ok] tells whether [new smg_uart_t] succeeds. A deleted instance
    stays where it was in [memory]; nothing refers to it any more. *)
Definition smg_uart_init_ex (new_ok : bool) (alloc_ok : Z -> bool) (cfg : smg_uart_config_t)
    (s : driver) : option Z * driver :=
  if is_some (smg_uart_get_uart (cfg_uart_nr cfg) s) then (None, s)
  else if negb new_ok then (None, s)
  else
    let uart := next_free s in
    let s := set_next_free (uart + 1) s in
    let s := set_memory (upd (memory s) uart zero_uart) s in
    let s := store uart (set_uart_nr (cfg_uart_nr cfg)) s in
    let s := store uart (set_mode (cfg_mode cfg)) s in
    let s := store uart (set_options (cfg_options cfg)) s in
    let s := store uart (set_tx_pin UART_PIN_DEFAULT) s in
    let s := store uart (set_rx_pin UART_PIN_DEFAULT) s in
    let s := store uart (set_rx_headroom DEFAULT_RX_HEADROOM) s in
    let rxBufferSize := cfg_rx_size cfg in
    let txBufferSize := cfg_tx_size cfg in
    let nr := cfg_uart_nr cfg in
    if (nr =? UART0) || (nr =? UART2) then
      let rxBufferSize :=
        if nr =? UART2 then uint32 (rxBufferSize + UART_RX_FIFO_SIZE) else rxBufferSize in
      let txBufferSize :=
        if nr =? UART2 then uint32 (txBufferSize + UART_TX_FIFO_SIZE) else txBufferSize in
      let rx := smg_uart_realloc_buffer alloc_ok (rx_buffer (memory s uart)) rxBufferSize in
      if smg_uart_rx_enabled (memory s uart) && negb (fst rx) then (None, s)
      else
        let s := if smg_uart_rx_enabled (memory s uart)
                 then store uart (set_rx_buffer (snd rx)) s else s in
        let tx := smg_uart_realloc_buffer alloc_ok (tx_buffer (memory s uart)) txBufferSize in
        if smg_uart_tx_enabled (memory s uart) && negb (fst tx) then (None, s)
        else
          let s := if smg_uart_tx_enabled (memory s uart)
                   then store uart (set_tx_buffer (snd tx)) s else s in
          if nr =? UART2 then init_finish cfg uart s
          else
            let s := smg_uart_detach nr s in
            let s := if smg_uart_rx_enabled (memory s uart)
                     then uart0_pin_select 3 (store uart (set_rx_pin 3) s) else s in
            let s := if smg_uart_tx_enabled (memory s uart)
                     then let pin := if cfg_tx_pin cfg =? 2 then 2 else 1 in
                          uart0_pin_select pin (store uart (set_tx_pin pin) s)
                     else s in
            let s := CLEAR_PERI_REG_MASK UART_SWAP_REG UART_SWAP0 s in
            let s := WRITE_PERI_REG (UART_CONF0 UART0) (cfg_format cfg) s in
            init_finish cfg uart s
    else if nr =? UART1 then
      if mode_eqb (mode (memory s uart)) UART_RX_ONLY then (None, s)
      else
        let s := store uart (set_mode UART_TX_ONLY) s in
        let tx := smg_uart_realloc_buffer alloc_ok (tx_buffer (memory s uart)) txBufferSize in
        if negb (fst tx) then (None, s)
        else
          let s := store uart (set_tx_buffer (snd tx)) s in
          let s := smg_uart_detach nr s in
          let s := store uart (set_tx_pin 2) s in
          let s := uart1_pin_select 2 s in
          let s := WRITE_PERI_REG (UART_CONF0 UART1) (cfg_format cfg) s in
          init_finish cfg uart s
    else (None, s).

Definition smg_uart_swap (uart : option Z) (tx_pin_arg : Z) (s : driver) : driver :=
  match uart with
  | None => s
  | Some p =>
      if uart_nr (memory s p) =? UART0 then
        let s := uart0_pin_restore (tx_pin (memory s p)) s in
        let s := uart0_pin_restore (rx_pin (memory s p)) s in
        let s :=
          if (tx_pin (memory s p) =? 1) || (tx_pin (memory s p) =? 2)
             || (rx_pin (memory s p) =? 3) then
            let s := if smg_uart_tx_enabled (memory s p)
                     then store p (set_tx_pin 15) s else s in
            let s := if smg_uart_rx_enabled (memory s p)
                     then store p (set_rx_pin 13) s else s in
            SET_PERI_REG_MASK UART_SWAP_REG UART_SWAP0 s
          else
            let s := if smg_uart_tx_enabled (memory s p)
                     then store p (set_tx_pin (if tx_pin_arg =? 2 then 2 else 1)) s else s in
            let s := if smg_uart_rx_enabled (memory s p)
                     then store p (set_rx_pin 3) s else s in
            CLEAR_PERI_REG_MASK UART_SWAP_REG UART_SWAP0 s in
        let s := uart0_pin_select (tx_pin (memory s p)) s in
        uart0_pin_select (rx_pin (memory s p)) s
      else s
  end.

Definition smg_uart_set_tx (uart : option Z) (tx_pin_arg : Z) (s : driver) : bool * driver :=
  match uart with
  | Some p =>
      if (uart_nr (memory s p) =? UART0) && smg_uart_tx_enabled (memory s p) then
        let s := uart0_pin_restore (tx_pin (memory s p)) s in
        let s := store p (set_tx_pin (if tx_pin_arg =? 2 then 2 else 1)) s in
        (true, uart0_pin_select (tx_pin (memory s p)) s)
      else (false, s)
  | None => (false, s)
  end.

Definition smg_uart_set_pins (uart : option Z) (tx_pin_arg rx_pin_arg : Z) (s : driver)
  : bool * driver :=
  match uart with
  | None => (false, s)
  | Some p =>
      if negb (uart_nr (memory s p) =? UART0) then (false, s)
      else
        let res := true in
        let '(res, s) :=
          if smg_uart_tx_enabled (memory s p) && negb (tx_pin (memory s p) =? tx_pin_arg) then
            if (rx_pin_arg =? 13) && (tx_pin_arg =? 15) then (res, smg_uart_swap uart 15 s)
            else if (rx_pin_arg =? 3) && ((tx_pin_arg =? 1) || (tx_pin_arg =? 2)) then
              if negb (rx_pin (memory s p) =? rx_pin_arg)
              then (res, smg_uart_swap uart tx_pin_arg s)
              else (res, snd (smg_uart_set_tx uart tx_pin_arg s))
            else (false, s)
          else (res, s) in
        let '(res, s) :=
          if smg_uart_rx_enabled (memory s p) && negb (rx_pin (memory s p) =? rx_pin_arg) then
            if (rx_pin_arg =? 13) && (tx_pin_arg =? 15) then (res, smg_uart_swap uart 15 s)
            else (false, s)
          else (res, s) in
        (res, s)
  end.

(** ** What the properties speak about *)

(** The error flags [smg_uart_get_status] reads from UART_INT_RAW. *)
Definition ERR_MASK : Z :=
  Z.lor (Z.lor (Z.lor UART_BRK_DET_INT_ST UART_RXFIFO_OVF_INT_ST) UART_FRM_ERR_INT_ST)
        UART_PARITY_ERR_INT_ST.

(** An overflow is on record for the instance [p]: in its sticky status, or
    as the raw flag of the physical port that backs it. *)
Definition overflow_recorded (p : Z) (s : driver) : Prop :=
  Z.testbit (status (memory s p)) OVF_BIT = true
  \/ exists q, get_physical (Some p) s = Some q
              /\ Z.testbit (int_raw (ports s (uart_nr (memory s q)))) OVF_BIT = true.

(** The pins of UART0 as [smg_uart_init_ex] assigns them: transmit on pin 1
    or 2 and receive on pin 3 for the roles in use, the pin-swap control bit
    clear. *)
Definition default_pin_set (p : Z) (s : driver) : Prop :=
  let u := memory s p in
  uart_nr u = UART0
  /\ (if smg_uart_tx_enabled u then tx_pin u = 1 \/ tx_pin u = 2
      else tx_pin u = UART_PIN_DEFAULT)
  /\ (if smg_uart_rx_enabled u then rx_pin u = 3 else rx_pin u = UART_PIN_DEFAULT)
  /\ Z.testbit (swap_reg s) SWAP0_BIT = false.

(** Transmit on a default pin while receive is not on pin 3, both roles in
    use: the state [smg_uart_set_tx] leaves after a swap. *)
Definition mixed_pin_set (p : Z) (s : driver) : Prop :=
  let u := memory s p in
  smg_uart_tx_enabled u = true /\ smg_uart_rx_enabled u = true
  /\ (tx_pin u = 1 \/ tx_pin u = 2) /\ rx_pin u <> 3.

(** The one kind of request [smg_uart_set_pins] refuses after having changed
    the pins: on UART0 in the mixed pin set, receive pin 3 asked for together
    with a transmit pin 1 or 2 other than the current one. *)
Definition partial_request (p t r : Z) (s : driver) : Prop :=
  uart_nr (memory s p) = UART0 /\ mixed_pin_set p s
  /\ r = 3 /\ (t = 1 \/ t = 2) /\ tx_pin (memory s p) <> t.

(** The file-scope variables and the trace, apart from the instances and the
    UART registers. *)
Definition globals (s : driver) :=
  (next_free s, uartInstances s, notifyCallbacks s, isrMask s, swap_reg s, trace s).

(** The FIFO-empty interrupt source of port [k] is enabled. *)
Definition empty_armed (k : Z) (s : driver) : bool :=
  Z.testbit (int_ena (ports s k)) EMPTY_BIT.

(** No FIFO-empty interrupt source is enabled in [s'] that was not in [s]. *)
Definition ena_le (s s' : driver) : Prop :=
  forall k, empty_armed k s' = true -> empty_armed k s = true.

(** What the data callback of [p] saw of the FIFO-full event between [s] and
    [s']: reported when a call was made with the FIFO-full bit in its status
    word, suppressed when no call was made or the bit was taken out. *)
Definition full_event_reported (p : Z) (s s' : driver) : Prop :=
  exists st, trace s' = EvCallback p st :: trace s /\ Z.testbit st FULL_BIT = true.

Definition full_event_suppressed (p : Z) (s s' : driver) : Prop :=
  trace s' = trace s
  \/ exists st, trace s' = EvCallback p st :: trace s /\ Z.testbit st FULL_BIT = false.

(** The same for the FIFO-empty event. *)
Definition empty_event_suppressed (p : Z) (s s' : driver) : Prop :=
  trace s' = trace s
  \/ exists st, trace s' = EvCallback p st :: trace s /\ Z.testbit st EMPTY_BIT = false.

(** The entry points of the driver modelled here, [smg_uart_write] apart. *)
Inductive driver_call :=
  | call_uart_isr
  | call_handle_uart_interrupt (nr : Z) (uart : option Z)
  | call_read (uart : option Z) (buffer : bool) (size : Z)
  | call_flush (uart : option Z) (m : smg_uart_mode_t)
  | call_get_status (uart : option Z)
  | call_start_isr (uart : option Z)
  | call_detach (nr : Z)
  | call_detach_all
  | call_set_notify (nr : Z) (cb : option nat)
  | call_rx_available (uart : option Z)
  | call_tx_free (uart : option Z)
  | call_set_break (uart : option Z) (state : bool)
  | call_set_baudrate_reg (nr baud : Z)
  | call_set_baudrate (uart : option Z) (baud : Z)
  | call_set_callback (uart : option Z) (cb : option nat) (prm : Z)
  | call_swap (uart : option Z) (pin : Z)
  | call_set_tx (uart : option Z) (pin : Z)
  | call_set_pins (uart : option Z) (tx rx : Z)
  | call_init_ex (new_ok : bool) (alloc_ok : Z -> bool) (cfg : smg_uart_config_t).

Definition run_call (c : driver_call) (s : driver) : driver :=
  match c with
  | call_uart_isr => uart_isr s
  | call_handle_uart_interrupt nr uart => handle_uart_interrupt nr uart s
  | call_read uart buffer size => snd (smg_uart_read uart buffer size s)
  | call_flush uart m => smg_uart_flush uart m s
  | call_get_status uart => snd (smg_uart_get_status uart s)
  | call_start_isr uart => smg_uart_start_isr uart s
  | call_detach nr => smg_uart_detach nr s
  | call_detach_all => smg_uart_detach_all s
  | call_set_notify nr cb => snd (smg_uart_set_notify nr cb s)
  | call_rx_available uart => snd (smg_uart_rx_available uart s)
  | call_tx_free uart => snd (smg_uart_tx_free uart s)
  | call_set_break uart state => smg_uart_set_break uart state s
  | call_set_baudrate_reg nr baud => snd (smg_uart_set_baudrate_reg nr baud s)
  | call_set_baudrate uart baud => snd (smg_uart_set_baudrate uart baud s)
  | call_set_callback uart cb prm => smg_uart_set_callback uart cb prm s
  | call_swap uart pin => smg_uart_swap uart pin s
  | call_set_tx uart pin => snd (smg_uart_set_tx uart pin s)
  | call_set_pins uart tx rx => snd (smg_uart_set_pins uart tx rx s)
  | call_init_ex new_ok alloc_ok cfg => snd (smg_uart_init_ex new_ok alloc_ok cfg s)
  end.

(** ** Events of the hardware *)

(** The hardware raises interrupt sources of a port: the bits show in the
    raw and in the masked status. *)
Definition raise_int (nr mask : Z) (s : driver) : driver :=
  set_port nr (fun r => mkPort (rx_fifo r) (tx_fifo r) (Z.lor (int_raw r) mask)
                               (Z.lor (int_st r) mask) (int_ena r) (clkdiv r)
                               (conf0 r) (conf1 r)) s.

(** Bytes arrive from the wire into the receive FIFO of a port. *)
Definition receive (nr : Z) (bytes : list Z) (s : driver) : driver :=
  set_port nr (fun r => with_rx_fifo (rx_fifo r ++ bytes) r) s.

(** The wire takes the [n] oldest bytes out of the transmit FIFO of a port. *)
Definition transmitted (nr : Z) (n : nat) (s : driver) : driver :=
  set_port nr (fun r => with_tx_fifo (skipn n (tx_fifo r)) r) s.

(** The hardware has received [bytes] and raises FIFO-full. *)
Definition fifo_full (bytes : list Z) (s : driver) : driver :=
  raise_int UART0 UART_RXFIFO_FULL_INT_ST (receive UART0 bytes s).

(** ** States used in the examples *)

Definition reset_port : uart_port := mkPort [] [] 0 0 0 0 0 0.

Definition reset_io_mux (r : io_mux_reg) : pin_func :=
  match r with
  | PERIPHS_IO_MUX_U0TXD_U => FUNC_GPIO1
  | PERIPHS_IO_MUX_GPIO2_U => FUNC_GPIO2
  | PERIPHS_IO_MUX_U0RXD_U => FUNC_GPIO3
  | PERIPHS_IO_MUX_MTCK_U => FUNC_GPIO13
  | PERIPHS_IO_MUX_MTDO_U => FUNC_GPIO15
  end.

(** Nothing opened yet, all registers zero, address 1 the first free one. *)
Definition boot : driver :=
  mkDriver (fun _ => zero_uart) 1 (fun _ => None) (fun _ => None) 0
           (fun _ => reset_port) 0 reset_io_mux false false [].

(** A heap that grants every allocation. *)
Definition heap_ok (size : Z) : bool := true.

Definition config (nr : Z) (m : smg_uart_mode_t) (rx_size tx_size : Z) : smg_uart_config_t :=
  mkConfig nr 1 m 0 115200 0x1c rx_size tx_size.

(** [boot] after a successful open of [nr]. *)
Definition opened (nr : Z) (m : smg_uart_mode_t) (rx_size tx_size : Z) : driver :=
  snd (smg_uart_init_ex true heap_ok (config nr m rx_size tx_size) boot).

(** UART0 open for both directions, a receive overflow serviced by the
    interrupt handler. *)
Definition overflowed : driver :=
  uart_isr (raise_int UART0 UART_RXFIFO_OVF_INT_ST (opened UART0 UART_FULL 8 8)).

(** UART0 opened, swapped to the alternate pins, then its transmit pin put
    back on pin 1. *)
Definition swapped_then_tx1 : driver :=
  snd (smg_uart_set_tx (Some 1) 1 (smg_uart_swap (Some 1) 15 (opened UART0 UART_FULL 8 8))).

(** The headroom scenario: UART0 open for both directions with a receive
    buffer of 8 bytes, the headroom set to 2, a data callback registered. *)
Definition headroom_start : driver :=
  smg_uart_set_callback (Some 1) (Some 0%nat) 0
    (store 1 (set_rx_headroom 2) (opened UART0 UART_FULL 8 8)).

Definition headroom_six : driver := fifo_full [1; 2; 3; 4; 5; 6] headroom_start.
Definition headroom_seven : driver :=
  fifo_full [7] (handle_uart_interrupt UART0 (Some 1) headroom_six).
Definition headroom_five : driver := fifo_full [1; 2; 3; 4; 5] headroom_start.

(** The receive buffer of the headroom scenario filled to its capacity, two
    more bytes in the FIFO, FIFO-full raised. *)
Definition rx_buffer_full : driver :=
  fifo_full [9; 10]
    (handle_uart_interrupt UART0 (Some 1) (fifo_full [1; 2; 3; 4; 5; 6; 7; 8] headroom_start)).

(** UART0 with 127 bytes written, of which the wire has sent 5, then ten more
    bytes written: the FIFO takes 5 of them, the transmit buffer the other
    5. The wire sends 125 bytes and the FIFO-empty interrupt is raised. *)
Definition tx_pending : driver :=
  let s := opened UART0 UART_FULL 8 8 in
  let s := match smg_uart_write 1 (Some 1) (Some (repeat 0x55 127)) s with
           | Some (_, s) => s | None => s end in
  let s := transmitted UART0 5 s in
  let s := match smg_uart_write 1 (Some 1) (Some [1; 2; 3; 4; 5; 6; 7; 8; 9; 10]) s with
           | Some (_, s) => s | None => s end in
  raise_int UART0 UART_TXFIFO_EMPTY_INT_ST (transmitted UART0 125 s).

(** ** What the further properties speak about *)

(** An instance apart from its baud rate and its two buffers: what opening
    the port and the pin functions decide. *)
Definition settings (u : smg_uart_t) : smg_uart_t :=
  set_baud_rate 0 (set_rx_buffer None (set_tx_buffer None u)).

(** The registers the driver owns, and its registry. *)
Definition hardware (s : driver) := (ports s, io_mux s, swap_reg s, isrMask s).
Definition registry (s : driver) := (uartInstances s, notifyCallbacks s, trace s).

(** The two buffer requests of [smg_uart_init_ex], lines 669-686 and 723. *)
Definition rx_request (alloc_ok : Z -> bool) (cfg : smg_uart_config_t) :=
  smg_uart_realloc_buffer alloc_ok None
    (if cfg_uart_nr cfg =? UART2 then uint32 (cfg_rx_size cfg + UART_RX_FIFO_SIZE)
     else cfg_rx_size cfg).
Definition tx_request (alloc_ok : Z -> bool) (cfg : smg_uart_config_t) :=
  smg_uart_realloc_buffer alloc_ok None
    (if cfg_uart_nr cfg =? UART2 then uint32 (cfg_tx_size cfg + UART_TX_FIFO_SIZE)
     else cfg_tx_size cfg).

(** The mode an instance is opened with: UART1 is always transmit-only. *)
Definition opened_mode (cfg : smg_uart_config_t) : smg_uart_mode_t :=
  if cfg_uart_nr cfg =? UART1 then UART_TX_ONLY else cfg_mode cfg.

Definition wants_rx (cfg : smg_uart_config_t) : bool :=
  negb (mode_eqb (opened_mode cfg) UART_TX_ONLY).
Definition wants_tx (cfg : smg_uart_config_t) : bool :=
  negb (mode_eqb (opened_mode cfg) UART_RX_ONLY).

(** The conditions under which [smg_uart_init_ex] goes through: the port is
    not open yet, the instance can be allocated, the port exists, UART1 is
    not asked to receive only, and the buffers wanted are granted. *)
Definition admissible (new_ok : bool) (alloc_ok : Z -> bool) (cfg : smg_uart_config_t)
    (s : driver) : Prop :=
  let nr := cfg_uart_nr cfg in
  smg_uart_get_uart nr s = None
  /\ new_ok = true
  /\ (nr = UART0 \/ nr = UART1 \/ nr = UART2)
  /\ (nr = UART1 -> cfg_mode cfg <> UART_RX_ONLY)
  /\ (wants_rx cfg = true -> fst (rx_request alloc_ok cfg) = true)
  /\ (wants_tx cfg = true -> fst (tx_request alloc_ok cfg) = true).

(** The instance [smg_uart_init_ex] has filled in when it reaches its tail. *)
Definition opened_instance (alloc_ok : Z -> bool) (cfg : smg_uart_config_t) : smg_uart_t :=
  let nr := cfg_uart_nr cfg in
  mkUart nr 0 (opened_mode cfg) (cfg_options cfg)
    (if (nr =? UART0) && wants_rx cfg then 3 else UART_PIN_DEFAULT)
    (if nr =? UART0
     then if wants_tx cfg then if cfg_tx_pin cfg =? 2 then 2 else 1 else UART_PIN_DEFAULT
     else if nr =? UART1 then 2 else UART_PIN_DEFAULT)
    DEFAULT_RX_HEADROOM 0
    (if wants_rx cfg then snd (rx_request alloc_ok cfg) else None)
    (if wants_tx cfg then snd (tx_request alloc_ok cfg) else None)
    None 0.

(** The registers as [smg_uart_init_ex] has them when it reaches its tail:
    those of the other ports are untouched; a virtual port has touched none;
    UART0 has its pins selected and the pin swap cleared, UART1 its transmit
    pin selected. *)
Definition prepared_hw (cfg : smg_uart_config_t) (s S : driver) : Prop :=
  let nr := cfg_uart_nr cfg in
  (forall k, k <> nr -> ports S k = ports s k)
  /\ (nr = UART2 -> hardware S = hardware s)
  /\ (nr = UART0 ->
      Z.testbit (swap_reg S) SWAP0_BIT = false
      /\ (wants_rx cfg = true -> io_mux S PERIPHS_IO_MUX_U0RXD_U = FUNC_UART0_RXD)
      /\ (wants_tx cfg = true ->
          if cfg_tx_pin cfg =? 2
          then io_mux S PERIPHS_IO_MUX_GPIO2_U = FUNC_UART0_TXD_BK
          else io_mux S PERIPHS_IO_MUX_U0TXD_U = FUNC_UART0_TXD))
  /\ (nr = UART1 ->
      swap_reg S = swap_reg s
      /\ io_mux S PERIPHS_IO_MUX_GPIO2_U = FUNC_UART1_TXD_BK).

(** Which directions [smg_uart_flush] clears, lines 577-578. *)
Definition flushes_rx (m : smg_uart_mode_t) (u : smg_uart_t) : bool :=
  negb (mode_eqb m UART_TX_ONLY) && negb (mode_eqb (mode u) UART_TX_ONLY).
Definition flushes_tx (m : smg_uart_mode_t) (u : smg_uart_t) : bool :=
  negb (mode_eqb m UART_RX_ONLY) && negb (mode_eqb (mode u) UART_RX_ONLY).

(** What [smg_uart_flush] does to the registers of its port, lines 591-611. *)
Definition flushed_port (frx ftx : bool) (r : uart_port) : uart_port :=
  let flushBits := Z.lor (if ftx then UART_TXFIFO_RST else 0)
                         (if frx then UART_RXFIFO_RST else 0) in
  let r := with_conf0 (Z.lor (conf0 r) flushBits) r in
  let r := with_conf0 (Z.land (conf0 r) (Z.lnot flushBits)) r in
  let r := if ftx then with_int_ena (Z.land (int_ena r) (Z.lnot UART_TXFIFO_EMPTY_INT_ENA)) r
           else r in
  if frx then
    let r := with_int_clr (uint32 (Z.lnot UART_TXFIFO_EMPTY_INT_CLR)) r in
    with_int_ena (Z.lor (int_ena r)
                    (Z.lor (Z.lor UART_RXFIFO_FULL_INT_ENA UART_RXFIFO_TOUT_INT_ENA)
                           UART_RXFIFO_OVF_INT_ENA)) r
  else r.

(** What [smg_uart_start_isr] does to the registers of its port, lines 414-444. *)
Definition started_port (rx_on : bool) (r : uart_port) : uart_port :=
  let conf1v :=
    if rx_on
    then Z.lor (Z.lor (Z.shiftl RX_FIFO_FULL_THRESHOLD UART_RXFIFO_FULL_THRHD_S)
                      (Z.shiftl 0x02 UART_RX_TOUT_THRHD_S)) UART_RX_TOUT_EN
    else 0 in
  let intena :=
    if rx_on
    then Z.lor (Z.lor (Z.lor UART_RXFIFO_FULL_INT_ENA UART_RXFIFO_TOUT_INT_ENA)
                      UART_BRK_DET_INT_ENA) UART_RXFIFO_OVF_INT_ENA
    else 0 in
  with_int_ena intena (with_int_clr 0xffff (with_conf1 conf1v r)).

(** What [smg_uart_detach] does to the registers of its port, lines 943-945. *)
Definition detached_port (r : uart_port) : uart_port :=
  with_int_ena 0 (with_int_clr 0xffff (with_conf1 0 r)).

(** The bytes received and not yet read: those in the receive buffer of the
    instance, oldest first, and behind them those still in the receive FIFO
    of port [nr]. *)
Definition rx_held (p : Z) (s : driver) : list Z :=
  match rx_buffer (memory s p) with Some b => contents b | None => [] end.
Definition rx_queue (p nr : Z) (s : driver) : list Z :=
  rx_held p s ++ rx_fifo (ports s nr).

(** The bytes accepted and not yet sent, as the wire will see them: those in
    the transmit FIFO of port [nr], and behind them those in the transmit
    buffer of the instance. *)
Definition tx_held (p : Z) (s : driver) : list Z :=
  match tx_buffer (memory s p) with Some b => contents b | None => [] end.
Definition tx_queue (p nr : Z) (s : driver) : list Z :=
  tx_fifo (ports s nr) ++ map uint8 (tx_held p s).
(** The bytes [smg_uart_read] can deliver from the instance [p]: a virtual
    port has no FIFO of its own. *)
Definition rx_readable (p : Z) (s : driver) : list Z :=
  let nr := uart_nr (memory s p) in
  rx_held p s ++ (if is_physical nr then rx_fifo (ports s nr) else []).
(** The bytes the instance [p] has accepted and not yet sent, in the order
    the wire will see them: those in the FIFO of its port, when it has one
    of its own, then those in its transmit buffer. *)
Definition tx_accepted (p : Z) (s : driver) : list Z :=
  let nr := uart_nr (memory s p) in
  (if is_physical nr then tx_fifo (ports s nr) else []) ++ map uint8 (tx_held p s).

(** The transmit buffer of the instance holds nothing, or is not there. *)
Definition tx_buffer_idle (p : Z) (s : driver) : bool :=
  match tx_buffer (memory s p) with Some b => isEmpty b | None => true end.

(** * Properties *)

Lemma upd_same {A} (f : Z -> A) k v : upd f k v k = v.
Proof. unfold upd. now rewrite Z.eqb_refl. Qed.

Lemma upd_other {A} (f : Z -> A) k v x : x <> k -> upd f k v x = f x.
Proof. unfold upd. intros H. apply Z.eqb_neq in H. now rewrite H. Qed.

(** UART0 after [smg_uart_init_ex]: registered, on the default pins, the
    divider for 115200 baud programmed, the receive interrupts enabled. *)
Example opened_uart0_pins :
  let s := opened UART0 UART_FULL 8 8 in
  uartInstances s UART0 = Some 1 /\ tx_pin (memory s 1) = 1 /\ rx_pin (memory s 1) = 3
  /\ clkdiv (ports s UART0) = 694 /\ baud_rate (memory s 1) = 115273
  /\ int_ena (ports s UART0) = 0x191 /\ isrMask s = 1.
Proof. vm_compute. repeat split. Qed.

(** ** Baud rate *)

Lemma clk_div_zero_iff baud : 0 < baud -> (UART_CLK_FREQ / baud = 0 <-> UART_CLK_FREQ < baud).
Proof.
  intros Hb. unfold UART_CLK_FREQ. split; intros H.
  - apply Z.div_small_iff in H; lia.
  - apply Z.div_small. lia.
Qed.

(** C2, as the code has it. For a physical port and a 32-bit rate: a rate of
    zero returns zero and leaves the state, so the clock-divider register, as
    it was. Any other rate writes the divider [UART_CLK_FREQ / baud] to the
    register, also when that divider is zero, which is the case exactly when
    the rate is above the reference clock; the reported rate is then zero,
    and [UART_CLK_FREQ / divider] otherwise. *)
Theorem set_baudrate_reg_divider (nr baud : Z) (s : driver) :
  is_physical nr = true ->
  0 <= baud < 2 ^ 32 ->
  (baud = 0 -> smg_uart_set_baudrate_reg nr baud s = (0, s)) /\
  (baud <> 0 ->
     let d := UART_CLK_FREQ / baud in
     snd (smg_uart_set_baudrate_reg nr baud s) = WRITE_PERI_REG (UART_CLKDIV nr) d s
     /\ READ_PERI_REG (UART_CLKDIV nr) (snd (smg_uart_set_baudrate_reg nr baud s)) = d
     /\ (d = 0 <-> UART_CLK_FREQ < baud)
     /\ (d = 0 -> fst (smg_uart_set_baudrate_reg nr baud s) = 0)
     /\ (d <> 0 -> fst (smg_uart_set_baudrate_reg nr baud s) = UART_CLK_FREQ / d)).
Proof.
  intros Hphys Hrange. unfold smg_uart_set_baudrate_reg. rewrite Hphys. cbn [negb orb].
  split.
  - intros ->. reflexivity.
  - intros Hne. apply Z.eqb_neq in Hne as Hne'. rewrite Hne'. cbn [fst snd].
    set (d := UART_CLK_FREQ / baud). repeat split.
    + cbn. now rewrite upd_same.
    + apply clk_div_zero_iff. lia.
    + apply clk_div_zero_iff. lia.
    + intros ->. reflexivity.
    + intros Hd. apply Z.eqb_neq in Hd. now rewrite Hd.
Qed.

Lemma set_baudrate_reg_divider_witness :
  let r := smg_uart_set_baudrate_reg UART0 115200 boot in
  fst r = 115273 /\ READ_PERI_REG (UART_CLKDIV UART0) (snd r) = 694.
Proof.
  destruct (set_baudrate_reg_divider UART0 115200 boot) as [_ H].
  - reflexivity.
  - lia.
  - destruct H as (_ & Hreg & _ & _ & Hrate); [discriminate |].
    split; [rewrite Hrate; [reflexivity | discriminate] | exact Hreg].
Defined.

(** C2 as stated fails: a rate above the reference clock has divider zero,
    and the call overwrites the clock divider of the port with that zero. *)
Lemma set_baudrate_reg_writes_zero_divider :
  let s := snd (smg_uart_set_baudrate_reg UART0 115200 boot) in
  UART_CLK_FREQ / 80000001 = 0
  /\ fst (smg_uart_set_baudrate_reg UART0 80000001 s) = 0
  /\ READ_PERI_REG (UART_CLKDIV UART0) s = 694
  /\ READ_PERI_REG (UART_CLKDIV UART0) (snd (smg_uart_set_baudrate_reg UART0 80000001 s)) = 0
  /\ ~ (UART_CLK_FREQ / 80000001 = 0 ->
        READ_PERI_REG (UART_CLKDIV UART0) (snd (smg_uart_set_baudrate_reg UART0 80000001 s))
        = READ_PERI_REG (UART_CLKDIV UART0) s).
Proof.
  repeat split; try reflexivity.
  intros H. specialize (H eq_refl). vm_compute in H. discriminate.
Qed.

(** ** Opening a port *)

(** C9. Opening a port identifier that already has a registered instance
    returns null and changes nothing: the whole driver state, so the
    instance, its buffers and the registry, is the one before the call. *)
Theorem init_ex_already_open (new_ok : bool) (alloc_ok : Z -> bool)
    (cfg : smg_uart_config_t) (s : driver) (p : Z) :
  cfg_uart_nr cfg < UART_COUNT ->
  uartInstances s (cfg_uart_nr cfg) = Some p ->
  smg_uart_init_ex new_ok alloc_ok cfg s = (None, s).
Proof.
  intros Hnr Hreg. unfold smg_uart_init_ex, smg_uart_get_uart.
  apply Z.ltb_lt in Hnr. rewrite Hnr, Hreg. reflexivity.
Qed.

Lemma init_ex_already_open_witness :
  let s := opened UART0 UART_FULL 8 8 in
  smg_uart_init_ex true heap_ok (config UART0 UART_TX_ONLY 0 0) s = (None, s).
Proof.
  apply (init_ex_already_open true heap_ok (config UART0 UART_TX_ONLY 0 0)
           (opened UART0 UART_FULL 8 8) 1).
  - reflexivity.
  - reflexivity.
Defined.

(** C1 as stated fails: UART1 opened for receive and transmit is not
    refused. The call returns an instance whose mode has been reduced to
    transmit-only. *)
Lemma init_ex_uart1_full_degrades :
  let r := smg_uart_init_ex true heap_ok (config UART1 UART_FULL 0 16) boot in
  fst r <> None
  /\ fst r = Some 1
  /\ mode (memory (snd r) 1) = UART_TX_ONLY
  /\ uartInstances (snd r) UART1 = Some 1.
Proof. vm_compute. repeat split. discriminate. Qed.

(** ** Proof tools *)

Arguments upd : simpl never.
Arguments uint8 : simpl never.
Arguments uint16 : simpl never.
Arguments uint32 : simpl never.
Arguments init_finish : simpl never.
Arguments smg_uart_detach : simpl never.
Arguments smg_uart_flush : simpl never.
Arguments smg_uart_start_isr : simpl never.
Arguments smg_uart_set_baudrate : simpl never.
Arguments smg_uart_get_status : simpl never.
Arguments smg_uart_swap : simpl never.
Arguments smg_uart_set_tx : simpl never.
Arguments handle_uart_interrupt : simpl never.

Ltac upd_simpl := rewrite ?upd_same; rewrite ?upd_other by assumption.

Ltac break_if :=
  match goal with
  | |- context [if ?c then _ else _] => destruct c
  | |- context [match ?c with Some _ => _ | None => _ end] => destruct c
  end.

Ltac unfold_prims :=
  unfold smg_uart_restore_interrupts, smg_uart_disable_interrupts,
    ETS_UART_INTR_DISABLE, ETS_UART_INTR_ENABLE, ETS_UART_INTR_ATTACH,
    SET_PERI_REG_MASK, CLEAR_PERI_REG_MASK, notify, log, PIN_FUNC_SELECT,
    uart0_pin_select, uart0_pin_restore, uart1_pin_select, uart1_pin_restore.

Ltac crunch := repeat (unfold_prims; cbn; upd_simpl; try break_if); try reflexivity.

(** The mode of an instance is set once, when the port is opened. *)

Lemma mode_flush u m s p : mode (memory (smg_uart_flush u m s) p) = mode (memory s p).
Proof.
  unfold smg_uart_flush. destruct u as [q|]; [|reflexivity].
  destruct (Z.eq_dec p q) as [->|Hne]; crunch.
Qed.

Lemma mode_start_isr u s p : mode (memory (smg_uart_start_isr u s) p) = mode (memory s p).
Proof. unfold smg_uart_start_isr. destruct u as [q|]; crunch. Qed.

Lemma mode_set_baudrate u b s p :
  mode (memory (snd (smg_uart_set_baudrate u b s)) p) = mode (memory s p).
Proof.
  unfold smg_uart_set_baudrate, smg_uart_set_baudrate_reg.
  destruct (get_physical u s) as [q|]; [|reflexivity].
  destruct (Z.eq_dec p q) as [->|Hne]; crunch.
Qed.

Lemma mode_detach nr s p : mode (memory (smg_uart_detach nr s) p) = mode (memory s p).
Proof. unfold smg_uart_detach. crunch. Qed.

Lemma init_finish_mode cfg uart s p :
  mode (memory (snd (init_finish cfg uart s)) p) = mode (memory s p).
Proof.
  unfold init_finish. cbn [snd]. unfold notify at 1.
  break_if; unfold log; cbn [memory set_trace];
    rewrite mode_start_isr; cbn [memory set_uartInstances];
    rewrite mode_flush, mode_set_baudrate; reflexivity.
Qed.

(** Symbolic execution one step at a time: [f (op x)], for a field [f] and
    a state or record update [op], is rewritten with an equation proved on
    a variable in place of [x]. *)

Ltac is_update h :=
  lazymatch h with
  | set_uart_nr _ => idtac | set_baud_rate _ => idtac | set_mode _ => idtac
  | set_options _ => idtac | set_rx_pin _ => idtac | set_tx_pin _ => idtac
  | set_rx_headroom _ => idtac | set_status _ => idtac | set_rx_buffer _ => idtac
  | set_tx_buffer _ => idtac | set_callback _ => idtac | set_param _ => idtac
  | set_memory _ => idtac | set_next_free _ => idtac | set_uartInstances _ => idtac
  | set_notifyCallbacks _ => idtac | set_isrMask _ => idtac | set_ports _ => idtac
  | set_swap_reg _ => idtac | set_io_mux _ => idtac | set_intr_enabled _ => idtac
  | set_intr_attached _ => idtac | set_trace _ => idtac
  | with_rx_fifo _ => idtac | with_tx_fifo _ => idtac | with_int_ena _ => idtac
  | with_int_clr _ => idtac | with_clkdiv _ => idtac | with_conf0 _ => idtac
  | with_conf1 _ => idtac
  | store _ _ => idtac | set_port _ _ => idtac | log _ => idtac
  | WRITE_PERI_REG _ _ => idtac | SET_PERI_REG_MASK _ _ => idtac
  | CLEAR_PERI_REG_MASK _ _ => idtac | PIN_FUNC_SELECT _ _ => idtac
  | ETS_UART_INTR_DISABLE => idtac | ETS_UART_INTR_ENABLE => idtac
  | ETS_UART_INTR_ATTACH => idtac
  | smg_uart_disable_interrupts => idtac
  end.

Ltac is_field f :=
  lazymatch f with
  | uart_nr => idtac | baud_rate => idtac | mode => idtac | options => idtac
  | rx_pin => idtac | tx_pin => idtac | rx_headroom => idtac | status => idtac
  | rx_buffer => idtac | tx_buffer => idtac | callback => idtac
  | memory => idtac | next_free => idtac | uartInstances => idtac
  | notifyCallbacks => idtac | isrMask => idtac | ports => idtac
  | swap_reg => idtac | io_mux => idtac | ets_uart_intr_enabled => idtac
  | ets_uart_intr_attached => idtac | trace => idtac
  | rx_fifo => idtac | tx_fifo => idtac | int_raw => idtac | int_st => idtac
  | int_ena => idtac | clkdiv => idtac | conf0 => idtac | conf1 => idtac
  end.

Ltac step :=
  match goal with
  | |- context [?f (?h ?x)] =>
      is_field f; is_update h;
      let T := type of x in
      let r := eval cbv beta delta
                 [smg_uart_disable_interrupts
                  ETS_UART_INTR_DISABLE ETS_UART_INTR_ENABLE ETS_UART_INTR_ATTACH
                  SET_PERI_REG_MASK CLEAR_PERI_REG_MASK log PIN_FUNC_SELECT]
               in (fun y : T => f (h y)) in
      let r := eval cbn in r in
      let H := fresh "Hstep" in
      assert (H : forall y : T, f (h y) = r y) by (intro; reflexivity);
      progress (rewrite H); clear H; cbv beta
  end.

(** The interrupt gate, the pin multiplexer and the notification hook leave
    the instances, the registry and the UART registers alone. *)

Lemma memory_restore s : memory (smg_uart_restore_interrupts s) = memory s.
Proof. unfold smg_uart_restore_interrupts; unfold_prims; repeat break_if; reflexivity. Qed.

Lemma uartInstances_restore s : uartInstances (smg_uart_restore_interrupts s) = uartInstances s.
Proof. unfold smg_uart_restore_interrupts; unfold_prims; repeat break_if; reflexivity. Qed.

Lemma notifyCallbacks_restore s : notifyCallbacks (smg_uart_restore_interrupts s) = notifyCallbacks s.
Proof. unfold smg_uart_restore_interrupts; unfold_prims; repeat break_if; reflexivity. Qed.

Lemma isrMask_restore s : isrMask (smg_uart_restore_interrupts s) = isrMask s.
Proof. unfold smg_uart_restore_interrupts; unfold_prims; repeat break_if; reflexivity. Qed.

Lemma ports_restore s : ports (smg_uart_restore_interrupts s) = ports s.
Proof. unfold smg_uart_restore_interrupts; unfold_prims; repeat break_if; reflexivity. Qed.

Lemma swap_reg_restore s : swap_reg (smg_uart_restore_interrupts s) = swap_reg s.
Proof. unfold smg_uart_restore_interrupts; unfold_prims; repeat break_if; reflexivity. Qed.

Lemma trace_restore s : trace (smg_uart_restore_interrupts s) = trace s.
Proof. unfold smg_uart_restore_interrupts; unfold_prims; repeat break_if; reflexivity. Qed.

Lemma memory_pin0_select pin s : memory (uart0_pin_select pin s) = memory s.
Proof. unfold uart0_pin_select; unfold_prims; repeat break_if; reflexivity. Qed.

Lemma uartInstances_pin0_select pin s : uartInstances (uart0_pin_select pin s) = uartInstances s.
Proof. unfold uart0_pin_select; unfold_prims; repeat break_if; reflexivity. Qed.

Lemma notifyCallbacks_pin0_select pin s : notifyCallbacks (uart0_pin_select pin s) = notifyCallbacks s.
Proof. unfold uart0_pin_select; unfold_prims; repeat break_if; reflexivity. Qed.

Lemma isrMask_pin0_select pin s : isrMask (uart0_pin_select pin s) = isrMask s.
Proof. unfold uart0_pin_select; unfold_prims; repeat break_if; reflexivity. Qed.

Lemma ports_pin0_select pin s : ports (uart0_pin_select pin s) = ports s.
Proof. unfold uart0_pin_select; unfold_prims; repeat break_if; reflexivity. Qed.

Lemma swap_reg_pin0_select pin s : swap_reg (uart0_pin_select pin s) = swap_reg s.
Proof. unfold uart0_pin_select; unfold_prims; repeat break_if; reflexivity. Qed.

Lemma trace_pin0_select pin s : trace (uart0_pin_select pin s) = trace s.
Proof. unfold uart0_pin_select; unfold_prims; repeat break_if; reflexivity. Qed.

Lemma memory_pin0_restore pin s : memory (uart0_pin_restore pin s) = memory s.
Proof. unfold uart0_pin_restore; unfold_prims; repeat break_if; reflexivity. Qed.

Lemma uartInstances_pin0_restore pin s : uartInstances (uart0_pin_restore pin s) = uartInstances s.
Proof. unfold uart0_pin_restore; unfold_prims; repeat break_if; reflexivity. Qed.

Lemma notifyCallbacks_pin0_restore pin s : notifyCallbacks (uart0_pin_restore pin s) = notifyCallbacks s.
Proof. unfold uart0_pin_restore; unfold_prims; repeat break_if; reflexivity. Qed.

Lemma isrMask_pin0_restore pin s : isrMask (uart0_pin_restore pin s) = isrMask s.
Proof. unfold uart0_pin_restore; unfold_prims; repeat break_if; reflexivity. Qed.

Lemma ports_pin0_restore pin s : ports (uart0_pin_restore pin s) = ports s.
Proof. unfold uart0_pin_restore; unfold_prims; repeat break_if; reflexivity. Qed.

Lemma swap_reg_pin0_restore pin s : swap_reg (uart0_pin_restore pin s) = swap_reg s.
Proof. unfold uart0_pin_restore; unfold_prims; repeat break_if; reflexivity. Qed.

Lemma trace_pin0_restore pin s : trace (uart0_pin_restore pin s) = trace s.
Proof. unfold uart0_pin_restore; unfold_prims; repeat break_if; reflexivity. Qed.

Lemma memory_pin1_select pin s : memory (uart1_pin_select pin s) = memory s.
Proof. unfold uart1_pin_select; unfold_prims; repeat break_if; reflexivity. Qed.

Lemma uartInstances_pin1_select pin s : uartInstances (uart1_pin_select pin s) = uartInstances s.
Proof. unfold uart1_pin_select; unfold_prims; repeat break_if; reflexivity. Qed.

Lemma notifyCallbacks_pin1_select pin s : notifyCallbacks (uart1_pin_select pin s) = notifyCallbacks s.
Proof. unfold uart1_pin_select; unfold_prims; repeat break_if; reflexivity. Qed.

Lemma isrMask_pin1_select pin s : isrMask (uart1_pin_select pin s) = isrMask s.
Proof. unfold uart1_pin_select; unfold_prims; repeat break_if; reflexivity. Qed.

Lemma ports_pin1_select pin s : ports (uart1_pin_select pin s) = ports s.
Proof. unfold uart1_pin_select; unfold_prims; repeat break_if; reflexivity. Qed.

Lemma swap_reg_pin1_select pin s : swap_reg (uart1_pin_select pin s) = swap_reg s.
Proof. unfold uart1_pin_select; unfold_prims; repeat break_if; reflexivity. Qed.

Lemma trace_pin1_select pin s : trace (uart1_pin_select pin s) = trace s.
Proof. unfold uart1_pin_select; unfold_prims; repeat break_if; reflexivity. Qed.

Lemma memory_pin1_restore pin s : memory (uart1_pin_restore pin s) = memory s.
Proof. unfold uart1_pin_restore; unfold_prims; repeat break_if; reflexivity. Qed.

Lemma uartInstances_pin1_restore pin s : uartInstances (uart1_pin_restore pin s) = uartInstances s.
Proof. unfold uart1_pin_restore; unfold_prims; repeat break_if; reflexivity. Qed.

Lemma notifyCallbacks_pin1_restore pin s : notifyCallbacks (uart1_pin_restore pin s) = notifyCallbacks s.
Proof. unfold uart1_pin_restore; unfold_prims; repeat break_if; reflexivity. Qed.

Lemma isrMask_pin1_restore pin s : isrMask (uart1_pin_restore pin s) = isrMask s.
Proof. unfold uart1_pin_restore; unfold_prims; repeat break_if; reflexivity. Qed.

Lemma ports_pin1_restore pin s : ports (uart1_pin_restore pin s) = ports s.
Proof. unfold uart1_pin_restore; unfold_prims; repeat break_if; reflexivity. Qed.

Lemma swap_reg_pin1_restore pin s : swap_reg (uart1_pin_restore pin s) = swap_reg s.
Proof. unfold uart1_pin_restore; unfold_prims; repeat break_if; reflexivity. Qed.

Lemma trace_pin1_restore pin s : trace (uart1_pin_restore pin s) = trace s.
Proof. unfold uart1_pin_restore; unfold_prims; repeat break_if; reflexivity. Qed.

Lemma memory_notify u c s : memory (notify u c s) = memory s.
Proof. unfold notify; unfold_prims; repeat break_if; reflexivity. Qed.

Lemma uartInstances_notify u c s : uartInstances (notify u c s) = uartInstances s.
Proof. unfold notify; unfold_prims; repeat break_if; reflexivity. Qed.

Lemma notifyCallbacks_notify u c s : notifyCallbacks (notify u c s) = notifyCallbacks s.
Proof. unfold notify; unfold_prims; repeat break_if; reflexivity. Qed.

Lemma isrMask_notify u c s : isrMask (notify u c s) = isrMask s.
Proof. unfold notify; unfold_prims; repeat break_if; reflexivity. Qed.

Lemma ports_notify u c s : ports (notify u c s) = ports s.
Proof. unfold notify; unfold_prims; repeat break_if; reflexivity. Qed.

Lemma swap_reg_notify u c s : swap_reg (notify u c s) = swap_reg s.
Proof. unfold notify; unfold_prims; repeat break_if; reflexivity. Qed.

Create Rewrite HintDb frame.
#[local] Hint Rewrite memory_restore uartInstances_restore notifyCallbacks_restore isrMask_restore ports_restore swap_reg_restore trace_restore memory_pin0_select uartInstances_pin0_select notifyCallbacks_pin0_select isrMask_pin0_select ports_pin0_select swap_reg_pin0_select trace_pin0_select memory_pin0_restore uartInstances_pin0_restore notifyCallbacks_pin0_restore isrMask_pin0_restore ports_pin0_restore swap_reg_pin0_restore trace_pin0_restore memory_pin1_select uartInstances_pin1_select notifyCallbacks_pin1_select isrMask_pin1_select ports_pin1_select swap_reg_pin1_select trace_pin1_select memory_pin1_restore uartInstances_pin1_restore notifyCallbacks_pin1_restore isrMask_pin1_restore ports_pin1_restore swap_reg_pin1_restore trace_pin1_restore memory_notify uartInstances_notify notifyCallbacks_notify isrMask_notify ports_notify swap_reg_notify : frame.

Ltac steps := repeat (step || (progress upd_simpl) || (progress autorewrite with frame)).

Ltac upd_case :=
  match goal with
  | |- context [upd _ ?p _ ?q] =>
      let H := fresh "Hne" in destruct (Z.eq_dec q p) as [-> | H]; upd_simpl
  end.

(** C1, as the code has it. On UART1 a receive-only request is refused with
    null. A receive-and-transmit request is not refused for its mode: with
    the port free and the allocations granted, the call returns the new
    instance, its mode reduced to transmit-only. *)
Theorem init_ex_uart1_modes (new_ok : bool) (alloc_ok : Z -> bool)
    (cfg : smg_uart_config_t) (s : driver) :
  cfg_uart_nr cfg = UART1 ->
  (cfg_mode cfg = UART_RX_ONLY ->
     fst (smg_uart_init_ex new_ok alloc_ok cfg s) = None) /\
  (cfg_mode cfg = UART_FULL ->
     uartInstances s UART1 = None ->
     new_ok = true ->
     fst (smg_uart_realloc_buffer alloc_ok None (cfg_tx_size cfg)) = true ->
     fst (smg_uart_init_ex new_ok alloc_ok cfg s) = Some (next_free s)
     /\ mode (memory (snd (smg_uart_init_ex new_ok alloc_ok cfg s)) (next_free s))
        = UART_TX_ONLY).
Proof.
  intros Hnr. unfold smg_uart_init_ex. rewrite Hnr. split.
  - intros Hm. destruct (is_some _); [reflexivity|]. destruct new_ok; [|reflexivity].
    cbn. upd_simpl. cbn. rewrite Hm. reflexivity.
  - intros Hm Hfree -> Halloc. unfold smg_uart_get_uart.
    change (UART1 <? UART_COUNT) with true. cbv iota.
    rewrite Hfree. cbn. upd_simpl. cbn. rewrite Hm. cbn. rewrite Halloc. cbn.
    split; [reflexivity|].
    rewrite init_finish_mode. steps. rewrite mode_detach. steps. reflexivity.
Qed.

Lemma init_ex_uart1_modes_witness :
  fst (smg_uart_init_ex true heap_ok (config UART1 UART_RX_ONLY 16 16) boot) = None.
Proof.
  pose proof (init_ex_uart1_modes true heap_ok (config UART1 UART_RX_ONLY 16 16) boot)
    as H.
  destruct H as [H _]; [reflexivity |]. exact (H eq_refl).
Defined.

(** ** Status read *)

Lemma uint8_testbit x i : 0 <= i < 8 -> Z.testbit (uint8 x) i = Z.testbit x i.
Proof. intros H. unfold uint8. apply Z.mod_pow2_bits_low. lia. Qed.

Lemma get_physical_frame u s s' :
  (forall q, uart_nr (memory s' q) = uart_nr (memory s q)) ->
  uartInstances s' = uartInstances s ->
  get_physical u s' = get_physical u s.
Proof. intros Hnr Hreg. unfold get_physical. destruct u; [|reflexivity]. now rewrite Hnr, Hreg. Qed.

Lemma get_physical_store_status p v s :
  get_physical (Some p) (store p (set_status v) (smg_uart_disable_interrupts s))
  = get_physical (Some p) s.
Proof. unfold get_physical. steps. reflexivity. Qed.

Lemma uart_nr_store_status p v q s :
  uart_nr (memory (store p (set_status v) (smg_uart_disable_interrupts s)) q)
  = uart_nr (memory s q).
Proof. steps. upd_case; steps; reflexivity. Qed.

(** What one status read returns and leaves behind. *)
Lemma get_status_spec p s :
  let sticky := uint8 (Z.land (status (memory s p))
                              (Z.lor UART_BRK_DET_INT_ST UART_RXFIFO_OVF_INT_ST)) in
  let r := smg_uart_get_status (Some p) s in
  status (memory (snd r) p) = 0
  /\ (forall q, uart_nr (memory (snd r) q) = uart_nr (memory s q))
  /\ uartInstances (snd r) = uartInstances s
  /\ match get_physical (Some p) s with
     | Some q =>
         let nr := uart_nr (memory s q) in
         fst r = uint8 (Z.lor sticky (Z.land (int_raw (ports s nr)) ERR_MASK))
         /\ int_raw (ports (snd r) nr) = Z.land (int_raw (ports s nr)) (Z.lnot (fst r))
     | None => fst r = sticky /\ ports (snd r) = ports s
     end.
Proof.
  intros sticky r. subst r. unfold smg_uart_get_status.
  rewrite get_physical_store_status.
  destruct (get_physical (Some p) s) as [q|] eqn:Hq; cbv zeta; cbn [fst snd];
    rewrite ?uart_nr_store_status.
  - repeat split; try intros q'; unfold READ_PERI_REG; steps;
      try (upd_case; steps); reflexivity.
  - repeat split; try intros q'; steps; try (upd_case; steps); reflexivity.
Qed.

Lemma ovf_of_status_word sticky raw :
  Z.testbit (uint8 (Z.lor (uint8 (Z.land sticky
                 (Z.lor UART_BRK_DET_INT_ST UART_RXFIFO_OVF_INT_ST)))
               (Z.land raw ERR_MASK))) OVF_BIT
  = Z.testbit sticky OVF_BIT || Z.testbit raw OVF_BIT.
Proof.
  rewrite uint8_testbit by (unfold OVF_BIT; lia).
  rewrite Z.lor_spec, uint8_testbit by (unfold OVF_BIT; lia).
  rewrite !Z.land_spec.
  change (Z.testbit (Z.lor UART_BRK_DET_INT_ST UART_RXFIFO_OVF_INT_ST) OVF_BIT) with true.
  change (Z.testbit ERR_MASK OVF_BIT) with true.
  now rewrite !andb_true_r.
Qed.

(** C6. With an overflow on record, the first status read reports the
    overflow flag and clears the sticky status and the raw flag of the
    backing port; the read that follows reports no overflow. *)
Theorem get_status_overflow_once (p : Z) (s : driver) :
  overflow_recorded p s ->
  let r1 := smg_uart_get_status (Some p) s in
  let r2 := smg_uart_get_status (Some p) (snd r1) in
  Z.testbit (fst r1) OVF_BIT = true
  /\ status (memory (snd r1) p) = 0
  /\ (forall q, get_physical (Some p) s = Some q ->
        Z.testbit (int_raw (ports (snd r1) (uart_nr (memory s q)))) OVF_BIT = false)
  /\ Z.testbit (fst r2) OVF_BIT = false.
Proof.
  intros Hrec r1 r2.
  destruct (get_status_spec p s) as (Hst & Hnr & Hreg & Hphys). fold r1 in Hst, Hnr, Hreg, Hphys.
  destruct (get_status_spec p (snd r1)) as (_ & _ & _ & Hphys2). fold r2 in Hphys2.
  rewrite (get_physical_frame (Some p) s (snd r1) Hnr Hreg) in Hphys2.
  rewrite Hst in Hphys2.
  destruct (get_physical (Some p) s) as [q|] eqn:Hq.
  - cbv zeta in Hphys, Hphys2. destruct Hphys as [Hr1 Hraw]. destruct Hphys2 as [Hr2 _].
    rewrite Hnr in Hr2.
    assert (H1 : Z.testbit (fst r1) OVF_BIT = true).
    { rewrite Hr1, ovf_of_status_word.
      destruct Hrec as [H | (q' & Hq' & H)]; [now rewrite H|].
      assert (q' = q) by congruence; subst q'. rewrite H. apply orb_true_r. }
    assert (H2 : Z.testbit (int_raw (ports (snd r1) (uart_nr (memory s q)))) OVF_BIT = false).
    { rewrite Hraw, Z.land_spec, Z.lnot_spec, H1 by (unfold OVF_BIT; lia). apply andb_false_r. }
    repeat split; try assumption.
    + intros q' Hq'. assert (q' = q) by congruence; subst q'. exact H2.
    + rewrite Hr2, ovf_of_status_word, H2. reflexivity.
  - destruct Hphys as [Hr1 _]. destruct Hphys2 as [Hr2 _].
    repeat split; try assumption.
    + rewrite Hr1, uint8_testbit, Z.land_spec by (unfold OVF_BIT; lia).
      destruct Hrec as [H | (q' & Hq' & _)]; [now rewrite H | congruence].
    + intros q' Hq'. congruence.
    + rewrite Hr2. reflexivity.
Qed.

Lemma get_status_overflow_once_witness :
  let r1 := smg_uart_get_status (Some 1) overflowed in
  let r2 := smg_uart_get_status (Some 1) (snd r1) in
  Z.testbit (fst r1) OVF_BIT = true
  /\ status (memory (snd r1) 1) = 0
  /\ (forall q, get_physical (Some 1) overflowed = Some q ->
        Z.testbit (int_raw (ports (snd r1) (uart_nr (memory overflowed q)))) OVF_BIT = false)
  /\ Z.testbit (fst r2) OVF_BIT = false.
Proof.
  apply (get_status_overflow_once 1 overflowed).
  left. vm_compute. reflexivity.
Defined.

(** C10. A status read zeroes the sticky status of the instance. Of that
    sticky status only the break and overflow bits enter the result; every
    other bit of the result is the hardware error flag read from the raw
    status of the backing port, whatever the handler had accumulated. *)
Theorem get_status_discards_sticky (p : Z) (s : driver) :
  let r := smg_uart_get_status (Some p) s in
  let hw := match get_physical (Some p) s with
            | Some q => Z.land (int_raw (ports s (uart_nr (memory s q)))) ERR_MASK
            | None => 0
            end in
  status (memory (snd r) p) = 0
  /\ fst r = uint8 (Z.lor (uint8 (Z.land (status (memory s p))
                  (Z.lor UART_BRK_DET_INT_ST UART_RXFIFO_OVF_INT_ST))) hw)
  /\ (forall i, i <> BRK_BIT -> i <> OVF_BIT ->
        Z.testbit (fst r) i = Z.testbit (uint8 hw) i).
Proof.
  intros r hw.
  destruct (get_status_spec p s) as (Hst & _ & _ & Hphys). fold r in Hst, Hphys.
  assert (Hr : fst r = uint8 (Z.lor (uint8 (Z.land (status (memory s p))
                  (Z.lor UART_BRK_DET_INT_ST UART_RXFIFO_OVF_INT_ST))) hw)).
  { subst hw. destruct (get_physical (Some p) s) as [q|].
    - apply Hphys.
    - destruct Hphys as [-> _]. rewrite Z.lor_0_r. unfold uint8.
      now rewrite Z.mod_mod by lia. }
  repeat split; try assumption.
  intros i Hb Ho. rewrite Hr.
  destruct (Z.ltb_spec i 0) as [Hneg | Hpos]; [now rewrite !Z.testbit_neg_r by lia|].
  destruct (Z.ltb_spec i 8) as [Hlt | Hge].
  - rewrite !uint8_testbit, Z.lor_spec, uint8_testbit, Z.land_spec by lia.
    replace (Z.testbit (Z.lor UART_BRK_DET_INT_ST UART_RXFIFO_OVF_INT_ST) i) with false.
    + now rewrite andb_false_r.
    + unfold BRK_BIT, OVF_BIT in *.
      assert (Hi : i = 0 \/ i = 1 \/ i = 2 \/ i = 3 \/ i = 5 \/ i = 6) by lia.
      destruct Hi as [-> | [-> | [-> | [-> | [-> | ->]]]]]; reflexivity.
  - unfold uint8. rewrite !Z.mod_pow2_bits_high by lia. reflexivity.
Qed.

(** ** Pins *)

Lemma swap_other_port p t s :
  uart_nr (memory s p) <> UART0 -> smg_uart_swap (Some p) t s = s.
Proof.
  intros H. unfold smg_uart_swap. apply Z.eqb_neq in H. now rewrite H.
Qed.

(** What a swap on UART0 does to the instance and to the control bit. *)
Lemma swap_spec p t s :
  uart_nr (memory s p) = UART0 ->
  let u := memory s p in
  let s' := smg_uart_swap (Some p) t s in
  let dflt := (tx_pin u =? 1) || (tx_pin u =? 2) || (rx_pin u =? 3) in
  tx_pin (memory s' p)
    = (if smg_uart_tx_enabled u
       then (if dflt then 15 else if t =? 2 then 2 else 1) else tx_pin u)
  /\ rx_pin (memory s' p)
    = (if smg_uart_rx_enabled u then (if dflt then 13 else 3) else rx_pin u)
  /\ swap_reg s'
    = (if dflt then Z.lor (swap_reg s) UART_SWAP0
       else Z.land (swap_reg s) (Z.lnot UART_SWAP0))
  /\ mode (memory s' p) = mode u
  /\ uart_nr (memory s' p) = uart_nr u.
Proof.
  intros Hnr u s' dflt. subst s'. unfold smg_uart_swap.
  rewrite Hnr. change (UART0 =? UART0) with true. cbv iota zeta.
  unfold smg_uart_tx_enabled, smg_uart_rx_enabled. steps. subst dflt u.
  destruct ((tx_pin (memory s p) =? 1) || (tx_pin (memory s p) =? 2)
            || (rx_pin (memory s p) =? 3));
    steps;
    destruct (negb (mode_eqb (mode (memory s p)) UART_RX_ONLY));
    steps;
    destruct (negb (mode_eqb (mode (memory s p)) UART_TX_ONLY));
    steps; unfold READ_PERI_REG; repeat split; reflexivity.
Qed.

Lemma swap0_testbit n : Z.testbit UART_SWAP0 n = (n =? SWAP0_BIT).
Proof.
  change UART_SWAP0 with (2 ^ SWAP0_BIT).
  rewrite Z.pow2_bits_eqb by (unfold SWAP0_BIT; lia). apply Z.eqb_sym.
Qed.

Lemma swap_reg_set_clear r :
  Z.testbit r SWAP0_BIT = false ->
  Z.land (Z.lor r UART_SWAP0) (Z.lnot UART_SWAP0) = r.
Proof.
  intros Hclr. apply Z.bits_inj'. intros n Hn.
  rewrite Z.land_spec, Z.lor_spec, Z.lnot_spec, swap0_testbit by assumption.
  destruct (Z.eqb_spec n SWAP0_BIT) as [-> | Hne].
  - rewrite Hclr. reflexivity.
  - now rewrite orb_false_r, andb_true_r.
Qed.

(** C7. From the default pin set of UART0, a swap followed by a swap back
    that names the original transmit pin gives the original [tx_pin] and
    [rx_pin] and the original pin-swap control register. *)
Theorem swap_twice_restores (p t : Z) (s : driver) :
  default_pin_set p s ->
  let s1 := smg_uart_swap (Some p) t s in
  let s2 := smg_uart_swap (Some p) (tx_pin (memory s p)) s1 in
  tx_pin (memory s2 p) = tx_pin (memory s p)
  /\ rx_pin (memory s2 p) = rx_pin (memory s p)
  /\ swap_reg s2 = swap_reg s
  /\ Z.testbit (swap_reg s1) SWAP0_BIT = true.
Proof.
  intros (Hnr & Htx & Hrx & Hbit) s1 s2.
  destruct (swap_spec p t s Hnr) as (T1 & R1 & S1 & M1 & N1). fold s1 in T1, R1, S1, M1, N1.
  assert (Hnr1 : uart_nr (memory s1 p) = UART0) by congruence.
  destruct (swap_spec p (tx_pin (memory s p)) s1 Hnr1) as (T2 & R2 & S2 & _ & _).
  fold s2 in T2, R2, S2.
  unfold smg_uart_tx_enabled, smg_uart_rx_enabled in *. rewrite M1 in T2, R2.
  rewrite T2, R2, S2, T1, R1, S1. clear T2 R2 S2 T1 R1 S1.
  unfold UART_PIN_DEFAULT in *.
  destruct (mode (memory s p)); cbn [mode_eqb negb] in *.
  - rewrite Hrx. destruct Htx as [-> | ->]; cbn -[Z.testbit Z.lnot];
      (repeat split; [apply swap_reg_set_clear; assumption
                     | rewrite Z.lor_spec, swap0_testbit; apply orb_true_r]).
  - rewrite Hrx, Htx. cbn -[Z.testbit Z.lnot].
    repeat split; [apply swap_reg_set_clear; assumption
                  | rewrite Z.lor_spec, swap0_testbit; apply orb_true_r].
  - rewrite Hrx. destruct Htx as [-> | ->]; cbn -[Z.testbit Z.lnot];
      (repeat split; [apply swap_reg_set_clear; assumption
                     | rewrite Z.lor_spec, swap0_testbit; apply orb_true_r]).
Qed.

Lemma default_pin_set_opened : default_pin_set 1 (opened UART0 UART_FULL 8 8).
Proof. vm_compute. repeat split. now left. Qed.

Lemma swap_twice_restores_witness :
  let s := opened UART0 UART_FULL 8 8 in
  let s1 := smg_uart_swap (Some 1) 15 s in
  let s2 := smg_uart_swap (Some 1) (tx_pin (memory s 1)) s1 in
  tx_pin (memory s2 1) = tx_pin (memory s 1)
  /\ rx_pin (memory s2 1) = rx_pin (memory s 1)
  /\ swap_reg s2 = swap_reg s
  /\ Z.testbit (swap_reg s1) SWAP0_BIT = true.
Proof.
  apply (swap_twice_restores 1 15 (opened UART0 UART_FULL 8 8)).
  vm_compute. repeat split. now left.
Defined.

Lemma set_tx_spec p t s :
  uart_nr (memory s p) = UART0 ->
  smg_uart_tx_enabled (memory s p) = true ->
  let r := smg_uart_set_tx (Some p) t s in
  fst r = true
  /\ tx_pin (memory (snd r) p) = (if t =? 2 then 2 else 1)
  /\ rx_pin (memory (snd r) p) = rx_pin (memory s p)
  /\ swap_reg (snd r) = swap_reg s
  /\ mode (memory (snd r) p) = mode (memory s p).
Proof.
  intros Hnr Htx r. subst r. unfold smg_uart_set_tx.
  rewrite Hnr, Htx. change ((UART0 =? UART0) && true) with true. cbv iota zeta.
  cbn [fst snd]. steps. repeat split; reflexivity.
Qed.

(** C8, as the code has it. Unless the call is a request for pins (1 or 2, 3)
    on UART0 in the mixed pin set, a call of [smg_uart_set_pins] that
    returns false has changed nothing: the driver state, so [tx_pin],
    [rx_pin] and the pin-swap control register, is the one before the
    call. *)
Theorem set_pins_rejected_unchanged (p t r : Z) (s : driver) :
  ~ partial_request p t r s ->
  fst (smg_uart_set_pins (Some p) t r s) = false ->
  snd (smg_uart_set_pins (Some p) t r s) = s.
Proof.
  intros Hmix. unfold smg_uart_set_pins.
  destruct (uart_nr (memory s p) =? UART0) eqn:Hnr; cbn [negb]; [|reflexivity].
  apply Z.eqb_eq in Hnr.
  destruct (swap_spec p 15 s Hnr) as (_ & R15 & _ & M15 & _).
  destruct (swap_spec p t s Hnr) as (_ & Rt & _ & Mt & _).
  pose proof (set_tx_spec p t s Hnr) as Hset.
  cbv zeta in *.
  unfold smg_uart_rx_enabled in *.
  destruct (smg_uart_tx_enabled (memory s p) && negb (tx_pin (memory s p) =? t)) eqn:Htx.
  - apply andb_prop in Htx as [Hten Htne].
    destruct ((r =? 13) && (t =? 15)) eqn:H1315.
    + rewrite M15. break_if; cbn [fst snd]; discriminate.
    + destruct ((r =? 3) && ((t =? 1) || (t =? 2))) eqn:H3.
      * apply andb_prop in H3 as [Hr3 Ht12]. apply Z.eqb_eq in Hr3. subst r.
        destruct (negb (rx_pin (memory s p) =? 3)) eqn:Hrx.
        -- rewrite Mt, Rt.
           destruct (negb (mode_eqb (mode (memory s p)) UART_TX_ONLY)) eqn:Hren;
             [|cbn [andb fst snd]; discriminate].
           destruct ((tx_pin (memory s p) =? 1) || (tx_pin (memory s p) =? 2)
                     || (rx_pin (memory s p) =? 3)) eqn:Hd;
             [|cbn [andb negb Z.eqb Pos.eqb fst snd]; discriminate].
           exfalso. apply Hmix.
           unfold partial_request, mixed_pin_set, smg_uart_rx_enabled. cbv zeta.
           apply negb_true_iff in Hrx. rewrite Hrx, orb_false_r in Hd.
           apply orb_prop in Hd. apply Z.eqb_neq in Hrx.
           apply negb_true_iff, Z.eqb_neq in Htne.
           apply orb_prop in Ht12.
           repeat split; try assumption.
           ++ destruct Hd as [H|H]; apply Z.eqb_eq in H; tauto.
           ++ destruct Ht12 as [H|H]; apply Z.eqb_eq in H; tauto.
        -- destruct (Hset Hten) as (_ & _ & Rs & _ & Ms). rewrite Ms, Rs.
           apply negb_false_iff in Hrx. rewrite Hrx, andb_false_r. cbn [negb fst snd].
           discriminate.
      * break_if; cbn [fst snd]; try rewrite H1315; reflexivity.
  - break_if; [|cbn [fst snd]; discriminate].
    break_if; cbn [fst snd]; [discriminate | reflexivity].
Qed.

(** Such a request is refused with the transmit pin moved to 15. *)
Lemma set_pins_partial_request (p t r : Z) (s : driver) :
  partial_request p t r s ->
  fst (smg_uart_set_pins (Some p) t r s) = false
  /\ tx_pin (memory (snd (smg_uart_set_pins (Some p) t r s)) p) = 15.
Proof.
  intros (Hnr & (Hten & Hren & Htx & Hrx) & -> & Ht & Hne). cbv zeta in *.
  unfold smg_uart_set_pins. rewrite Hnr. change (negb (UART0 =? UART0)) with false.
  cbv iota zeta. rewrite Hten.
  apply Z.eqb_neq in Hne. rewrite Hne. cbn [negb andb].
  change ((3 =? 13) && (t =? 15)) with false. cbv iota.
  assert (Ht12 : (t =? 1) || (t =? 2) = true)
    by (destruct Ht as [-> | ->]; reflexivity).
  rewrite Ht12. cbn [andb Z.eqb Pos.eqb]. cbv iota.
  apply Z.eqb_neq in Hrx. rewrite Hrx. cbn [negb]. cbv iota.
  destruct (swap_spec p t s Hnr) as (T1 & R1 & _ & M1 & _). cbv zeta in T1, R1.
  assert (Hd : (tx_pin (memory s p) =? 1) || (tx_pin (memory s p) =? 2)
               || (rx_pin (memory s p) =? 3) = true)
    by (destruct Htx as [-> | ->]; reflexivity).
  rewrite Hten, Hd in T1. rewrite Hren, Hd in R1.
  unfold smg_uart_rx_enabled in *. rewrite M1, Hren, R1. cbn [andb negb Z.eqb Pos.eqb].
  cbv iota. cbn [fst snd]. split; [reflexivity | exact T1].
Qed.

Lemma set_pins_rejected_unchanged_witness :
  snd (smg_uart_set_pins (Some 1) 15 3 (opened UART0 UART_FULL 8 8))
  = opened UART0 UART_FULL 8 8.
Proof.
  apply (set_pins_rejected_unchanged 1 15 3 (opened UART0 UART_FULL 8 8)).
  - intros (_ & _ & _ & [H | H] & _); discriminate.
  - reflexivity.
Defined.

(** C8 as stated fails. In the mixed pin set (transmit on pin 1, receive on
    pin 13) a request for pins 2 and 3 is answered false, after the swap of
    the transmit step has moved the transmit pin to 15. *)
Lemma set_pins_partial_application :
  let s := swapped_then_tx1 in
  let r := smg_uart_set_pins (Some 1) 2 3 s in
  uartInstances s UART0 = Some 1
  /\ fst r = false
  /\ tx_pin (memory s 1) = 1 /\ rx_pin (memory s 1) = 13
  /\ tx_pin (memory (snd r) 1) = 15 /\ rx_pin (memory (snd r) 1) = 13
  /\ ~ (fst r = false -> tx_pin (memory (snd r) 1) = tx_pin (memory s 1)).
Proof.
  vm_compute. repeat split. intros H. specialize (H eq_refl). discriminate.
Qed.

(** ** The interrupt handler *)

(** The receive loop touches the receive buffer of the instance and the
    receive FIFO of the port, nothing else. *)
Lemma isr_rx_loop_frame n : forall read nr p s,
  let s' := snd (isr_rx_loop n read nr p s) in
  (forall q, set_rx_buffer None (memory s' q) = set_rx_buffer None (memory s q))
  /\ (forall k, with_rx_fifo [] (ports s' k) = with_rx_fifo [] (ports s k))
  /\ globals s' = globals s.
Proof.
  induction n as [|n IH]; intros read nr p s; cbn [isr_rx_loop].
  - cbn [snd]. repeat split.
  - unfold READ_UART_FIFO. cbv zeta.
    match goal with |- context [isr_rx_loop n ?r ?a ?b ?S] =>
      destruct (IH r a b S) as (Hm & Hp & Hg); set (s1 := S) in * end.
    cbv zeta in Hm, Hp, Hg.
    repeat split.
    + intros q. rewrite Hm. subst s1. unfold rx_buffer_writeChar. steps.
      break_if; steps; [upd_case|]; steps; try reflexivity.
    + intros k. rewrite Hp. subst s1. unfold rx_buffer_writeChar. steps.
      break_if; steps; upd_case; steps; reflexivity.
    + rewrite Hg. subst s1. unfold rx_buffer_writeChar, globals. steps.
      break_if; steps; reflexivity.
Qed.

Lemma uint32_sub_l a b : uint32 (uint32 a - b) = uint32 (a - b).
Proof. unfold uint32. apply Zminus_mod_idemp_l. Qed.

(** The counter of [while(read-- != 0)] after the loop: decremented once
    more than the passes made. *)
Lemma isr_rx_loop_counter n : forall read nr p s,
  fst (isr_rx_loop n read nr p s) = uint32 (read - Z.of_nat n - 1).
Proof.
  induction n as [|n IH]; intros read nr p s; cbn [isr_rx_loop].
  - cbn [fst Z.of_nat]. now rewrite Z.sub_0_r.
  - unfold READ_UART_FIFO. cbv zeta. rewrite IH.
    replace (uint32 (read - 1) - Z.of_nat n - 1)
      with (uint32 (read - 1) - (Z.of_nat n + 1)) by lia.
    rewrite uint32_sub_l. f_equal. lia.
Qed.

(** The transmit loop touches the transmit buffer of the instance and the
    transmit FIFO of the port, nothing else. *)
Lemma isr_tx_loop_frame n : forall count nr p s,
  let s' := snd (isr_tx_loop n count nr p s) in
  (forall q, set_tx_buffer None (memory s' q) = set_tx_buffer None (memory s q))
  /\ (forall k, with_tx_fifo [] (ports s' k) = with_tx_fifo [] (ports s k))
  /\ globals s' = globals s.
Proof.
  induction n as [|n IH]; intros count nr p s; cbn [isr_tx_loop].
  - cbn [snd]. repeat split.
  - cbv zeta.
    destruct (tx_buffer_readChar p s) as [c s0] eqn:Hrd.
    match goal with |- context [isr_tx_loop n ?r ?a ?b ?S] =>
      destruct (IH r a b S) as (Hm & Hp & Hg); set (s1 := S) in * end.
    cbv zeta in Hm, Hp, Hg.
    assert (Hs0 : s0 = snd (tx_buffer_readChar p s)) by now rewrite Hrd.
    unfold tx_buffer_readChar in Hs0.
    repeat split.
    + intros q. rewrite Hm. subst s1 s0. steps.
      break_if; cbn [snd]; steps; [upd_case|]; steps; try reflexivity.
    + intros k. rewrite Hp. subst s1 s0. steps.
      break_if; cbn [snd]; steps; upd_case; steps; reflexivity.
    + rewrite Hg. subst s1 s0. unfold globals. steps.
      break_if; cbn [snd]; steps; reflexivity.
Qed.

(** It moves the [n] oldest bytes of the transmit buffer to the end of the
    transmit FIFO. *)
Lemma isr_tx_loop_moves n : forall count nr p s b,
  tx_buffer (memory s p) = Some b ->
  (n <= length (contents b))%nat ->
  let s' := snd (isr_tx_loop n count nr p s) in
  tx_buffer (memory s' p) = Some (mkBuffer (capacity b) (skipn n (contents b)))
  /\ tx_fifo (ports s' nr) = tx_fifo (ports s nr) ++ map uint8 (firstn n (contents b)).
Proof.
  induction n as [|n IH]; intros count nr p s b Hb Hlen; cbn [isr_tx_loop].
  - cbn [snd skipn firstn map]. rewrite app_nil_r. split; [|reflexivity].
    rewrite Hb. now destruct b.
  - cbv zeta. unfold tx_buffer_readChar. rewrite Hb.
    destruct b as [cap [|c rest]]; cbn [contents length] in Hlen; [lia|].
    unfold readChar. cbn [contents capacity fst snd].
    match goal with |- context [isr_tx_loop n ?r ?a ?q ?S] =>
      destruct (IH r a q S (mkBuffer cap rest)) as (Hbuf & Hfifo); set (s1 := S) in * end.
    + subst s1. steps. reflexivity.
    + cbn [contents]. lia.
    + cbv zeta in Hbuf, Hfifo. cbn [contents capacity] in Hbuf, Hfifo.
      split; [exact Hbuf|].
      rewrite Hfifo. subst s1. steps. cbn [skipn firstn map].
      now rewrite <- app_assoc.
Qed.

(** UART_STATUS carries the two FIFO occupancies in separate fields. *)

Lemma fifo_count_mod l : fifo_count l = Z.of_nat (length l) mod 2 ^ 8.
Proof. unfold fifo_count. change 0xFF with (Z.ones 8). now rewrite Z.land_ones by lia. Qed.

Lemma fifo_count_range l : 0 <= fifo_count l < 256.
Proof. rewrite fifo_count_mod. apply Z.mod_pos_bound. lia. Qed.

Lemma uart_txfifo_count_eq nr s :
  uart_txfifo_count nr s = fifo_count (tx_fifo (ports s nr)).
Proof.
  unfold uart_txfifo_count, READ_PERI_REG, UART_TXFIFO_CNT_S, UART_RXFIFO_CNT_S,
    UART_TXFIFO_CNT.
  rewrite !fifo_count_mod.
  set (a := Z.of_nat (length (rx_fifo (ports s nr)))).
  set (b := Z.of_nat (length (tx_fifo (ports s nr)))).
  pose proof (Z.mod_pos_bound b (2 ^ 8) ltac:(lia)) as Hb.
  replace (Z.land _ 255) with (b mod 2 ^ 8).
  - unfold uint8. now rewrite Z.mod_mod by lia.
  - change 255 with (Z.ones 8). rewrite Z.land_ones by lia.
    rewrite <- (Z.mod_mod b (2 ^ 8)) at 1 by lia. Z.bitblast.
Qed.

Lemma uart_rxfifo_count_eq nr s :
  uart_rxfifo_count nr s = fifo_count (rx_fifo (ports s nr)).
Proof.
  unfold uart_rxfifo_count, READ_PERI_REG, UART_TXFIFO_CNT_S, UART_RXFIFO_CNT_S,
    UART_RXFIFO_CNT.
  rewrite !fifo_count_mod.
  set (a := Z.of_nat (length (rx_fifo (ports s nr)))).
  set (b := Z.of_nat (length (tx_fifo (ports s nr)))).
  replace (Z.land _ 255) with (a mod 2 ^ 8).
  - unfold uint8. now rewrite Z.mod_mod by lia.
  - change 255 with (Z.ones 8). rewrite Z.land_ones by lia.
    Z.bitblast. rewrite (Z.testbit_neg_r _ l0) by lia. now rewrite orb_false_r.
Qed.

Lemma sans_rx_fields u u' :
  set_rx_buffer None u = set_rx_buffer None u' ->
  uart_nr u = uart_nr u' /\ mode u = mode u' /\ options u = options u'
  /\ rx_headroom u = rx_headroom u' /\ status u = status u'
  /\ tx_buffer u = tx_buffer u' /\ callback u = callback u'.
Proof. unfold set_rx_buffer. intros H. injection H. intros. repeat split; assumption. Qed.

Lemma sans_tx_fields u u' :
  set_tx_buffer None u = set_tx_buffer None u' ->
  uart_nr u = uart_nr u' /\ mode u = mode u' /\ options u = options u'
  /\ rx_headroom u = rx_headroom u' /\ status u = status u'
  /\ rx_buffer u = rx_buffer u' /\ callback u = callback u'.
Proof. unfold set_tx_buffer. intros H. injection H. intros. repeat split; assumption. Qed.

Lemma port_sans_rx_fields r r' :
  with_rx_fifo [] r = with_rx_fifo [] r' ->
  tx_fifo r = tx_fifo r' /\ int_ena r = int_ena r'.
Proof. unfold with_rx_fifo. intros H. injection H. intros. split; assumption. Qed.

Lemma port_sans_tx_fields r r' :
  with_tx_fifo [] r = with_tx_fifo [] r' ->
  rx_fifo r = rx_fifo r' /\ int_ena r = int_ena r'.
Proof. unfold with_tx_fifo. intros H. injection H. intros. split; assumption. Qed.

Lemma globals_fields s s' :
  globals s' = globals s ->
  trace s' = trace s /\ isrMask s' = isrMask s /\ uartInstances s' = uartInstances s.
Proof. unfold globals. intros H. injection H. intros. repeat split; assumption. Qed.

Lemma land_keeps_bit x m i :
  Z.testbit m i = true -> Z.testbit (Z.land x m) i = Z.testbit x i.
Proof. intros H. rewrite Z.land_spec, H. apply andb_true_r. Qed.

(** The receive part of the handler leaves the transmit side alone. *)
Lemma isr_rx_frame nr p usis st s :
  let s' := snd (isr_rx nr p usis st s) in
  (forall q, set_rx_buffer None (memory s' q) = set_rx_buffer None (memory s q))
  /\ (forall k, tx_fifo (ports s' k) = tx_fifo (ports s k)
                /\ empty_armed k s' = empty_armed k s)
  /\ globals s' = globals s.
Proof.
  unfold isr_rx. break_if; cbv zeta; [|cbn [snd]; repeat split].
  destruct (rx_buffer (memory s p)) as [b|].
  - match goal with |- context [isr_rx_loop ?n ?r ?a ?q ?S] =>
      pose proof (isr_rx_loop_frame n r a q S) as (Hm & Hp & Hg);
      destruct (isr_rx_loop n r a q S) as [rd s1] end.
    cbv zeta in Hm, Hp, Hg. cbn [snd] in Hm, Hp, Hg. cbn [snd].
    assert (Hk : forall k, tx_fifo (ports s1 k) = tx_fifo (ports s k)
                           /\ int_ena (ports s1 k) = int_ena (ports s k))
      by (intros k; apply port_sans_rx_fields, Hp).
    unfold empty_armed.
    repeat break_if; unfold READ_PERI_REG;
      (split; [|split];
       [ intros q; steps; apply Hm
       | intros k; split; steps; try upd_case; steps;
         rewrite ?land_keeps_bit by reflexivity; first [apply Hk | f_equal; apply Hk]
       | unfold globals in *; steps; exact Hg ]).
  - cbn [snd]. unfold empty_armed.
    repeat break_if; unfold READ_PERI_REG;
      (split; [|split];
       [ intros q; steps; reflexivity
       | intros k; split; steps; try upd_case; steps;
         rewrite ?land_keeps_bit by reflexivity; reflexivity
       | unfold globals in *; steps; reflexivity ]).
Qed.

Lemma bit_set_land_nonzero x m i :
  Z.testbit x i = true -> Z.testbit m i = true -> (Z.land x m =? 0) = false.
Proof.
  intros Hx Hm. apply Z.eqb_neq. intros H0.
  assert (H : Z.testbit (Z.land x m) i = true) by now rewrite Z.land_spec, Hx, Hm.
  rewrite H0, Z.bits_0 in H. discriminate.
Qed.

(** The status word after the receive part: the FIFO-full bit is taken out
    when the free space left by the drain is above the headroom, and only
    then. *)
Lemma isr_rx_status nr p usis st s b :
  (Z.land usis (Z.lor (Z.lor UART_RXFIFO_FULL_INT_ST UART_RXFIFO_TOUT_INT_ST)
                      UART_RXFIFO_OVF_INT_ST) =? 0) = false ->
  rx_buffer (memory s p) = Some b ->
  buffer_ok b ->
  let space := getFreeSpace b - Z.min (uart_rxfifo_count nr s) (getFreeSpace b) in
  fst (isr_rx nr p usis st s)
  = if space >? rx_headroom (memory s p)
    then Z.land st (Z.lnot UART_RXFIFO_FULL_INT_ST) else st.
Proof.
  intros Husis Hb [Hav Hcap] space. unfold isr_rx. rewrite Husis, Hb. cbn [negb]. cbv zeta.
  match goal with |- context [isr_rx_loop ?n ?r ?a ?q ?S] =>
    pose proof (isr_rx_loop_frame n r a q S) as (Hm & _ & _);
    destruct (isr_rx_loop n r a q S) as [rd s1] end.
  cbv zeta in Hm. cbn [snd] in Hm. cbn [fst].
  destruct (sans_rx_fields _ _ (Hm p)) as (_ & _ & _ & Hh & _). rewrite Hh.
  assert (Hsp : uint32 (getFreeSpace b -
                 (if uart_rxfifo_count nr s <=? getFreeSpace b
                  then uart_rxfifo_count nr s else getFreeSpace b)) = space).
  { subst space. rewrite uart_rxfifo_count_eq.
    pose proof (fifo_count_range (rx_fifo (ports s nr))) as Hc.
    unfold getFreeSpace in *.
    assert (0 <= available b) by (unfold available; lia).
    unfold uint32. destruct (Z.leb_spec (fifo_count (rx_fifo (ports s nr)))
                                        (capacity b - available b)).
    - rewrite Z.min_l by lia. apply Z.mod_small. lia.
    - rewrite Z.min_r by lia. apply Z.mod_small. lia. }
  rewrite Hsp. reflexivity.
Qed.

Lemma handler_serviced nr p s :
  int_st (ports s nr) <> 0 ->
  uart_isr_enabled nr s = true ->
  handle_uart_interrupt nr (Some p) s
  = let usis := int_st (ports s nr) in
    let '(st, s) := isr_service nr p usis s in
    let s := store p (fun u => set_status (uint16 (Z.lor (status u) st)) u) s in
    let s := if negb (st =? 0) && is_some (callback (memory s p))
             then log (EvCallback p st) s else s in
    WRITE_PERI_REG (UART_INT_CLR nr) usis s.
Proof.
  intros Hst Hen. unfold handle_uart_interrupt, READ_PERI_REG.
  apply Z.eqb_neq in Hst. rewrite Hst, Hen. reflexivity.
Qed.

Lemma uart_txfifo_free_nonneg nr s : 0 <= uart_txfifo_free nr s.
Proof. unfold uart_txfifo_free, uint8. apply Z.mod_pos_bound. lia. Qed.

Lemma land_clears_bit x m i :
  0 <= i -> Z.testbit m i = true -> Z.testbit (Z.land x (Z.lnot m)) i = false.
Proof. intros Hi H. rewrite Z.land_spec, Z.lnot_spec, H by assumption. apply andb_false_r. Qed.

(** The transmit part of the handler. *)
Lemma isr_tx_spec nr p usis st s :
  (Z.land usis UART_TXFIFO_EMPTY_INT_ST =? 0) = false ->
  let cont := match tx_buffer (memory s p) with Some b => contents b | None => [] end in
  let n := Z.to_nat (Z.min (Z.of_nat (length cont)) (uart_txfifo_free nr s)) in
  let r := isr_tx nr p usis st s in
  tx_fifo (ports (snd r) nr) = tx_fifo (ports s nr) ++ map uint8 (firstn n cont)
  /\ tx_buffer (memory (snd r) p)
     = option_map (fun b => mkBuffer (capacity b) (skipn n (contents b)))
                  (tx_buffer (memory s p))
  /\ (if uart_txfifo_count nr (snd r) =? 0
      then fst r = st /\ empty_armed nr (snd r) = false
      else fst r = Z.land st (Z.lnot UART_TXFIFO_EMPTY_INT_ST)
           /\ empty_armed nr (snd r) = empty_armed nr s)
  /\ (forall q, set_tx_buffer None (memory (snd r) q) = set_tx_buffer None (memory s q))
  /\ globals (snd r) = globals s
  /\ (forall k, k <> nr -> empty_armed k (snd r) = empty_armed k s).
Proof.
  intros Husis cont n r. subst r. unfold isr_tx. rewrite Husis. cbn [negb]. cbv zeta.
  assert (Hs1 : exists s1,
    (match tx_buffer (memory s p) with
     | Some b =>
         snd (isr_tx_loop
                (Z.to_nat (if available b <=? uart_txfifo_free nr s
                           then available b else uart_txfifo_free nr s))
                (if available b <=? uart_txfifo_free nr s
                 then available b else uart_txfifo_free nr s) nr p s)
     | None => s
     end) = s1
    /\ tx_fifo (ports s1 nr) = tx_fifo (ports s nr) ++ map uint8 (firstn n cont)
    /\ tx_buffer (memory s1 p)
       = option_map (fun b => mkBuffer (capacity b) (skipn n (contents b)))
                    (tx_buffer (memory s p))
    /\ (forall q, set_tx_buffer None (memory s1 q) = set_tx_buffer None (memory s q))
    /\ (forall k, with_tx_fifo [] (ports s1 k) = with_tx_fifo [] (ports s k))
    /\ globals s1 = globals s).
  { eexists. split; [reflexivity|]. subst n cont.
    pose proof (uart_txfifo_free_nonneg nr s) as Hfree.
    destruct (tx_buffer (memory s p)) as [b|] eqn:Hb.
    - unfold available.
      assert (Hmin : (if Z.of_nat (length (contents b)) <=? uart_txfifo_free nr s
                      then Z.of_nat (length (contents b)) else uart_txfifo_free nr s)
                     = Z.min (Z.of_nat (length (contents b))) (uart_txfifo_free nr s)).
      { destruct (Z.leb_spec (Z.of_nat (length (contents b))) (uart_txfifo_free nr s));
          [rewrite Z.min_l | rewrite Z.min_r]; lia. }
      rewrite Hmin.
      match goal with |- context [isr_tx_loop ?m ?c nr p s] =>
        pose proof (isr_tx_loop_moves m c nr p s b Hb) as Hmv;
        pose proof (isr_tx_loop_frame m c nr p s) as (Hm & Hp & Hg) end.
      destruct Hmv as (Hbuf & Hfifo); [lia|].
      cbv zeta in Hbuf, Hfifo, Hm, Hp, Hg.
      repeat split; assumption.
    - rewrite Z.min_l by (cbn; lia). cbn [length Z.of_nat Z.to_nat firstn map option_map].
      rewrite app_nil_r, Hb. repeat split. }
  destruct Hs1 as (s1 & -> & Hfifo & Hbuf & Hm & Hp & Hg).
  assert (Hk : forall k, int_ena (ports s1 k) = int_ena (ports s k))
    by (intros k; apply port_sans_tx_fields, Hp).
  destruct (uart_txfifo_count nr s1 =? 0) eqn:Hcnt; cbn [fst snd].
  - assert (Hcnt2 : (uart_txfifo_count nr
              (CLEAR_PERI_REG_MASK (UART_INT_ENA nr) UART_TXFIFO_EMPTY_INT_ENA s1) =? 0) = true).
    { rewrite uart_txfifo_count_eq in *. unfold READ_PERI_REG. steps. exact Hcnt. }
    rewrite Hcnt2. unfold empty_armed, READ_PERI_REG.
    repeat split.
    + steps. exact Hfifo.
    + steps. exact Hbuf.
    + steps. rewrite Z.land_spec. apply andb_false_r.
    + intros q. steps. apply Hm.
    + unfold globals in *. steps. exact Hg.
    + intros k Hne. steps. now rewrite Hk.
  - rewrite Hcnt. unfold empty_armed. repeat split; try assumption.
    + now rewrite Hk.
    + intros k _. now rewrite Hk.
Qed.

Lemma isr_service_nonraw nr p usis s :
  bitRead (options (memory s p)) UART_OPT_CALLBACK_RAW = false ->
  isr_service nr p usis s
  = isr_tx nr p usis (fst (isr_rx nr p usis usis s)) (snd (isr_rx nr p usis usis s)).
Proof.
  intros H. unfold isr_service. rewrite H. cbn [negb].
  now destruct (isr_rx nr p usis usis s).
Qed.

(** After the servicing: the sticky status, the callback and the clearing
    of the interrupt status leave the buffers, the FIFOs and the interrupt
    enable bits as the servicing left them. *)
Lemma handler_effects nr p s :
  int_st (ports s nr) <> 0 ->
  uart_isr_enabled nr s = true ->
  let r := isr_service nr p (int_st (ports s nr)) s in
  let s' := handle_uart_interrupt nr (Some p) s in
  trace s' = (if negb (fst r =? 0) && is_some (callback (memory (snd r) p))
              then EvCallback p (fst r) :: trace (snd r) else trace (snd r))
  /\ (forall k, tx_fifo (ports s' k) = tx_fifo (ports (snd r) k))
  /\ (forall k, empty_armed k s' = empty_armed k (snd r))
  /\ tx_buffer (memory s' p) = tx_buffer (memory (snd r) p)
  /\ rx_buffer (memory s' p) = rx_buffer (memory (snd r) p)
  /\ status (memory s' p) = uint16 (Z.lor (status (memory (snd r) p)) (fst r)).
Proof.
  intros Hst Hen r s'. subst s'. rewrite (handler_serviced nr p s Hst Hen). cbv zeta.
  fold r. destruct r as [st s1]. cbn [fst snd]. unfold empty_armed.
  split; [|split; [|split; [|split; [|split]]]].
  - steps. break_if; steps; reflexivity.
  - intros k. steps. try upd_case; steps; break_if; steps; reflexivity.
  - intros k. steps. try upd_case; steps; break_if; steps; reflexivity.
  - steps. break_if; steps; reflexivity.
  - steps. break_if; steps; reflexivity.
  - steps. break_if; steps; reflexivity.
Qed.

Lemma testbit_nonzero x i : Z.testbit x i = true -> x <> 0.
Proof. intros H ->. rewrite Z.bits_0 in H. discriminate. Qed.

Lemma full_bit_after_tx nr p usis st s :
  Z.testbit (fst (isr_tx nr p usis st s)) FULL_BIT = Z.testbit st FULL_BIT.
Proof.
  unfold isr_tx. repeat break_if; cbn [fst]; try reflexivity.
  all: now rewrite land_keeps_bit by reflexivity.
Qed.

(** C3, as the code has it. When the handler services a FIFO-full interrupt
    of a port with a receive buffer and a data callback, not in raw mode: if
    the free space left after the drain is at most the headroom, so also
    when it equals the headroom, the callback is called with the FIFO-full
    bit; the event is suppressed only when the free space left is above the
    headroom. *)
Theorem isr_full_callback_threshold (nr p : Z) (s : driver) (b : SerialBuffer) :
  uart_isr_enabled nr s = true ->
  bitRead (options (memory s p)) UART_OPT_CALLBACK_RAW = false ->
  rx_buffer (memory s p) = Some b ->
  buffer_ok b ->
  callback (memory s p) <> None ->
  Z.testbit (int_st (ports s nr)) FULL_BIT = true ->
  let space := getFreeSpace b - Z.min (uart_rxfifo_count nr s) (getFreeSpace b) in
  let s' := handle_uart_interrupt nr (Some p) s in
  (space <= rx_headroom (memory s p) -> full_event_reported p s s')
  /\ (rx_headroom (memory s p) < space -> full_event_suppressed p s s').
Proof.
  intros Hen Hraw Hb Hok Hcb Hfull space s'.
  pose proof (testbit_nonzero _ _ Hfull) as Hnz.
  destruct (handler_effects nr p s Hnz Hen) as (Htr & _). fold s' in Htr.
  rewrite (isr_service_nonraw nr p _ s Hraw) in Htr.
  set (usis := int_st (ports s nr)) in *.
  destruct (isr_rx_frame nr p usis usis s) as (Hm1 & _ & Hg1).
  assert (Hu : (Z.land usis (Z.lor (Z.lor UART_RXFIFO_FULL_INT_ST UART_RXFIFO_TOUT_INT_ST)
                                   UART_RXFIFO_OVF_INT_ST) =? 0) = false)
    by (apply (bit_set_land_nonzero _ _ FULL_BIT); [assumption | reflexivity]).
  pose proof (isr_rx_status nr p usis usis s b Hu Hb Hok) as Hst. cbv zeta in Hst.
  fold space in Hst.
  set (r1 := isr_rx nr p usis usis s) in *.
  pose proof (full_bit_after_tx nr p usis (fst r1) (snd r1)) as Hbit.
  assert (Hframe : trace (snd (isr_tx nr p usis (fst r1) (snd r1))) = trace s
                   /\ callback (memory (snd (isr_tx nr p usis (fst r1) (snd r1))) p)
                      = callback (memory s p)).
  { assert (Htx : trace (snd (isr_tx nr p usis (fst r1) (snd r1))) = trace (snd r1)
                  /\ callback (memory (snd (isr_tx nr p usis (fst r1) (snd r1))) p)
                     = callback (memory (snd r1) p)).
    { unfold isr_tx. destruct (negb (Z.land usis UART_TXFIFO_EMPTY_INT_ST =? 0)) eqn:He;
        [|split; reflexivity].
      apply negb_true_iff in He.
      destruct (isr_tx_spec nr p usis (fst r1) (snd r1) He) as (_ & _ & _ & Hm & Hg & _).
      unfold isr_tx in Hm, Hg. rewrite He in Hm, Hg. cbn [negb] in Hm, Hg.
      split; [apply globals_fields, Hg | apply (sans_tx_fields _ _ (Hm p))]. }
    destruct Htx as [-> ->].
    split; [apply globals_fields, Hg1 | apply (sans_rx_fields _ _ (Hm1 p))]. }
  destruct Hframe as [Ht Hc]. rewrite Ht, Hc in Htr.
  destruct (callback (memory s p)) as [cb|]; [|congruence]. cbn [is_some] in Htr.
  rewrite andb_true_r in Htr.
  set (st := fst (isr_tx nr p usis (fst r1) (snd r1))) in *.
  split; intros Hsp.
  - assert (Hst' : fst r1 = usis).
    { rewrite Hst. destruct (Z.gtb_spec space (rx_headroom (memory s p))); [lia | reflexivity]. }
    rewrite Hst' in Hbit. rewrite Hfull in Hbit.
    exists st. split; [|exact Hbit].
    rewrite Htr. apply testbit_nonzero, Z.eqb_neq in Hbit. now rewrite Hbit.
  - assert (Hst' : fst r1 = Z.land usis (Z.lnot UART_RXFIFO_FULL_INT_ST)).
    { rewrite Hst. destruct (Z.gtb_spec space (rx_headroom (memory s p))); [reflexivity | lia]. }
    rewrite Hst' in Hbit.
    rewrite land_clears_bit in Hbit by (try reflexivity; unfold FULL_BIT; lia).
    destruct (st =? 0); cbn [negb] in Htr; [left; exact Htr|].
    right. exists st. split; assumption.
Qed.

Lemma isr_full_callback_threshold_witness :
  full_event_reported 1 headroom_six (handle_uart_interrupt UART0 (Some 1) headroom_six).
Proof.
  destruct (isr_full_callback_threshold UART0 1 headroom_six (mkBuffer 8 [])) as [H _].
  - vm_compute. reflexivity.
  - vm_compute. reflexivity.
  - vm_compute. reflexivity.
  - split; vm_compute; [discriminate | reflexivity].
  - vm_compute. discriminate.
  - vm_compute. reflexivity.
  - apply H. vm_compute. discriminate.
Defined.

(** C3 as stated fails. Six bytes drained into the empty 8-byte buffer leave
    free space 2, equal to the headroom, and the callback is called with the
    FIFO-full bit: the event is not suppressed. *)
Lemma headroom_equal_not_suppressed :
  let s := headroom_six in
  let s' := handle_uart_interrupt UART0 (Some 1) s in
  rx_buffer (memory s' 1) = Some (mkBuffer 8 [1; 2; 3; 4; 5; 6])
  /\ getFreeSpace (mkBuffer 8 [1; 2; 3; 4; 5; 6]) = rx_headroom (memory s' 1)
  /\ trace s' = EvCallback 1 UART_RXFIFO_FULL_INT_ST :: trace s
  /\ ~ full_event_suppressed 1 s s'.
Proof.
  cbv zeta. split; [vm_compute; reflexivity|]. split; [vm_compute; reflexivity|].
  split; [vm_compute; reflexivity|].
  intros [H | (st & H & Hbit)].
  - vm_compute in H. discriminate.
  - vm_compute in H. injection H as <-. vm_compute in Hbit. discriminate.
Qed.

(** The rest of the scenario: a seventh byte leaves free space 1 and the
    callback is called again; with five bytes, free space 3, it is not. *)
Example headroom_seven_reported :
  let s' := handle_uart_interrupt UART0 (Some 1) headroom_seven in
  rx_buffer (memory s' 1) = Some (mkBuffer 8 [1; 2; 3; 4; 5; 6; 7])
  /\ full_event_reported 1 headroom_seven s'.
Proof.
  cbv zeta. split; [vm_compute; reflexivity|].
  exists UART_RXFIFO_FULL_INT_ST. split; vm_compute; reflexivity.
Qed.

Example headroom_five_suppressed :
  let s' := handle_uart_interrupt UART0 (Some 1) headroom_five in
  rx_buffer (memory s' 1) = Some (mkBuffer 8 [1; 2; 3; 4; 5])
  /\ full_event_suppressed 1 headroom_five s'.
Proof.
  cbv zeta. split; [vm_compute; reflexivity|]. left. vm_compute. reflexivity.
Qed.

Lemma uart_txfifo_count_frame nr s s' :
  tx_fifo (ports s' nr) = tx_fifo (ports s nr) ->
  uart_txfifo_count nr s' = uart_txfifo_count nr s.
Proof. intros H. now rewrite !uart_txfifo_count_eq, H. Qed.

Lemma uart_txfifo_free_frame nr s s' :
  tx_fifo (ports s' nr) = tx_fifo (ports s nr) ->
  uart_txfifo_free nr s' = uart_txfifo_free nr s.
Proof. intros H. unfold uart_txfifo_free. now rewrite (uart_txfifo_count_frame nr s s' H). Qed.

(** The refill on a FIFO-empty interrupt. *)
Lemma isr_tx_empty_refill_core (nr p : Z) (s : driver) :
  uart_isr_enabled nr s = true ->
  bitRead (options (memory s p)) UART_OPT_CALLBACK_RAW = false ->
  Z.testbit (int_st (ports s nr)) EMPTY_BIT = true ->
  let cont := match tx_buffer (memory s p) with Some b => contents b | None => [] end in
  let n := Z.to_nat (Z.min (Z.of_nat (length cont)) (uart_txfifo_free nr s)) in
  let s' := handle_uart_interrupt nr (Some p) s in
  tx_fifo (ports s' nr) = tx_fifo (ports s nr) ++ map uint8 (firstn n cont)
  /\ tx_buffer (memory s' p)
     = option_map (fun b => mkBuffer (capacity b) (skipn n (contents b)))
                  (tx_buffer (memory s p))
  /\ (uart_txfifo_count nr s' = 0 -> empty_armed nr s' = false)
  /\ (uart_txfifo_count nr s' <> 0 ->
      empty_armed nr s' = empty_armed nr s /\ empty_event_suppressed p s s').
Proof.
  intros Hen Hraw Hempty. cbv zeta.
  pose proof (testbit_nonzero _ _ Hempty) as Hnz.
  destruct (handler_effects nr p s Hnz Hen) as (Htr & Hfifo & Harm & Hbuf & _).
  rewrite (isr_service_nonraw nr p _ s Hraw) in Htr, Hfifo, Harm, Hbuf.
  set (s' := handle_uart_interrupt nr (Some p) s) in *.
  set (usis := int_st (ports s nr)) in *.
  destruct (isr_rx_frame nr p usis usis s) as (Hm1 & Hp1 & Hg1).
  set (r1 := isr_rx nr p usis usis s) in *.
  assert (Hu : (Z.land usis UART_TXFIFO_EMPTY_INT_ST =? 0) = false)
    by (apply (bit_set_land_nonzero _ _ EMPTY_BIT); [assumption | reflexivity]).
  destruct (isr_tx_spec nr p usis (fst r1) (snd r1) Hu)
    as (Hf2 & Hb2 & Hif & Hm2 & Hg2 & _).
  cbv zeta in Hf2, Hb2, Hif, Hm2, Hg2.
  set (r2 := isr_tx nr p usis (fst r1) (snd r1)) in *.
  destruct (sans_rx_fields _ _ (Hm1 p)) as (_ & _ & _ & _ & _ & Htb & Hcb1).
  destruct (Hp1 nr) as [Hfifo1 Harm1].
  rewrite Htb, (uart_txfifo_free_frame nr s (snd r1) Hfifo1), Hfifo1 in Hf2.
  rewrite Htb, (uart_txfifo_free_frame nr s (snd r1) Hfifo1) in Hb2.
  rewrite <- (uart_txfifo_count_frame nr (snd r2) s' (Hfifo nr)) in Hif.
  split; [rewrite Hfifo; exact Hf2|]. split; [rewrite Hbuf; exact Hb2|].
  rewrite Harm. split.
  - intros H0. rewrite H0 in Hif. apply Hif.
  - intros Hne. apply Z.eqb_neq in Hne. rewrite Hne in Hif. destruct Hif as [Hst Ha].
    split; [rewrite Ha; exact Harm1|].
    assert (Ht : trace (snd r2) = trace s).
    { destruct (globals_fields _ _ Hg2) as [-> _]. apply globals_fields, Hg1. }
    rewrite Ht in Htr. unfold empty_event_suppressed.
    destruct (negb (fst r2 =? 0) && is_some (callback (memory (snd r2) p)));
      [|left; exact Htr].
    right. exists (fst r2). split; [exact Htr|].
    rewrite Hst. apply land_clears_bit; [unfold EMPTY_BIT; lia | reflexivity].
Qed.

(** ** Who enables the FIFO-empty interrupt *)

Lemma ena_le_refl s : ena_le s s.
Proof. intros k H. exact H. Qed.

Lemma ena_le_trans s1 s2 s3 : ena_le s1 s2 -> ena_le s2 s3 -> ena_le s1 s3.
Proof. intros H12 H23 k H. apply H12, H23, H. Qed.

Lemma ena_le_ports_eq s s' : ports s' = ports s -> ena_le s s'.
Proof. intros H k. unfold empty_armed. now rewrite H. Qed.

Lemma ena_le_int_ena s s' :
  (forall k, int_ena (ports s' k) = int_ena (ports s k)) -> ena_le s s'.
Proof. intros H k. unfold empty_armed. now rewrite H. Qed.

Lemma ena_le_WRITE r v s :
  (forall nr, r = UART_INT_ENA nr -> Z.testbit v EMPTY_BIT = false) ->
  ena_le s (WRITE_PERI_REG r v s).
Proof.
  intros Hv k. unfold empty_armed.
  destruct r; steps; try upd_case; steps; try (intros H; exact H).
  rewrite (Hv nr eq_refl). discriminate.
Qed.

Lemma ena_le_SET r m s :
  Z.testbit m EMPTY_BIT = false -> ena_le s (SET_PERI_REG_MASK r m s).
Proof.
  intros Hm k. unfold empty_armed, SET_PERI_REG_MASK, READ_PERI_REG.
  destruct r; steps; try upd_case; steps; try (intros H; exact H).
  rewrite Z.lor_spec, Hm, orb_false_r. intros H; exact H.
Qed.

Lemma ena_le_CLEAR r m s : ena_le s (CLEAR_PERI_REG_MASK r m s).
Proof.
  intros k. unfold empty_armed, CLEAR_PERI_REG_MASK, READ_PERI_REG.
  destruct r; steps; try upd_case; steps; try (intros H; exact H).
  rewrite Z.land_spec. intros H. apply andb_prop in H. apply H.
Qed.

Create HintDb ena.

Ltac ena_step :=
  first
    [ solve [auto with ena]
    | apply ena_le_CLEAR
    | apply ena_le_SET; reflexivity
    | apply ena_le_WRITE; intros ? ?; first [discriminate | repeat break_if; reflexivity]
    | apply ena_le_ports_eq; steps; reflexivity ].

Ltac ena :=
  cbv zeta;
  lazymatch goal with
  | |- ena_le ?s ?s => apply ena_le_refl
  | |- ena_le _ (if ?c then _ else _) => destruct c; ena
  | |- ena_le _ (match ?c with Some _ => _ | None => _ end) => destruct c; ena
  | |- ena_le ?s (?f ?x) => apply (ena_le_trans s x); [ena | ena_step]
  end.

Lemma ena_le_detach nr s : ena_le s (smg_uart_detach nr s).
Proof. unfold smg_uart_detach, smg_uart_disable_interrupts. ena. Qed.
#[local] Hint Resolve ena_le_detach : ena.

Lemma ena_le_start_isr uart s : ena_le s (smg_uart_start_isr uart s).
Proof. unfold smg_uart_start_isr. ena. Qed.
#[local] Hint Resolve ena_le_start_isr : ena.

Lemma ena_le_flush uart m s : ena_le s (smg_uart_flush uart m s).
Proof. unfold smg_uart_flush, smg_uart_disable_interrupts. ena. Qed.
#[local] Hint Resolve ena_le_flush : ena.

Lemma ena_le_get_status uart s : ena_le s (snd (smg_uart_get_status uart s)).
Proof.
  unfold smg_uart_get_status, smg_uart_disable_interrupts.
  destruct uart as [p|]; [|apply ena_le_refl]. cbv zeta.
  destruct (get_physical _ _); cbn [snd]; ena.
Qed.
#[local] Hint Resolve ena_le_get_status : ena.

Lemma ena_le_set_baudrate_reg nr baud s :
  ena_le s (snd (smg_uart_set_baudrate_reg nr baud s)).
Proof. unfold smg_uart_set_baudrate_reg. break_if; cbn [snd]; ena. Qed.
#[local] Hint Resolve ena_le_set_baudrate_reg : ena.

Lemma ena_le_set_baudrate uart baud s : ena_le s (snd (smg_uart_set_baudrate uart baud s)).
Proof.
  unfold smg_uart_set_baudrate. destruct (get_physical uart s) as [q|]; [|apply ena_le_refl].
  pose proof (ena_le_set_baudrate_reg (uart_nr (memory s q)) baud s) as H.
  destruct (smg_uart_set_baudrate_reg _ _ _) as [b s1]. cbn [snd] in *.
  apply (ena_le_trans s s1); [exact H | ena_step].
Qed.
#[local] Hint Resolve ena_le_set_baudrate : ena.

Lemma ena_le_set_callback uart cb prm s : ena_le s (smg_uart_set_callback uart cb prm s).
Proof. unfold smg_uart_set_callback. destruct uart; ena. Qed.
#[local] Hint Resolve ena_le_set_callback : ena.

Lemma ena_le_swap uart pin s : ena_le s (smg_uart_swap uart pin s).
Proof.
  unfold smg_uart_swap. destruct uart as [p|]; [|apply ena_le_refl].
  break_if; [|apply ena_le_refl]. cbv zeta.
  apply ena_le_ports_eq. repeat (break_if; steps). all: unfold SET_PERI_REG_MASK, CLEAR_PERI_REG_MASK; steps; reflexivity.
Qed.
#[local] Hint Resolve ena_le_swap : ena.

Lemma ena_le_set_tx uart pin s : ena_le s (snd (smg_uart_set_tx uart pin s)).
Proof.
  unfold smg_uart_set_tx. destruct uart as [p|]; [|apply ena_le_refl].
  break_if; cbn [snd]; [|apply ena_le_refl].
  apply ena_le_ports_eq. steps. reflexivity.
Qed.
#[local] Hint Resolve ena_le_set_tx : ena.

Lemma ena_le_set_pins uart tx rx s : ena_le s (snd (smg_uart_set_pins uart tx rx s)).
Proof.
  unfold smg_uart_set_pins. destruct uart as [p|]; [|apply ena_le_refl].
  break_if; [apply ena_le_refl|]. cbv zeta.
  repeat match goal with
         | |- context [if ?c then _ else _] => destruct c
         end; cbn [snd];
    repeat first [ apply ena_le_refl
                 | eapply ena_le_trans; [|apply ena_le_swap]
                 | eapply ena_le_trans; [|apply ena_le_set_tx] ].
Qed.
#[local] Hint Resolve ena_le_set_pins : ena.

Lemma read_buffer_loop_ports left : forall p buf s,
  ports (snd (read_buffer_loop left p buf s)) = ports s.
Proof.
  induction left as [|left IH]; intros p buf s; cbn [read_buffer_loop]; [reflexivity|].
  destruct (rx_buffer (memory s p)) as [b|]; [|reflexivity].
  destruct (isEmpty b); [reflexivity|]. rewrite IH. steps. reflexivity.
Qed.

Lemma read_fifo_loop_int_ena left : forall nr buf s k,
  int_ena (ports (snd (read_fifo_loop left nr buf s)) k) = int_ena (ports s k).
Proof.
  induction left as [|left IH]; intros nr buf s k; cbn [read_fifo_loop]; [reflexivity|].
  destruct (uart_rxfifo_count nr s =? 0); [reflexivity|].
  unfold READ_UART_FIFO. cbv zeta. rewrite IH. steps. try upd_case; steps; reflexivity.
Qed.

Lemma ena_le_read uart buffer size s : ena_le s (snd (smg_uart_read uart buffer size s)).
Proof.
  unfold smg_uart_read. destruct uart as [p|]; [|apply ena_le_refl].
  break_if; [apply ena_le_refl|]. cbv zeta.
  set (s0 := notify p UART_NOTIFY_BEFORE_READ s).
  assert (H0 : ena_le s s0) by (subst s0; ena).
  set (r1 := if is_some (rx_buffer (memory s0 p))
             then read_buffer_loop (Z.to_nat size) p [] s0 else ([], s0)).
  assert (H1 : ena_le s0 (snd r1)).
  { subst r1. break_if; [|apply ena_le_refl]. apply ena_le_ports_eq, read_buffer_loop_ports. }
  destruct r1 as [buf s1]. cbn [snd] in H1.
  apply (ena_le_trans s s0 _ H0), (ena_le_trans s0 s1 _ H1).
  break_if; [|apply ena_le_refl].
  match goal with |- context [read_fifo_loop ?l ?a ?b ?S] =>
    pose proof (read_fifo_loop_int_ena l a b S) as H2;
    destruct (read_fifo_loop l a b S) as [buf2 s2] end.
  cbn [snd] in *. apply (ena_le_trans s1 s2); [apply ena_le_int_ena, H2|]. ena.
Qed.
#[local] Hint Resolve ena_le_read : ena.

Lemma ena_le_isr_service nr p usis s : ena_le s (snd (isr_service nr p usis s)).
Proof.
  unfold isr_service. break_if; [|apply ena_le_refl].
  destruct (isr_rx_frame nr p usis usis s) as (_ & Hp1 & _).
  destruct (isr_rx nr p usis usis s) as [st s1]. cbn [snd] in Hp1.
  apply (ena_le_trans s s1).
  - intros k. destruct (Hp1 k) as [_ ->]. intros H; exact H.
  - destruct (Z.land usis UART_TXFIFO_EMPTY_INT_ST =? 0) eqn:He.
    + unfold isr_tx. rewrite He. apply ena_le_refl.
    + destruct (isr_tx_spec nr p usis st s1 He) as (_ & _ & Hif & _ & _ & Hk).
      cbv zeta in Hif, Hk. intros k.
      destruct (Z.eq_dec k nr) as [-> | Hne]; [|rewrite (Hk k Hne); intros H; exact H].
      destruct (uart_txfifo_count nr _ =? 0); destruct Hif as [_ ->];
        [discriminate | intros H; exact H].
Qed.

Lemma ena_le_handler nr uart s : ena_le s (handle_uart_interrupt nr uart s).
Proof.
  destruct (Z.eq_dec (int_st (ports s nr)) 0) as [H0 | Hnz].
  - unfold handle_uart_interrupt, READ_PERI_REG. rewrite H0. apply ena_le_refl.
  - destruct uart as [p|].
    + destruct (uart_isr_enabled nr s) eqn:Hen.
      * destruct (handler_effects nr p s Hnz Hen) as (_ & _ & Harm & _).
        intros k. rewrite Harm. apply ena_le_isr_service.
      * unfold handle_uart_interrupt, READ_PERI_REG. apply Z.eqb_neq in Hnz.
        rewrite Hnz, Hen. cbn [negb]. ena.
    + unfold handle_uart_interrupt, READ_PERI_REG. apply Z.eqb_neq in Hnz.
      rewrite Hnz. ena.
Qed.
#[local] Hint Resolve ena_le_handler : ena.

Lemma ena_le_uart_isr s : ena_le s (uart_isr s).
Proof.
  unfold uart_isr. cbv zeta.
  eapply ena_le_trans; [|apply ena_le_handler]. apply ena_le_handler.
Qed.
#[local] Hint Resolve ena_le_uart_isr : ena.

Lemma ena_le_init_finish cfg uart s : ena_le s (snd (init_finish cfg uart s)).
Proof.
  unfold init_finish. cbv zeta. cbn [snd].
  repeat first [ apply ena_le_refl
               | eapply ena_le_trans; [|solve [ena_step]] ].
Qed.
#[local] Hint Resolve ena_le_init_finish : ena.

Lemma ena_le_detach_all s : ena_le s (smg_uart_detach_all s).
Proof. unfold smg_uart_detach_all, smg_uart_disable_interrupts. ena. Qed.
#[local] Hint Resolve ena_le_detach_all : ena.

Lemma ena_le_set_notify nr cb s : ena_le s (snd (smg_uart_set_notify nr cb s)).
Proof. unfold smg_uart_set_notify. break_if; cbn [snd]; ena. Qed.
#[local] Hint Resolve ena_le_set_notify : ena.

Lemma ena_le_rx_available uart s : ena_le s (snd (smg_uart_rx_available uart s)).
Proof.
  unfold smg_uart_rx_available, smg_uart_disable_interrupts.
  destruct uart as [p|]; [|apply ena_le_refl]. break_if; cbn [snd]; ena.
Qed.
#[local] Hint Resolve ena_le_rx_available : ena.

Lemma ena_le_tx_free uart s : ena_le s (snd (smg_uart_tx_free uart s)).
Proof.
  unfold smg_uart_tx_free, smg_uart_disable_interrupts.
  destruct uart as [p|]; [|apply ena_le_refl]. break_if; cbn [snd]; ena.
Qed.
#[local] Hint Resolve ena_le_tx_free : ena.

Lemma ena_le_set_break uart state s : ena_le s (smg_uart_set_break uart state s).
Proof. unfold smg_uart_set_break. ena. Qed.
#[local] Hint Resolve ena_le_set_break : ena.

Lemma ena_le_init_ex new_ok alloc_ok cfg s :
  ena_le s (snd (smg_uart_init_ex new_ok alloc_ok cfg s)).
Proof.
  unfold smg_uart_init_ex. cbv zeta.
  repeat match goal with
         | |- context [if ?c then _ else _] => destruct c
         end; cbn [snd];
    repeat first [ apply ena_le_refl
                 | eapply ena_le_trans; [|solve [ena_step]] ].
Qed.
#[local] Hint Resolve ena_le_init_ex : ena.

(** Every modelled entry point but [smg_uart_write] leaves a disabled
    FIFO-empty interrupt source disabled. *)
Lemma empty_armed_only_by_write (c : driver_call) (k : Z) (s : driver) :
  empty_armed k s = false -> empty_armed k (run_call c s) = false.
Proof.
  intros Hoff. destruct (empty_armed k (run_call c s)) eqn:Hon; [|reflexivity].
  assert (H : ena_le s (run_call c s)) by (destruct c; cbn [run_call]; auto with ena).
  rewrite (H k Hon) in Hoff. discriminate.
Qed.

Example tx_pending_state :
  tx_fifo (ports tx_pending UART0) = [4; 5]
  /\ tx_buffer (memory tx_pending 1) = Some (mkBuffer 8 [6; 7; 8; 9; 10])
  /\ empty_armed UART0 tx_pending = true.
Proof. vm_compute. repeat split. Qed.

Lemma write_fifo_loop_frame rest : forall written nr s,
  memory (snd (write_fifo_loop rest written nr s)) = memory s
  /\ (forall k, int_ena (ports (snd (write_fifo_loop rest written nr s)) k)
                = int_ena (ports s k)).
Proof.
  induction rest as [|c rest IH]; intros written nr s; cbn [write_fifo_loop].
  - cbn [snd]. split; reflexivity.
  - destruct (uart_txfifo_full nr s); [cbn [snd]; split; reflexivity|].
    destruct (IH (written + 1) nr (WRITE_PERI_REG (UART_FIFO nr) c s)) as [Hm Hp].
    split.
    + rewrite Hm. steps. reflexivity.
    + intros k. rewrite Hp. steps. try upd_case; steps; reflexivity.
Qed.

Lemma write_buffer_loop_ports rest : forall written p s,
  ports (snd (write_buffer_loop rest written p s)) = ports s.
Proof.
  induction rest as [|c rest IH]; intros written p s; cbn [write_buffer_loop]; [reflexivity|].
  destruct (tx_buffer (memory s p)) as [b|]; [|reflexivity].
  destruct (fst (writeChar c b)); [|reflexivity]. rewrite IH. steps. reflexivity.
Qed.

(** A pass of [smg_uart_write] on a physical port whose transmit buffer is
    absent or empty enables the FIFO-empty interrupt source. *)
Lemma write_pass_arms rest written p s :
  match tx_buffer (memory s p) with Some b => isEmpty b = true | None => True end ->
  empty_armed (uart_nr (memory s p)) (snd (write_pass rest written p true s)) = true.
Proof.
  intros Hbuf. unfold write_pass. cbv zeta.
  assert (Hc : true && match tx_buffer (memory s p) with
                       | Some b => isEmpty b | None => true end = true)
    by (destruct (tx_buffer (memory s p)); [exact Hbuf | reflexivity]).
  rewrite Hc.
  set (nr := uart_nr (memory s p)).
  destruct (write_fifo_loop_frame rest written nr s) as [_ Hp].
  destruct (write_fifo_loop rest written nr s) as [[rest1 w1] s1]. cbn [snd] in Hp.
  set (s3 := SET_PERI_REG_MASK (UART_INT_ENA nr) UART_TXFIFO_EMPTY_INT_ENA
               (WRITE_PERI_REG (UART_INT_CLR nr) UART_TXFIFO_EMPTY_INT_CLR s1)).
  assert (H3 : empty_armed nr s3 = true).
  { subst s3. unfold empty_armed, SET_PERI_REG_MASK, READ_PERI_REG. steps.
    rewrite Z.lor_spec. apply orb_true_r. }
  assert (Hfin : forall r : list Z * Z * driver, ports (snd r) = ports s3 ->
                 empty_armed nr (notify p UART_NOTIFY_AFTER_WRITE (snd r)) = true).
  { intros r Hr. unfold empty_armed in *. autorewrite with frame. now rewrite Hr. }
  destruct (is_some (tx_buffer (memory s3 p))).
  - pose proof (write_buffer_loop_ports rest1 w1 p s3) as Hb.
    specialize (Hfin _ Hb). destruct (write_buffer_loop rest1 w1 p s3) as [[r2 w2] s4].
    exact Hfin.
  - apply (Hfin (rest1, w1, s3)). reflexivity.
Qed.

(** C5. On a FIFO-empty interrupt serviced in non-raw mode the handler moves
    the [min(available, uart_txfifo_free)] oldest bytes of the transmit
    buffer to the end of the transmit FIFO. If the FIFO is then empty the
    FIFO-empty interrupt enable bit is cleared; otherwise the bit is as it
    was and no callback sees the FIFO-empty bit. No modelled entry point
    but [smg_uart_write] enables the bit again, and a pass of
    [smg_uart_write] on a physical port with no bytes buffered does. *)
Theorem isr_tx_empty_refill (nr p : Z) (s : driver) :
  uart_isr_enabled nr s = true ->
  bitRead (options (memory s p)) UART_OPT_CALLBACK_RAW = false ->
  Z.testbit (int_st (ports s nr)) EMPTY_BIT = true ->
  let cont := match tx_buffer (memory s p) with Some b => contents b | None => [] end in
  let n := Z.to_nat (Z.min (Z.of_nat (length cont)) (uart_txfifo_free nr s)) in
  let s' := handle_uart_interrupt nr (Some p) s in
  tx_fifo (ports s' nr) = tx_fifo (ports s nr) ++ map uint8 (firstn n cont)
  /\ tx_buffer (memory s' p)
     = option_map (fun b => mkBuffer (capacity b) (skipn n (contents b)))
                  (tx_buffer (memory s p))
  /\ (uart_txfifo_count nr s' = 0 -> empty_armed nr s' = false)
  /\ (uart_txfifo_count nr s' <> 0 ->
      empty_armed nr s' = empty_armed nr s /\ empty_event_suppressed p s s')
  /\ (forall c k s0, empty_armed k s0 = false -> empty_armed k (run_call c s0) = false)
  /\ (forall rest written q s0,
        match tx_buffer (memory s0 q) with Some b => isEmpty b = true | None => True end ->
        empty_armed (uart_nr (memory s0 q)) (snd (write_pass rest written q true s0)) = true).
Proof.
  intros Hen Hraw Hempty.
  pose proof (isr_tx_empty_refill_core nr p s Hen Hraw Hempty) as (H1 & H2 & H3 & H4).
  cbv zeta. repeat split; try assumption.
  - apply H4; assumption.
  - apply H4; assumption.
  - intros c k s0. apply empty_armed_only_by_write.
  - intros rest written q s0. apply write_pass_arms.
Qed.

Lemma isr_tx_empty_refill_witness :
  let s' := handle_uart_interrupt UART0 (Some 1) tx_pending in
  tx_fifo (ports s' UART0) = [4; 5; 6; 7; 8; 9; 10]
  /\ tx_buffer (memory s' 1) = Some (mkBuffer 8 [])
  /\ empty_armed UART0 s' = true
  /\ empty_event_suppressed 1 tx_pending s'.
Proof.
  destruct (isr_tx_empty_refill UART0 1 tx_pending) as (H1 & H2 & _ & H4 & _).
  - vm_compute. reflexivity.
  - vm_compute. reflexivity.
  - vm_compute. reflexivity.
  - cbv zeta in H1, H2, H4. cbv zeta.
    assert (Hne : uart_txfifo_count UART0 (handle_uart_interrupt UART0 (Some 1) tx_pending)
                  <> 0) by (vm_compute; discriminate).
    destruct (H4 Hne) as [Ha Hs].
    split; [|split; [|split]].
    + rewrite H1. vm_compute. reflexivity.
    + rewrite H2. vm_compute. reflexivity.
    + rewrite Ha. vm_compute. reflexivity.
    + exact Hs.
Defined.

(** ** The receive buffer full *)

(** With a receive buffer in place the counter [read] is never zero after
    the drain loop, and without an overflow the receive part leaves every
    interrupt enable bit as it was. *)
Lemma isr_rx_never_masks nr p usis st s b :
  rx_buffer (memory s p) = Some b ->
  buffer_ok b ->
  (Z.land usis UART_RXFIFO_OVF_INT_ST =? 0) = true ->
  forall k, int_ena (ports (snd (isr_rx nr p usis st s)) k) = int_ena (ports s k).
Proof.
  intros Hb [Hav Hcap] Hovf k. unfold isr_rx. break_if; [|reflexivity].
  rewrite Hb, Hovf. cbn [negb]. cbv zeta.
  match goal with |- context [isr_rx_loop ?n ?r ?a ?q ?S] =>
    pose proof (isr_rx_loop_frame n r a q S) as (_ & Hp & _);
    pose proof (isr_rx_loop_counter n r a q S) as Hcnt;
    assert (Hr : 0 <= r);
    [ | destruct (isr_rx_loop n r a q S) as [rd s1] ] end.
  { rewrite uart_rxfifo_count_eq.
    pose proof (fifo_count_range (rx_fifo (ports s nr))). unfold getFreeSpace.
    break_if; lia. }
  cbv zeta in Hp. cbn [fst snd] in *.
  rewrite Z2Nat.id in Hcnt by assumption.
  replace (rd =? 0) with false.
  - cbn [snd]. apply port_sans_rx_fields, Hp.
  - symmetry. apply Z.eqb_neq. rewrite Hcnt.
    match goal with |- uint32 ?e <> 0 => replace e with (-1) by lia end.
    vm_compute. discriminate.
Qed.

(** C4 fails on the code. The receive buffer is full, the handler drains
    nothing from the FIFO, there is no overflow, and the FIFO-full and
    timeout interrupt enable bits are still set when the handler returns:
    [read] is 2^32 - 1 after [while(read-- != 0)], not zero. *)
Theorem isr_rx_full_buffer_not_masked :
  let s := rx_buffer_full in
  let s' := handle_uart_interrupt UART0 (Some 1) s in
  rx_buffer (memory s 1) = Some (mkBuffer 8 [1; 2; 3; 4; 5; 6; 7; 8])
  /\ bitRead (options (memory s 1)) UART_OPT_CALLBACK_RAW = false
  /\ int_st (ports s UART0) = UART_RXFIFO_FULL_INT_ST
  /\ rx_fifo (ports s UART0) = [9; 10]
  /\ rx_fifo (ports s' UART0) = [9; 10]
  /\ rx_buffer (memory s' 1) = Some (mkBuffer 8 [1; 2; 3; 4; 5; 6; 7; 8])
  /\ Z.testbit (int_ena (ports s' UART0)) FULL_BIT = true
  /\ Z.testbit (int_ena (ports s' UART0)) TOUT_BIT = true
  /\ fst (isr_rx_loop 0 0 UART0 1 s) = 2 ^ 32 - 1.
Proof. vm_compute. repeat split. Qed.

(** * Further properties *)

(** ** More on the baud rate *)

Lemma clk_div_pos baud : 0 < baud <= UART_CLK_FREQ -> 1 <= UART_CLK_FREQ / baud.
Proof.
  intros H. apply Z.div_le_lower_bound; lia.
Qed.

(** The rate a divider gives is never below the rate the divider was
    computed from. *)
Lemma clk_div_div_ge baud :
  0 < baud <= UART_CLK_FREQ -> baud <= UART_CLK_FREQ / (UART_CLK_FREQ / baud).
Proof.
  intros H. pose proof (clk_div_pos baud H) as Hd.
  apply Z.div_le_lower_bound; [lia|].
  rewrite Z.mul_comm. apply Z.mul_div_le. lia.
Qed.

Lemma clk_div_div_div baud :
  0 < baud <= UART_CLK_FREQ ->
  UART_CLK_FREQ / (UART_CLK_FREQ / (UART_CLK_FREQ / baud)) = UART_CLK_FREQ / baud.
Proof.
  intros H. pose proof (clk_div_pos baud H) as Hd.
  pose proof (clk_div_div_ge baud H) as Hge.
  apply Z.le_antisymm.
  - apply Z.div_le_compat_l; [unfold UART_CLK_FREQ|]; lia.
  - apply Z.div_le_lower_bound; [lia|]. rewrite Z.mul_comm. apply Z.mul_div_le. lia.
Qed.

(** X1. For a rate the reference clock can reach, the divider written is at least
    one and the rate reported lies between the rate asked for and the
    reference clock; it is the rate asked for when that rate divides the
    clock. *)
Theorem set_baudrate_reg_not_below (nr baud : Z) (s : driver) :
  is_physical nr = true ->
  0 < baud <= UART_CLK_FREQ ->
  let r := smg_uart_set_baudrate_reg nr baud s in
  1 <= clkdiv (ports (snd r) nr)
  /\ baud <= fst r <= UART_CLK_FREQ
  /\ (UART_CLK_FREQ mod baud = 0 -> fst r = baud).
Proof.
  intros Hphys Hb r. subst r. unfold smg_uart_set_baudrate_reg.
  rewrite Hphys. replace (baud =? 0) with false by (symmetry; apply Z.eqb_neq; lia).
  cbn [negb orb fst snd].
  pose proof (clk_div_pos baud Hb) as Hd.
  replace (UART_CLK_FREQ / baud =? 0) with false by (symmetry; apply Z.eqb_neq; lia).
  split; [|split; [split|]].
  - steps. exact Hd.
  - apply clk_div_div_ge, Hb.
  - apply Z.div_le_upper_bound; [lia|]. unfold UART_CLK_FREQ in *. nia.
  - intros Hmod. apply Z.div_exact in Hmod; [|lia].
    symmetry. apply Z.div_unique_exact; [lia|]. rewrite Z.mul_comm. exact Hmod.
Qed.

Lemma set_baudrate_reg_not_below_witness :
  let r := smg_uart_set_baudrate_reg UART0 115200 boot in
  1 <= clkdiv (ports (snd r) UART0) /\ 115200 <= fst r <= UART_CLK_FREQ.
Proof.
  destruct (set_baudrate_reg_not_below UART0 115200 boot) as (H1 & H2 & _).
  - reflexivity.
  - unfold UART_CLK_FREQ. lia.
  - split; assumption.
Defined.

(** X2. Asking for the rate a call has reported programs the same divider and
    reports the same rate. *)
Theorem set_baudrate_reg_reported_is_fixed (nr baud : Z) (s : driver) :
  is_physical nr = true ->
  0 < baud <= UART_CLK_FREQ ->
  let r := smg_uart_set_baudrate_reg nr baud s in
  let r' := smg_uart_set_baudrate_reg nr (fst r) (snd r) in
  fst r' = fst r /\ clkdiv (ports (snd r') nr) = clkdiv (ports (snd r) nr).
Proof.
  intros Hphys Hb r r'. subst r' r. unfold smg_uart_set_baudrate_reg.
  rewrite Hphys. replace (baud =? 0) with false by (symmetry; apply Z.eqb_neq; lia).
  cbn [negb orb fst snd].
  pose proof (clk_div_pos baud Hb) as Hd.
  pose proof (clk_div_div_ge baud Hb) as Hge.
  replace (UART_CLK_FREQ / baud =? 0) with false by (symmetry; apply Z.eqb_neq; lia).
  replace (UART_CLK_FREQ / (UART_CLK_FREQ / baud) =? 0) with false
    by (symmetry; apply Z.eqb_neq; lia).
  cbn [fst snd]. rewrite clk_div_div_div by exact Hb.
  replace (UART_CLK_FREQ / baud =? 0) with false by (symmetry; apply Z.eqb_neq; lia).
  split; [reflexivity|]. steps. reflexivity.
Qed.

Lemma set_baudrate_reg_reported_is_fixed_witness :
  let r := smg_uart_set_baudrate_reg UART0 115200 boot in
  let r' := smg_uart_set_baudrate_reg UART0 (fst r) (snd r) in
  fst r' = fst r /\ clkdiv (ports (snd r') UART0) = clkdiv (ports (snd r) UART0).
Proof.
  apply (set_baudrate_reg_reported_is_fixed UART0 115200 boot).
  - reflexivity.
  - unfold UART_CLK_FREQ. lia.
Defined.



(** ** More on opening a port *)

Lemma init_finish_result cfg uart s : fst (init_finish cfg uart s) = Some uart.
Proof. reflexivity. Qed.

Lemma next_free_restore s : next_free (smg_uart_restore_interrupts s) = next_free s.
Proof. unfold smg_uart_restore_interrupts; unfold_prims; repeat break_if; reflexivity. Qed.

Lemma io_mux_restore s : io_mux (smg_uart_restore_interrupts s) = io_mux s.
Proof. unfold smg_uart_restore_interrupts; unfold_prims; repeat break_if; reflexivity. Qed.

Lemma next_free_notify u c s : next_free (notify u c s) = next_free s.
Proof. unfold notify; unfold_prims; repeat break_if; reflexivity. Qed.

Lemma io_mux_notify u c s : io_mux (notify u c s) = io_mux s.
Proof. unfold notify; unfold_prims; repeat break_if; reflexivity. Qed.

Lemma intr_enabled_notify u c s :
  ets_uart_intr_enabled (notify u c s) = ets_uart_intr_enabled s.
Proof. unfold notify; unfold_prims; repeat break_if; reflexivity. Qed.

#[local] Hint Rewrite next_free_restore io_mux_restore next_free_notify io_mux_notify
  intr_enabled_notify : frame.

Lemma settings_fields u u' :
  settings u = settings u' ->
  uart_nr u = uart_nr u' /\ mode u = mode u' /\ options u = options u'
  /\ rx_pin u = rx_pin u' /\ tx_pin u = tx_pin u' /\ rx_headroom u = rx_headroom u'
  /\ status u = status u' /\ callback u = callback u'.
Proof.
  unfold settings, set_baud_rate, set_rx_buffer, set_tx_buffer. cbn.
  intros H. injection H. intros. repeat split; assumption.
Qed.

Lemma set_baudrate_settings uart baud s :
  let s' := snd (smg_uart_set_baudrate uart baud s) in
  (forall q, settings (memory s' q) = settings (memory s q)
             /\ rx_buffer (memory s' q) = rx_buffer (memory s q)
             /\ tx_buffer (memory s' q) = tx_buffer (memory s q))
  /\ globals s' = globals s /\ io_mux s' = io_mux s.
Proof.
  unfold smg_uart_set_baudrate, smg_uart_set_baudrate_reg, globals.
  destruct (get_physical uart s) as [p|]; [|repeat split; reflexivity].
  break_if; cbn [fst snd]; (split; [|split]); try intros q; steps;
    try (upd_case; steps); repeat split; reflexivity.
Qed.

Lemma flush_settings p m s :
  let s' := smg_uart_flush (Some p) m s in
  (forall q, settings (memory s' q) = settings (memory s q)
             /\ baud_rate (memory s' q) = baud_rate (memory s q)
             /\ (q <> p -> memory s' q = memory s q))
  /\ globals s' = globals s /\ io_mux s' = io_mux s.
Proof.
  unfold smg_uart_flush, globals.
  cbv zeta. unfold is_physical_uart.
  repeat match goal with
         | |- context [if ?c then _ else _] => destruct c
         end;
    (split; [|split]); try intros q; steps; try (upd_case; steps);
    repeat split; try reflexivity; try (intros; congruence).
Qed.

Lemma memory_detach nr s : memory (smg_uart_detach nr s) = memory s.
Proof. unfold smg_uart_detach. cbv zeta. break_if; steps; reflexivity. Qed.

Lemma uartInstances_detach nr s : uartInstances (smg_uart_detach nr s) = uartInstances s.
Proof. unfold smg_uart_detach. cbv zeta. break_if; steps; reflexivity. Qed.

Lemma swap_reg_detach nr s : swap_reg (smg_uart_detach nr s) = swap_reg s.
Proof. unfold smg_uart_detach. cbv zeta. break_if; steps; reflexivity. Qed.

Lemma io_mux_detach nr s : io_mux (smg_uart_detach nr s) = io_mux s.
Proof. unfold smg_uart_detach. cbv zeta. break_if; steps; reflexivity. Qed.

Lemma notifyCallbacks_detach nr s :
  notifyCallbacks (smg_uart_detach nr s) = notifyCallbacks s.
Proof. unfold smg_uart_detach. cbv zeta. break_if; steps; reflexivity. Qed.

Lemma trace_detach nr s : trace (smg_uart_detach nr s) = trace s.
Proof. unfold smg_uart_detach. cbv zeta. break_if; steps; reflexivity. Qed.

Lemma next_free_detach nr s : next_free (smg_uart_detach nr s) = next_free s.
Proof. unfold smg_uart_detach. cbv zeta. break_if; steps; reflexivity. Qed.

#[local] Hint Rewrite memory_detach uartInstances_detach swap_reg_detach io_mux_detach
  notifyCallbacks_detach trace_detach next_free_detach : frame.

Lemma start_isr_frame uart s :
  let s' := smg_uart_start_isr uart s in
  memory s' = memory s /\ uartInstances s' = uartInstances s
  /\ swap_reg s' = swap_reg s /\ io_mux s' = io_mux s
  /\ next_free s' = next_free s /\ notifyCallbacks s' = notifyCallbacks s
  /\ trace s' = trace s.
Proof.
  unfold smg_uart_start_isr. destruct uart as [p|]; [|repeat split; reflexivity].
  cbv zeta.
  repeat match goal with
         | |- context [if ?c then _ else _] => destruct c
         end; repeat split; steps; reflexivity.
Qed.

(** The tail of an open: the instance is put into the registry and keeps the
    settings it was given. *)
Lemma init_finish_frame cfg uart s :
  let s' := snd (init_finish cfg uart s) in
  (forall q, settings (memory s' q) = settings (memory s q)
             /\ (q <> uart ->
                 rx_buffer (memory s' q) = rx_buffer (memory s q)
                 /\ tx_buffer (memory s' q) = tx_buffer (memory s q)))
  /\ uartInstances s' = upd (uartInstances s) (cfg_uart_nr cfg) (Some uart)
  /\ swap_reg s' = swap_reg s /\ io_mux s' = io_mux s.
Proof.
  unfold init_finish. cbv zeta. cbn [snd].
  destruct (set_baudrate_settings (Some uart) (cfg_baudrate cfg) s) as (M1 & G1 & I1).
  cbv zeta in M1, G1, I1.
  set (s1 := snd (smg_uart_set_baudrate (Some uart) (cfg_baudrate cfg) s)) in *.
  destruct (flush_settings uart UART_FULL s1) as (M2 & G2 & I2).
  cbv zeta in M2, G2, I2.
  set (s2 := smg_uart_flush (Some uart) UART_FULL s1) in *.
  set (s3 := set_uartInstances (upd (uartInstances s2) (cfg_uart_nr cfg) (Some uart)) s2).
  destruct (start_isr_frame (Some uart) s3) as (M4 & R4 & W4 & I4 & _).
  cbv zeta in M4, R4, W4, I4.
  set (s4 := smg_uart_start_isr (Some uart) s3) in *.
  unfold globals in G1, G2. injection G1 as _ R1 _ _ W1 _. injection G2 as _ R2 _ _ W2 _.
  autorewrite with frame.
  rewrite M4, R4, W4, I4. subst s3. cbn [memory uartInstances swap_reg io_mux set_uartInstances].
  split; [|split; [|split]].
  - intros q. destruct (M2 q) as (E2 & _ & F2). destruct (M1 q) as (E1 & B1 & T1).
    split; [now rewrite E2|]. intros Hq. rewrite (F2 Hq). split; assumption.
  - now rewrite R2, R1.
  - now rewrite W2, W1.
  - now rewrite I2, I1.
Qed.

(** ** Opening a port, step by step *)

Lemma memory_store_same p f s : memory (store p f s) p = f (memory s p).
Proof. steps. reflexivity. Qed.

Lemma memory_store_other p f s q : q <> p -> memory (store p f s) q = memory s q.
Proof. intros H. steps. reflexivity. Qed.

Lemma uart0_pin_select_1 s :
  uart0_pin_select 1 s = PIN_FUNC_SELECT PERIPHS_IO_MUX_U0TXD_U FUNC_UART0_TXD s.
Proof. reflexivity. Qed.

Lemma uart0_pin_select_2 s :
  uart0_pin_select 2 s = PIN_FUNC_SELECT PERIPHS_IO_MUX_GPIO2_U FUNC_UART0_TXD_BK s.
Proof. reflexivity. Qed.

Lemma uart0_pin_select_3 s :
  uart0_pin_select 3 s = PIN_FUNC_SELECT PERIPHS_IO_MUX_U0RXD_U FUNC_UART0_RXD s.
Proof. reflexivity. Qed.

Lemma uart1_pin_select_2 s :
  uart1_pin_select 2 s = PIN_FUNC_SELECT PERIPHS_IO_MUX_GPIO2_U FUNC_UART1_TXD_BK s.
Proof. reflexivity. Qed.

(** The body of a function is run one [let] at a time: the state bound by
    the [let] gets a name, what is known of the state before gives what is
    known of it, and its definition is forgotten. *)

Ltac reduce_known :=
  repeat match goal with
         | H : memory ?x ?p = _ |- context [memory ?x ?p] => rewrite H
         end;
  cbv beta iota delta
    [smg_uart_rx_enabled smg_uart_tx_enabled mode_eqb negb andb orb
     uart_nr baud_rate mode options rx_pin tx_pin rx_headroom status rx_buffer tx_buffer
     callback param].

Ltac use_known x :=
  repeat match goal with
         | H : memory x _ = _ |- _ => rewrite H
         | H : forall q, q <> _ -> memory x q = _ |- _ => rewrite H by assumption
         | H : next_free x = _ |- _ => rewrite H
         | H : uartInstances x = _ |- _ => rewrite H
         | H : notifyCallbacks x = _ |- _ => rewrite H
         | H : trace x = _ |- _ => rewrite H
         | H : ports x = _ |- _ => rewrite H
         | H : io_mux x = _ |- _ => rewrite H
         | H : swap_reg x = _ |- _ => rewrite H
         | H : isrMask x = _ |- _ => rewrite H
         | H : ets_uart_intr_enabled x = _ |- _ => rewrite H
         end.

Ltac simpl_update :=
  rewrite ?uart0_pin_select_1, ?uart0_pin_select_2, ?uart0_pin_select_3,
    ?uart1_pin_select_2;
  repeat (rewrite memory_store_same
          || (rewrite memory_store_other by assumption)
          || step || (progress upd_simpl) || (progress autorewrite with frame)).

Ltac know y x p :=
  let Hm := fresh "Hm" in
  eassert (Hm : memory y p = _)
    by (unfold y; simpl_update; use_known x;
        cbv beta iota delta
          [set_uart_nr set_baud_rate set_mode set_options set_rx_pin set_tx_pin
           set_rx_headroom set_status set_rx_buffer set_tx_buffer set_callback set_param
           uart_nr baud_rate mode options rx_pin tx_pin rx_headroom status rx_buffer
           tx_buffer callback param zero_uart];
        reflexivity);
  let Ho := fresh "Ho" in
  assert (Ho : forall q, q <> p -> memory y q = _)
    by (intros q Hq; unfold y; simpl_update; use_known x; reflexivity);
  let H := fresh "Hnf" in
  eassert (H : next_free y = _) by (unfold y; simpl_update; use_known x; reflexivity);
  let H := fresh "Hreg" in
  eassert (H : uartInstances y = _) by (unfold y; simpl_update; use_known x; reflexivity);
  let H := fresh "Hntf" in
  eassert (H : notifyCallbacks y = _) by (unfold y; simpl_update; use_known x; reflexivity);
  let H := fresh "Htr" in
  eassert (H : trace y = _) by (unfold y; simpl_update; use_known x; reflexivity);
  let H := fresh "Hmux" in
  eassert (H : io_mux y = _) by (unfold y; simpl_update; use_known x; reflexivity);
  let H := fresh "Hswp" in
  eassert (H : swap_reg y = _) by (unfold y; simpl_update; use_known x; reflexivity);
  let H := fresh "Hie" in
  eassert (H : ets_uart_intr_enabled y = _)
    by (unfold y; simpl_update; use_known x; reflexivity);
  let H := fresh "Hisr" in
  eassert (H : isrMask y = _) by (unfold y; simpl_update; use_known x; reflexivity);
  let H := fresh "Hprt" in
  eassert (H : ports y = _) by (unfold y; simpl_update; use_known x; reflexivity).

Ltac decide_eqb :=
  repeat match goal with
         | |- context [?a =? ?b] =>
             let v := eval vm_compute in (a =? b) in
             lazymatch v with
             | true => change (a =? b) with true
             | false => change (a =? b) with false
             end
         end;
  cbv beta iota delta [orb andb negb].

Ltac exec_let p :=
  reduce_known;
  lazymatch goal with
  | |- ?P (let x := ?a in @?b x) =>
      lazymatch type of a with
      | driver =>
          try match a with
              | context [?t =? 2] => is_var t; destruct (t =? 2) eqn:?; cbv beta iota
              end;
          lazymatch goal with
          | |- ?P (let x := ?a in @?b x) =>
              let y := fresh "y" in
              set (y := a);
              change (P (b y)); cbv beta;
              match goal with
              | x : driver |- _ =>
                  lazymatch a with context [x] => idtac end;
                  know y x p
              end;
              clearbody y
          end
      | _ => change (P (b a)); cbv beta
      end
  end.

Ltac exec_if :=
  lazymatch goal with
  | |- ?P (if true then _ else _) => cbv beta iota
  | |- ?P (if false then _ else _) => cbv beta iota
  | |- ?P (if ?c then _ else _) => destruct c eqn:?; cbv beta iota
  end.

Ltac exec p := repeat first [ exec_let p | exec_if ].

Lemma ports_detach nr s k :
  ports (smg_uart_detach nr s) k
  = if (k =? nr) && is_physical nr
    then with_int_ena 0 (with_int_clr 0xffff (with_conf1 0 (ports s k)))
    else ports s k.
Proof.
  unfold smg_uart_detach. cbv zeta.
  destruct (is_physical nr); cbn [negb]; [|now rewrite andb_false_r].
  rewrite andb_true_r. steps.
  destruct (Z.eqb_spec k nr) as [-> | Hne]; steps; reflexivity.
Qed.

Ltac simplify_request :=
  cbv beta iota zeta delta
    [wants_rx wants_tx opened_mode rx_request tx_request opened_instance
     cfg_uart_nr cfg_tx_pin cfg_mode cfg_options cfg_baudrate cfg_format
     cfg_rx_size cfg_tx_size];
  decide_eqb;
  cbv beta iota delta [mode_eqb negb andb orb].

Ltac refuse Hrefused :=
  apply Hrefused;
  [ intros (A1 & A2 & A3 & A4 & A5 & A6);
    revert A1 A2 A3 A4 A5 A6; simplify_request; intros A1 A2 A3 A4 A5 A6;
    try (specialize (A4 eq_refl)); try (specialize (A5 eq_refl));
    try (specialize (A6 eq_refl));
    repeat match goal with
           | A : fst ?r = true, H : context [fst ?r] |- _ => rewrite A in H
           end;
    first [ discriminate | congruence | (exfalso; apply A4; reflexivity)
          | (destruct A3 as [? | [? | ?]]; congruence) ]
  | match goal with |- hardware ?y = _ => unfold hardware; use_known y; reflexivity end
  | match goal with |- registry ?y = _ => unfold registry; use_known y; reflexivity end
  | match goal with |- ets_uart_intr_enabled ?y = _ => use_known y; reflexivity end
  | match goal with H : forall q, q <> _ -> memory ?y q = _ |- forall q, _ -> memory ?y q = _ =>
      exact H end ].

Ltac from_guard :=
  repeat match goal with
         | H : (if ?c then false else true) = false |- _ =>
             destruct c eqn:?; [clear H | discriminate H]
         | H : (?t =? 2) = _ |- context [?t =? 2] => rewrite H
         end.

Ltac grant_request Hfree :=
  unfold admissible; cbv zeta; simplify_request; from_guard;
  split; [exact Hfree|]; split; [reflexivity|];
  split; [first [left; reflexivity | right; left; reflexivity | right; right; reflexivity]|];
  split; [intros ?; first [discriminate | congruence]|];
  split; intros ?; first [assumption | discriminate].

Ltac hw_prepared y :=
  unfold prepared_hw; cbv zeta; simplify_request; from_guard;
  split; [intros k Hk; use_known y; upd_simpl; rewrite ?ports_detach;
          try (apply Z.eqb_neq in Hk; rewrite Hk; cbv beta iota delta [andb]);
          repeat match goal with H : ports ?x = _ |- context [ports ?x] => rewrite H end;
          reflexivity|];
  split; [intros E; first [discriminate E | unfold hardware; use_known y; reflexivity]|];
  split;
  [ intros E; first
      [ discriminate E
      | use_known y;
        split; [rewrite Z.land_spec; apply andb_false_r|];
        split; intros E'; first [discriminate E' | reflexivity] ]
  | intros E; first [discriminate E | use_known y; split; reflexivity] ].

Ltac reach_tail Hopened Hfree :=
  match goal with
  | |- ?P (init_finish ?c ?p ?y) =>
      apply Hopened; fold p;
      [ grant_request Hfree
      | use_known y; simplify_request; from_guard; reflexivity
      | match goal with H : forall q, q <> _ -> memory y q = _ |- _ => exact H end
      | unfold registry; use_known y; reflexivity
      | use_known y; reflexivity
      | hw_prepared y ]
  end.

(** Every way through [smg_uart_init_ex]. Either the request is not
    admissible: the call returns null, and the state it leaves has the
    registers, the registry and the existing instances of the state before.
    Or it is, and the call reaches its tail with the new instance filled in. *)
Lemma init_ex_cases (P : option Z * driver -> Prop) new_ok alloc_ok cfg s :
  (~ admissible new_ok alloc_ok cfg s ->
   forall s', hardware s' = hardware s -> registry s' = registry s ->
     ets_uart_intr_enabled s' = ets_uart_intr_enabled s ->
     (forall q, q <> next_free s -> memory s' q = memory s q) ->
     P (None, s')) ->
  (admissible new_ok alloc_ok cfg s ->
   forall S,
     memory S (next_free s) = opened_instance alloc_ok cfg ->
     (forall q, q <> next_free s -> memory S q = memory s q) ->
     registry S = registry s ->
     next_free S = next_free s + 1 ->
     prepared_hw cfg s S ->
     P (init_finish cfg (next_free s) S)) ->
  P (smg_uart_init_ex new_ok alloc_ok cfg s).
Proof.
  intros Hrefused Hopened.
  cbv beta delta [smg_uart_init_ex].
  destruct (is_some (smg_uart_get_uart (cfg_uart_nr cfg) s)) eqn:Hfree.
  { apply Hrefused; try reflexivity.
    intros (A1 & _). rewrite A1 in Hfree. discriminate. }
  destruct new_ok; cbv beta iota delta [negb].
  2: { apply Hrefused; try reflexivity. intros (_ & A2 & _). discriminate. }
  assert (Hfree' : smg_uart_get_uart (cfg_uart_nr cfg) s = None)
    by (destruct (smg_uart_get_uart (cfg_uart_nr cfg) s); [discriminate | reflexivity]).
  clear Hfree.
  match goal with
  | |- ?P (let x := ?a in @?b x) =>
      let y := fresh "p" in
      set (y := a); change (P (b y)); cbv beta
  end.
  destruct cfg as [nr txp m opts baud fmt rxs txs].
  cbv beta iota delta [cfg_uart_nr cfg_tx_pin cfg_mode cfg_options cfg_baudrate cfg_format
                       cfg_rx_size cfg_tx_size] in *.
  repeat (exec_let p).
  destruct (Z.eq_dec nr UART0) as [-> | N0];
    [| destruct (Z.eq_dec nr UART2) as [-> | N2];
       [| destruct (Z.eq_dec nr UART1) as [-> | N1] ] ].
  4: { assert (E0 := N0). assert (E1 := N1). assert (E2 := N2).
       apply Z.eqb_neq in E0, E1, E2. rewrite E0, E1, E2. cbv beta iota delta [orb].
       refuse Hrefused. }
  all: decide_eqb; destruct m.
  all: [> exec p .. ].
  all: try (refuse Hrefused).
  all: [> reach_tail Hopened Hfree' .. ].
Qed.

(** X4. [smg_uart_init_ex] returns an instance exactly when the request is
    admissible: the port is not open, the instance is allocated, the port
    number is 0, 1 or 2, UART1 is not asked to receive only, and each buffer
    the mode calls for is granted. The instance is then the one just
    allocated. *)
Theorem init_ex_succeeds_iff (new_ok : bool) (alloc_ok : Z -> bool)
    (cfg : smg_uart_config_t) (s : driver) :
  (fst (smg_uart_init_ex new_ok alloc_ok cfg s) <> None
   <-> admissible new_ok alloc_ok cfg s)
  /\ (fst (smg_uart_init_ex new_ok alloc_ok cfg s) <> None ->
      fst (smg_uart_init_ex new_ok alloc_ok cfg s) = Some (next_free s)).
Proof.
  apply init_ex_cases.
  - intros Hno s' _ _ _ _. cbn [fst]. split; [split|]; intros H; contradiction.
  - intros Hyes S _ _ _ _ _. rewrite init_finish_result.
    split; [split|]; intros _; [exact Hyes | discriminate | reflexivity].
Qed.

(** X5. A call of [smg_uart_init_ex] that returns null has touched neither the
    hardware nor the registry: every register, the pin multiplexer, the
    interrupt mask, the registry, the hooks and the trace are as before, and
    so is every instance that existed. Each refusal comes before the first
    register is written. *)
Theorem init_ex_refused_touches_nothing (new_ok : bool) (alloc_ok : Z -> bool)
    (cfg : smg_uart_config_t) (s : driver) :
  fst (smg_uart_init_ex new_ok alloc_ok cfg s) = None ->
  let s' := snd (smg_uart_init_ex new_ok alloc_ok cfg s) in
  hardware s' = hardware s /\ registry s' = registry s
  /\ ets_uart_intr_enabled s' = ets_uart_intr_enabled s
  /\ (forall q, q <> next_free s -> memory s' q = memory s q).
Proof.
  cbv zeta. apply init_ex_cases.
  - intros _ s' Hh Hr He Ho _. cbn [snd]. repeat split; assumption.
  - intros _ S _ _ _ _ _. rewrite init_finish_result. discriminate.
Qed.

Lemma init_ex_refused_touches_nothing_witness :
  let alloc_ok := fun size => size <? 100 in
  let cfg := config UART0 UART_FULL 16 200 in
  let s := opened UART1 UART_TX_ONLY 0 16 in
  let s' := snd (smg_uart_init_ex true alloc_ok cfg s) in
  hardware s' = hardware s /\ registry s' = registry s
  /\ ets_uart_intr_enabled s' = ets_uart_intr_enabled s
  /\ (forall q, q <> next_free s -> memory s' q = memory s q).
Proof.
  apply (init_ex_refused_touches_nothing true (fun size => size <? 100)
           (config UART0 UART_FULL 16 200) (opened UART1 UART_TX_ONLY 0 16)).
  reflexivity.
Defined.

Lemma registry_fields s s' :
  registry s' = registry s ->
  uartInstances s' = uartInstances s /\ notifyCallbacks s' = notifyCallbacks s
  /\ trace s' = trace s.
Proof. unfold registry. intros H. injection H. intros. repeat split; assumption. Qed.

Lemma hardware_fields s s' :
  hardware s' = hardware s ->
  ports s' = ports s /\ io_mux s' = io_mux s /\ swap_reg s' = swap_reg s
  /\ isrMask s' = isrMask s.
Proof. unfold hardware. intros H. injection H. intros. repeat split; assumption. Qed.



(** X7. A successful open of UART0 leaves the port on the default pin set:
    receive on pin 3, transmit on pin 2 when the configuration asks for pin
    2 and on pin 1 otherwise, for the roles of the configured mode; those
    pins are switched to their UART function and the pin-swap control bit
    is clear. *)
Theorem init_ex_uart0_default_pins (new_ok : bool) (alloc_ok : Z -> bool)
    (cfg : smg_uart_config_t) (s : driver) (p : Z) :
  cfg_uart_nr cfg = UART0 ->
  fst (smg_uart_init_ex new_ok alloc_ok cfg s) = Some p ->
  let s' := snd (smg_uart_init_ex new_ok alloc_ok cfg s) in
  let u := memory s' p in
  default_pin_set p s'
  /\ mode u = cfg_mode cfg
  /\ (smg_uart_rx_enabled u = true ->
      io_mux s' PERIPHS_IO_MUX_U0RXD_U = FUNC_UART0_RXD)
  /\ (smg_uart_tx_enabled u = true ->
      if cfg_tx_pin cfg =? 2
      then tx_pin u = 2 /\ io_mux s' PERIPHS_IO_MUX_GPIO2_U = FUNC_UART0_TXD_BK
      else tx_pin u = 1 /\ io_mux s' PERIPHS_IO_MUX_U0TXD_U = FUNC_UART0_TXD).
Proof.
  intros Hnr. cbv zeta. apply init_ex_cases.
  - intros _ s' _ _ _ _. discriminate.
  - intros _ S Hm _ _ _ (_ & _ & H0 & _).
    rewrite init_finish_result. intros H. injection H as <-.
    destruct (H0 Hnr) as (Hswap & Hrx & Htx).
    destruct (init_finish_frame cfg (next_free s) S) as (M & _ & W & I). cbv zeta in M, W, I.
    destruct (settings_fields _ _ (proj1 (M (next_free s))))
      as (Enr & Emode & _ & Erx & Etx & _).
    unfold default_pin_set, smg_uart_tx_enabled, smg_uart_rx_enabled. cbv zeta.
    rewrite Enr, Emode, Erx, Etx, W, I, Hm.
    unfold opened_instance, wants_rx, wants_tx, opened_mode in *. cbv zeta.
    rewrite Hnr in *. change (UART0 =? UART1) with false in *.
    change (UART0 =? UART0) with true. cbv beta iota.
    cbn [uart_nr mode rx_pin tx_pin andb].
    destruct (cfg_mode cfg); cbn [mode_eqb negb] in *.
    + destruct (cfg_tx_pin cfg =? 2); repeat split; auto.
    + repeat split; auto. discriminate.
    + destruct (cfg_tx_pin cfg =? 2); repeat split; auto; discriminate.
Qed.

Lemma init_ex_uart0_default_pins_witness :
  default_pin_set 1 (opened UART0 UART_FULL 8 8).
Proof.
  destruct (init_ex_uart0_default_pins true heap_ok (config UART0 UART_FULL 8 8) boot 1)
    as (H & _).
  - reflexivity.
  - reflexivity.
  - exact H.
Defined.

(** ** Flushing *)

Lemma intr_enabled_restore s :
  ets_uart_intr_enabled (smg_uart_restore_interrupts s)
  = negb (isrMask s =? 0) || ets_uart_intr_enabled s.
Proof.
  unfold smg_uart_restore_interrupts. destruct (negb (isrMask s =? 0)); reflexivity.
Qed.

(** What [smg_uart_flush] does: the buffers of the directions flushed are
    emptied, the registers of the port of a physical instance are reset as
    [flushed_port] says, and the UART interrupt is left enabled exactly when
    some port has its interrupts started. *)
Lemma flush_spec p m s :
  let u := memory s p in
  let frx := flushes_rx m u in
  let ftx := flushes_tx m u in
  let s' := smg_uart_flush (Some p) m s in
  memory s' p
  = set_tx_buffer (if ftx then option_map clear (tx_buffer u) else tx_buffer u)
      (set_rx_buffer (if frx then option_map clear (rx_buffer u) else rx_buffer u) u)
  /\ (forall q, q <> p -> memory s' q = memory s q)
  /\ globals s' = globals s /\ io_mux s' = io_mux s
  /\ ets_uart_intr_enabled s' = negb (isrMask s =? 0)
  /\ (forall k, k <> uart_nr u \/ is_physical (uart_nr u) = false -> ports s' k = ports s k)
  /\ (is_physical (uart_nr u) = true ->
      ports s' (uart_nr u) = flushed_port frx ftx (ports s (uart_nr u))).
Proof.
  cbv zeta. unfold smg_uart_flush, flushes_rx, flushes_tx, is_physical_uart, globals.
  cbv zeta.
  destruct (memory s p) as [nr b md o rp tp rh st rb tb cb pr] eqn:Hu.
  cbn [mode uart_nr rx_buffer tx_buffer].
  destruct m, md; cbn [mode_eqb negb andb]; cbv iota.
  all: simpl_update; rewrite ?Hu; cbn [uart_nr set_rx_buffer set_tx_buffer rx_buffer tx_buffer
         uart_nr baud_rate mode options rx_pin tx_pin rx_headroom status callback param].
  all: destruct (is_physical nr) eqn:Hphys.
  all: (split; [|split; [|split; [|split; [|split; [|split]]]]]);
    [ simpl_update; rewrite ?Hu; reflexivity
    | intros q Hq; simpl_update; reflexivity
    | simpl_update; reflexivity
    | simpl_update; reflexivity
    | rewrite intr_enabled_restore; simpl_update; apply orb_false_r
    | intros k [Hk | Hf]; [simpl_update; reflexivity | try discriminate Hf; simpl_update; reflexivity]
    | intros Hp; try discriminate Hp; unfold flushed_port, READ_PERI_REG; cbv zeta;
      simpl_update; reflexivity ].
Qed.

(** What [smg_uart_start_isr] does: nothing for a virtual instance; for a
    physical one the registers of its port are set as [started_port] says,
    its bit of the interrupt mask is set, and the shared routine is attached
    and the UART interrupt enabled when no port had been started. *)
Lemma start_isr_spec p s :
  let u := memory s p in
  let nr := uart_nr u in
  let s' := smg_uart_start_isr (Some p) s in
  memory s' = memory s /\ registry s' = registry s
  /\ io_mux s' = io_mux s /\ swap_reg s' = swap_reg s /\ next_free s' = next_free s
  /\ (is_physical nr = false -> s' = s)
  /\ (is_physical nr = true ->
      isrMask s' = uint8 (bitSet (isrMask s) nr)
      /\ ports s' nr = started_port (smg_uart_rx_enabled u) (ports s nr)
      /\ (forall k, k <> nr -> ports s' k = ports s k)
      /\ ets_uart_intr_enabled s' = (isrMask s =? 0) || ets_uart_intr_enabled s
      /\ ets_uart_intr_attached s' = (isrMask s =? 0) || ets_uart_intr_attached s).
Proof.
  cbv zeta. unfold smg_uart_start_isr, is_physical_uart, registry, started_port. cbv zeta.
  destruct (is_physical (uart_nr (memory s p))) eqn:Hphys; cbn [negb]; cbv iota;
    [|repeat split; try reflexivity; discriminate].
  destruct (smg_uart_rx_enabled (memory s p));
    ((split; [|split; [|split; [|split; [|split; [|split]]]]]);
     [ break_if; simpl_update; reflexivity ..
     | discriminate
     | intros _; simpl_update; destruct (isrMask s =? 0);
       ((split; [|split; [|split; [|split]]]);
        [ simpl_update; reflexivity
        | simpl_update; reflexivity
        | intros k Hk; simpl_update; reflexivity
        | simpl_update; reflexivity
        | simpl_update; reflexivity ]) ]).
Qed.

(** ** The tail of an open *)

Lemma set_baudrate_reg_ports nr baud s k :
  ports (snd (smg_uart_set_baudrate_reg nr baud s)) k
  = if is_physical nr && negb (baud =? 0) && (k =? nr)
    then with_clkdiv (UART_CLK_FREQ / baud) (ports s k)
    else ports s k.
Proof.
  unfold smg_uart_set_baudrate_reg.
  destruct (is_physical nr), (baud =? 0); cbn [negb orb andb snd]; try reflexivity.
  simpl_update. destruct (Z.eqb_spec k nr) as [-> | Hne]; simpl_update; reflexivity.
Qed.

Lemma set_baudrate_reg_frame nr baud s :
  let s' := snd (smg_uart_set_baudrate_reg nr baud s) in
  memory s' = memory s /\ globals s' = globals s /\ io_mux s' = io_mux s
  /\ ets_uart_intr_enabled s' = ets_uart_intr_enabled s
  /\ ets_uart_intr_attached s' = ets_uart_intr_attached s.
Proof.
  unfold smg_uart_set_baudrate_reg, globals.
  break_if; cbn [snd]; repeat split; simpl_update; reflexivity.
Qed.

Lemma set_baudrate_spec uart baud s q :
  get_physical uart s = Some q ->
  let r := smg_uart_set_baudrate_reg (uart_nr (memory s q)) baud s in
  let s' := snd (smg_uart_set_baudrate uart baud s) in
  fst (smg_uart_set_baudrate uart baud s) = fst r
  /\ memory s' q = set_baud_rate (fst r) (memory s q)
  /\ (forall q', q' <> q -> memory s' q' = memory s q')
  /\ ports s' = ports (snd r)
  /\ globals s' = globals s /\ io_mux s' = io_mux s
  /\ ets_uart_intr_enabled s' = ets_uart_intr_enabled s
  /\ ets_uart_intr_attached s' = ets_uart_intr_attached s.
Proof.
  intros Hq. cbv zeta. unfold smg_uart_set_baudrate. rewrite Hq.
  destruct (set_baudrate_reg_frame (uart_nr (memory s q)) baud s) as (M & G & I & E & A).
  cbv zeta in M, G, I, E, A.
  destruct (smg_uart_set_baudrate_reg (uart_nr (memory s q)) baud s) as [b s1].
  cbn [fst snd] in *. unfold globals in *.
  repeat split; try intros q' Hq'; simpl_update; rewrite ?M; try assumption; reflexivity.
Qed.

Lemma isr_bit_set m nr :
  is_physical nr = true -> Z.testbit (uint8 (bitSet m nr)) nr = true.
Proof.
  unfold is_physical, UART_PHYSICAL_COUNT. intros H.
  apply andb_prop in H as [H0 H1]. apply Z.geb_le in H0. apply Z.ltb_lt in H1.
  rewrite uint8_testbit by lia. unfold bitSet.
  rewrite Z.lor_spec, Z.shiftl_spec, Z.sub_diag by lia. apply orb_true_r.
Qed.

(** The tail of an open of a physical port: the divider is programmed, the
    FIFOs and buffers of the directions in use are emptied, the interrupt
    sources are set up, the bit of the port in the interrupt mask is set and
    the UART interrupt is enabled. *)
Lemma init_finish_physical cfg p S :
  let u := memory S p in
  let nr := uart_nr u in
  is_physical nr = true ->
  let rx := smg_uart_rx_enabled u in
  let tx := smg_uart_tx_enabled u in
  let r := smg_uart_set_baudrate_reg nr (cfg_baudrate cfg) S in
  let s' := snd (init_finish cfg p S) in
  ports s' nr = started_port rx (flushed_port rx tx (ports (snd r) nr))
  /\ (forall k, k <> nr -> ports s' k = ports S k)
  /\ uart_isr_enabled nr s' = true
  /\ ets_uart_intr_enabled s' = true
  /\ memory s' p
     = set_tx_buffer (if tx then option_map clear (tx_buffer u) else tx_buffer u)
         (set_rx_buffer (if rx then option_map clear (rx_buffer u) else rx_buffer u)
            (set_baud_rate (fst r) u)).
Proof.
  intros u nr Hphys rx tx r s'. subst s'. unfold init_finish. cbv zeta. cbn [snd].
  assert (Hq : get_physical (Some p) S = Some p).
  { unfold get_physical. fold u. fold nr.
    replace (nr =? UART2) with false; [reflexivity|].
    symmetry. apply Z.eqb_neq. intros E. rewrite E in Hphys. discriminate. }
  destruct (set_baudrate_spec (Some p) (cfg_baudrate cfg) S p Hq)
    as (_ & M1 & _ & P1 & G1 & _ & _).
  cbv zeta in M1, P1, G1. fold u in M1, P1. fold nr in P1. fold r in M1, P1.
  set (s1 := snd (smg_uart_set_baudrate (Some p) (cfg_baudrate cfg) S)) in *.
  destruct (flush_spec p UART_FULL s1) as (M2 & _ & G2 & _ & E2 & PO2 & P2).
  cbv zeta in M2, G2, E2, PO2, P2. rewrite M1 in M2, PO2, P2.
  unfold flushes_rx, flushes_tx in M2, P2.
  cbn [mode_eqb negb andb mode set_baud_rate uart_nr rx_buffer tx_buffer] in M2, PO2, P2.
  fold nr in PO2, P2. specialize (P2 Hphys).
  change (negb (mode_eqb (mode u) UART_TX_ONLY)) with rx in M2, P2.
  change (negb (mode_eqb (mode u) UART_RX_ONLY)) with tx in M2, P2.
  set (s2 := smg_uart_flush (Some p) UART_FULL s1) in *.
  set (s3 := set_uartInstances (upd (uartInstances s2) (cfg_uart_nr cfg) (Some p)) s2).
  assert (M3 : memory s3 p = memory s2 p) by reflexivity.
  destruct (start_isr_spec p s3) as (M4 & _ & _ & _ & _ & _ & H4).
  cbv zeta in M4, H4. rewrite M3, M2 in H4.
  cbn [uart_nr set_tx_buffer set_rx_buffer set_baud_rate] in H4. fold nr in H4.
  destruct (H4 Hphys) as (I4 & P4 & PO4 & E4 & _). clear H4.
  replace (smg_uart_rx_enabled _) with rx in P4 by reflexivity.
  set (s4 := smg_uart_start_isr (Some p) s3) in *.
  unfold uart_isr_enabled, bitRead. autorewrite with frame.
  split; [|split; [|split; [|split]]].
  - rewrite P4. change (ports s3) with (ports s2). now rewrite P2, P1.
  - intros k Hk. rewrite (PO4 k Hk). change (ports s3) with (ports s2).
    rewrite PO2 by (left; exact Hk). rewrite P1. unfold r.
    rewrite set_baudrate_reg_ports.
    apply Z.eqb_neq in Hk. rewrite Hk. now rewrite andb_false_r.
  - rewrite I4. apply isr_bit_set, Hphys.
  - rewrite E4. change (isrMask s3) with (isrMask s2).
    change (ets_uart_intr_enabled s3) with (ets_uart_intr_enabled s2). rewrite E2.
    unfold globals in G2. injection G2 as _ _ _ -> _ _.
    destruct (isrMask s1 =? 0); reflexivity.
  - rewrite M4, M3, M2. reflexivity.
Qed.

Lemma rst_bits_set c (ftx frx : bool) i :
  Z.testbit (Z.lor c (Z.lor (if ftx then UART_TXFIFO_RST else 0)
                            (if frx then UART_RXFIFO_RST else 0))) i
  = Z.testbit c i || (ftx && (i =? 18)) || (frx && (i =? 17)).
Proof.
  rewrite !Z.lor_spec.
  assert (Ht : Z.testbit UART_TXFIFO_RST i = (i =? 18)).
  { change UART_TXFIFO_RST with (2 ^ 18). rewrite Z.pow2_bits_eqb by lia. apply Z.eqb_sym. }
  assert (Hr : Z.testbit UART_RXFIFO_RST i = (i =? 17)).
  { change UART_RXFIFO_RST with (2 ^ 17). rewrite Z.pow2_bits_eqb by lia. apply Z.eqb_sym. }
  destruct ftx, frx; rewrite ?Ht, ?Hr, ?Z.bits_0; cbn [andb orb];
    rewrite ?orb_false_r; try reflexivity.
  now rewrite orb_assoc.
Qed.

Lemma rst_bits_cleared c (ftx frx : bool) i :
  0 <= i ->
  Z.testbit (Z.land c (Z.lnot (Z.lor (if ftx then UART_TXFIFO_RST else 0)
                                     (if frx then UART_RXFIFO_RST else 0)))) i
  = Z.testbit c i && negb ((ftx && (i =? 18)) || (frx && (i =? 17))).
Proof.
  intros Hi. rewrite Z.land_spec, Z.lnot_spec by exact Hi.
  pose proof (rst_bits_set 0 ftx frx i) as H. rewrite Z.lor_0_l in H.
  rewrite H, Z.bits_0. reflexivity.
Qed.

(** The FIFOs after a flush: emptied in the directions flushed; as they
    were in the others, provided no FIFO reset bit had been left set in the
    configuration register. *)
Lemma flushed_port_fifos frx ftx r :
  (frx = true -> rx_fifo (flushed_port frx ftx r) = [])
  /\ (ftx = true -> tx_fifo (flushed_port frx ftx r) = [])
  /\ (frx = false -> Z.testbit (conf0 r) 17 = false ->
      rx_fifo (flushed_port frx ftx r) = rx_fifo r)
  /\ (ftx = false -> Z.testbit (conf0 r) 18 = false ->
      tx_fifo (flushed_port frx ftx r) = tx_fifo r)
  /\ clkdiv (flushed_port frx ftx r) = clkdiv r
  /\ conf1 (flushed_port frx ftx r) = conf1 r
  /\ (Z.testbit (conf0 r) 17 = false \/ frx = true ->
      Z.testbit (conf0 (flushed_port frx ftx r)) 17 = false)
  /\ (Z.testbit (conf0 r) 18 = false \/ ftx = true ->
      Z.testbit (conf0 (flushed_port frx ftx r)) 18 = false).
Proof.
  unfold flushed_port. cbv zeta.
  set (bits := Z.lor (if ftx then UART_TXFIFO_RST else 0) (if frx then UART_RXFIFO_RST else 0)).
  assert (H17 : Z.testbit (Z.lor (conf0 r) bits) 17 = Z.testbit (conf0 r) 17 || frx).
  { unfold bits. rewrite rst_bits_set. cbn [Z.eqb Pos.eqb].
    now rewrite andb_false_r, andb_true_r, orb_false_r. }
  assert (H18 : Z.testbit (Z.lor (conf0 r) bits) 18 = Z.testbit (conf0 r) 18 || ftx).
  { unfold bits. rewrite rst_bits_set. cbn [Z.eqb Pos.eqb].
    now rewrite andb_false_r, andb_true_r, orb_false_r. }
  assert (C17 : forall c, Z.testbit (Z.land c (Z.lnot bits)) 17 = Z.testbit c 17 && negb frx).
  { intros c. unfold bits. rewrite rst_bits_cleared by lia. cbn [Z.eqb Pos.eqb].
    now rewrite andb_false_r, andb_true_r. }
  assert (C18 : forall c, Z.testbit (Z.land c (Z.lnot bits)) 18 = Z.testbit c 18 && negb ftx).
  { intros c. unfold bits. rewrite rst_bits_cleared by lia. cbn [Z.eqb Pos.eqb].
    now rewrite andb_false_r, andb_true_r, orb_false_r. }
  clearbody bits.
  destruct frx, ftx;
    cbn [with_conf0 with_int_ena with_int_clr rx_fifo tx_fifo clkdiv conf0 conf1 int_ena];
    rewrite ?C17, ?C18, ?H17, ?H18; cbn [negb];
    rewrite ?orb_true_r, ?orb_false_r, ?andb_false_r, ?andb_true_r;
    repeat split; intros; try discriminate; try reflexivity;
    repeat match goal with
           | H : Z.testbit _ _ = false |- _ => rewrite H
           | H : _ \/ _ |- _ => destruct H
           end;
    try discriminate; reflexivity.
Qed.

(** ** The two counts *)

(** What [smg_uart_rx_available] returns: for a receiving instance, the
    bytes in the FIFO of its port, when it has one of its own, plus the
    bytes in its receive buffer. *)
Lemma rx_available_value p s :
  let u := memory s p in
  fst (smg_uart_rx_available (Some p) s)
  = if smg_uart_rx_enabled u
    then let avail := if is_physical (uart_nr u)
                      then fifo_count (rx_fifo (ports s (uart_nr u))) else 0 in
         match rx_buffer u with
         | Some b => uint32 (avail + available b)
         | None => avail
         end
    else 0.
Proof.
  cbv zeta. unfold smg_uart_rx_available, is_physical_uart.
  destruct (smg_uart_rx_enabled (memory s p)); cbn [negb]; [|reflexivity].
  cbv zeta. cbn [fst]. rewrite uart_rxfifo_count_eq. simpl_update. reflexivity.
Qed.

(** What [smg_uart_tx_free] returns: for a transmitting instance, the room
    in the FIFO of its port, when it has one of its own, plus the room in
    its transmit buffer. *)
Lemma tx_free_value p s :
  let u := memory s p in
  fst (smg_uart_tx_free (Some p) s)
  = if smg_uart_tx_enabled u
    then let space := if is_physical (uart_nr u)
                      then uart_txfifo_free (uart_nr u) s else 0 in
         match tx_buffer u with
         | Some b => uint32 (space + getFreeSpace b)
         | None => space
         end
    else 0.
Proof.
  cbv zeta. unfold smg_uart_tx_free, is_physical_uart.
  destruct (smg_uart_tx_enabled (memory s p)); cbn [negb]; [|reflexivity].
  cbv zeta. cbn [fst]. simpl_update.
  rewrite (uart_txfifo_free_frame (uart_nr (memory s p)) s (smg_uart_disable_interrupts s))
    by reflexivity.
  reflexivity.
Qed.

Lemma request_is_empty alloc_ok size :
  option_map clear (snd (smg_uart_realloc_buffer alloc_ok None size))
  = snd (smg_uart_realloc_buffer alloc_ok None size)
  /\ match snd (smg_uart_realloc_buffer alloc_ok None size) with
     | Some b => contents b = [] /\ capacity b = size
     | None => True
     end.
Proof.
  unfold smg_uart_realloc_buffer. destruct (size =? 0); [split; [reflexivity | exact I]|].
  destruct (alloc_ok size); cbn; repeat split.
Qed.

(** ** A physical port after a successful open *)

(** X8. After a successful open of UART0 or UART1 the port is ready: its bit of
    the interrupt mask is set and the UART interrupt is enabled; the
    receive sources (FIFO full, timeout, break, overflow) are enabled when
    the port receives and no source otherwise, the FIFO-empty source never;
    the FIFOs of the directions in use are empty and nothing is there to be
    read; the divider of the configured rate is programmed and the rate
    that gives is recorded in the instance. The registers of the other port
    are as before. *)
Theorem init_ex_physical_ready (new_ok : bool) (alloc_ok : Z -> bool)
    (cfg : smg_uart_config_t) (s : driver) (p : Z) :
  cfg_uart_nr cfg = UART0 \/ cfg_uart_nr cfg = UART1 ->
  fst (smg_uart_init_ex new_ok alloc_ok cfg s) = Some p ->
  let nr := cfg_uart_nr cfg in
  let s' := snd (smg_uart_init_ex new_ok alloc_ok cfg s) in
  uart_isr_enabled nr s' = true
  /\ ets_uart_intr_enabled s' = true
  /\ int_ena (ports s' nr)
     = (if wants_rx cfg
        then Z.lor (Z.lor (Z.lor UART_RXFIFO_FULL_INT_ENA UART_RXFIFO_TOUT_INT_ENA)
                          UART_BRK_DET_INT_ENA) UART_RXFIFO_OVF_INT_ENA
        else 0)
  /\ empty_armed nr s' = false
  /\ (wants_rx cfg = true ->
      rx_fifo (ports s' nr) = [] /\ fst (smg_uart_rx_available (Some p) s') = 0)
  /\ (wants_tx cfg = true -> tx_fifo (ports s' nr) = [])
  /\ (cfg_baudrate cfg <> 0 -> clkdiv (ports s' nr) = UART_CLK_FREQ / cfg_baudrate cfg)
  /\ baud_rate (memory s' p) = fst (smg_uart_set_baudrate_reg nr (cfg_baudrate cfg) s)
  /\ (forall k, k <> nr -> ports s' k = ports s k).
Proof.
  intros Hnr. cbv zeta. apply init_ex_cases.
  - intros _ s' _ _ _ _. discriminate.
  - intros _ S Hm _ _ _ (Hother & _).
    rewrite init_finish_result. intros H. injection H as <-.
    assert (Hphys : is_physical (cfg_uart_nr cfg) = true)
      by (destruct Hnr as [-> | ->]; reflexivity).
    pose proof (init_finish_physical cfg (next_free s) S) as F. cbv zeta in F.
    rewrite Hm in F. cbn [opened_instance uart_nr] in F. specialize (F Hphys).
    unfold smg_uart_rx_enabled, smg_uart_tx_enabled in F.
    cbn [opened_instance mode rx_buffer tx_buffer] in F.
    fold (wants_rx cfg) in F. fold (wants_tx cfg) in F.
    destruct F as (P & PO & I & E & M).
    set (s' := snd (init_finish cfg (next_free s) S)) in *.
    assert (Hbaud : fst (smg_uart_set_baudrate_reg (cfg_uart_nr cfg) (cfg_baudrate cfg) S)
                    = fst (smg_uart_set_baudrate_reg (cfg_uart_nr cfg) (cfg_baudrate cfg) s))
      by (unfold smg_uart_set_baudrate_reg; break_if; reflexivity).
    destruct (flushed_port_fifos (wants_rx cfg) (wants_tx cfg)
                (ports (snd (smg_uart_set_baudrate_reg (cfg_uart_nr cfg)
                               (cfg_baudrate cfg) S)) (cfg_uart_nr cfg)))
      as (Frx & Ftx & _ & _ & Fclk & _).
    split; [exact I|]. split; [exact E|].
    split; [rewrite P; reflexivity|].
    split; [unfold empty_armed; rewrite P; cbn [started_port with_int_ena int_ena];
            destruct (wants_rx cfg); reflexivity|].
    split; [intros Hrx; assert (Hfifo : rx_fifo (ports s' (cfg_uart_nr cfg)) = [])
              by (rewrite P; cbn [started_port with_int_ena with_int_clr with_conf1 rx_fifo];
                  apply Frx, Hrx);
            split; [exact Hfifo|];
            rewrite rx_available_value; cbv zeta; rewrite M;
            unfold smg_uart_rx_enabled;
            cbn [set_tx_buffer set_rx_buffer set_baud_rate mode uart_nr rx_buffer];
            unfold opened_instance; cbv zeta; cbn [mode uart_nr];
            fold (wants_rx cfg); rewrite Hrx, Hphys, Hfifo;
            unfold rx_request;
            destruct (request_is_empty alloc_ok
                        (if cfg_uart_nr cfg =? UART2
                         then uint32 (cfg_rx_size cfg + UART_RX_FIFO_SIZE)
                         else cfg_rx_size cfg)) as [-> Hb];
            destruct (snd (smg_uart_realloc_buffer _ _ _)) as [b|]; [|reflexivity];
            unfold available; rewrite (proj1 Hb); reflexivity|].
    split; [intros Htx; rewrite P;
            cbn [started_port with_int_ena with_int_clr with_conf1 tx_fifo];
            apply Ftx, Htx|].
    split; [intros Hb; rewrite P;
            cbn [started_port with_int_ena with_int_clr with_conf1 clkdiv];
            rewrite Fclk, set_baudrate_reg_ports, Hphys, Z.eqb_refl;
            apply Z.eqb_neq in Hb; rewrite Hb; reflexivity|].
    split; [rewrite M, <- Hbaud; reflexivity|].
    intros k Hk. rewrite (PO k Hk). apply Hother, Hk.
Qed.

Lemma init_ex_physical_ready_witness :
  let s' := opened UART0 UART_FULL 8 8 in
  uart_isr_enabled UART0 s' = true /\ ets_uart_intr_enabled s' = true
  /\ empty_armed UART0 s' = false.
Proof.
  destruct (init_ex_physical_ready true heap_ok (config UART0 UART_FULL 8 8) boot 1)
    as (H1 & H2 & _ & H4 & _).
  - left. reflexivity.
  - reflexivity.
  - split; [exact H1 | split; [exact H2 | exact H4]].
Defined.

(** ** The virtual port *)

Lemma set_baudrate_divider_only uart baud s k :
  with_clkdiv 0 (ports (snd (smg_uart_set_baudrate uart baud s)) k)
  = with_clkdiv 0 (ports s k).
Proof.
  destruct (get_physical uart s) as [q|] eqn:Hq.
  - destruct (set_baudrate_spec uart baud s q Hq) as (_ & _ & _ & -> & _).
    rewrite set_baudrate_reg_ports. break_if; reflexivity.
  - unfold smg_uart_set_baudrate. rewrite Hq. reflexivity.
Qed.

(** The tail of an open of a virtual port: no register is written but the
    divider of the port that backs it. *)
Lemma init_finish_virtual cfg p S :
  let u := memory S p in
  is_physical (uart_nr u) = false ->
  let s1 := snd (smg_uart_set_baudrate (Some p) (cfg_baudrate cfg) S) in
  let s' := snd (init_finish cfg p S) in
  io_mux s' = io_mux S /\ swap_reg s' = swap_reg S /\ isrMask s' = isrMask S
  /\ (forall k, ports s' k = ports s1 k)
  /\ rx_buffer (memory s' p)
     = (if smg_uart_rx_enabled u then option_map clear (rx_buffer u) else rx_buffer u)
  /\ tx_buffer (memory s' p)
     = (if smg_uart_tx_enabled u then option_map clear (tx_buffer u) else tx_buffer u)
  /\ (forall q, q <> p -> baud_rate (memory s' q) = baud_rate (memory s1 q)).
Proof.
  intros u Hphys s1 s'. subst s'. unfold init_finish. cbv zeta. cbn [snd]. fold s1.
  destruct (set_baudrate_settings (Some p) (cfg_baudrate cfg) S) as (M1 & G1 & I1).
  cbv zeta in M1, G1, I1. fold s1 in M1, G1, I1.
  destruct (M1 p) as (E1 & R1 & T1).
  destruct (settings_fields _ _ E1) as (Enr & Emode & _).
  destruct (flush_spec p UART_FULL s1) as (M2 & O2 & G2 & I2 & _ & PO2 & _).
  cbv zeta in M2, O2, G2, I2, PO2.
  unfold flushes_rx, flushes_tx in M2. cbn [mode_eqb negb andb] in M2.
  rewrite Emode, R1, T1 in M2. rewrite Enr in PO2.
  change (negb (mode_eqb (mode (memory S p)) UART_TX_ONLY))
    with (smg_uart_rx_enabled u) in M2.
  change (negb (mode_eqb (mode (memory S p)) UART_RX_ONLY))
    with (smg_uart_tx_enabled u) in M2.
  set (s2 := smg_uart_flush (Some p) UART_FULL s1) in *.
  set (s3 := set_uartInstances (upd (uartInstances s2) (cfg_uart_nr cfg) (Some p)) s2).
  destruct (start_isr_spec p s3) as (_ & _ & _ & _ & _ & H4 & _). cbv zeta in H4.
  assert (Hnr3 : uart_nr (memory s3 p) = uart_nr u).
  { change (memory s3) with (memory s2). rewrite M2. cbn [set_tx_buffer set_rx_buffer uart_nr].
    exact Enr. }
  rewrite Hnr3 in H4. rewrite (H4 Hphys). autorewrite with frame.
  change (io_mux s3) with (io_mux s2). change (swap_reg s3) with (swap_reg s2).
  change (isrMask s3) with (isrMask s2). change (ports s3) with (ports s2).
  change (memory s3) with (memory s2).
  unfold globals in G1, G2. injection G1 as _ _ _ K1 W1 _. injection G2 as _ _ _ K2 W2 _.
  split; [now rewrite I2, I1|]. split; [now rewrite W2, W1|]. split; [now rewrite K2, K1|].
  split; [intros k; apply PO2; right; exact Hphys|].
  rewrite M2. cbn [set_tx_buffer set_rx_buffer rx_buffer tx_buffer].
  split; [reflexivity|]. split; [reflexivity|].
  intros q Hq. now rewrite (O2 q Hq).
Qed.

(** X9. A successful open of the virtual port UART2. Its buffers are the sizes
    asked for plus the size of a hardware FIFO. It has no pins, and neither
    the pin multiplexer, the pin swap nor the interrupt mask is touched. Of
    the UART registers only a clock divider can have changed: when UART0 is
    open, the rate of the configuration is programmed into UART0 and
    recorded in its instance. *)
Theorem init_ex_virtual_port (new_ok : bool) (alloc_ok : Z -> bool)
    (cfg : smg_uart_config_t) (s : driver) (p : Z) :
  cfg_uart_nr cfg = UART2 ->
  fst (smg_uart_init_ex new_ok alloc_ok cfg s) = Some p ->
  let s' := snd (smg_uart_init_ex new_ok alloc_ok cfg s) in
  io_mux s' = io_mux s /\ swap_reg s' = swap_reg s /\ isrMask s' = isrMask s
  /\ rx_pin (memory s' p) = UART_PIN_DEFAULT /\ tx_pin (memory s' p) = UART_PIN_DEFAULT
  /\ (forall k, with_clkdiv 0 (ports s' k) = with_clkdiv 0 (ports s k))
  /\ (uartInstances s UART0 = None -> forall k, ports s' k = ports s k)
  /\ (wants_rx cfg = true -> 0 <= cfg_rx_size cfg ->
      cfg_rx_size cfg + UART_RX_FIFO_SIZE < 2 ^ 32 ->
      rx_buffer (memory s' p)
      = Some (mkBuffer (cfg_rx_size cfg + UART_RX_FIFO_SIZE) []))
  /\ (wants_tx cfg = true -> 0 <= cfg_tx_size cfg ->
      cfg_tx_size cfg + UART_TX_FIFO_SIZE < 2 ^ 32 ->
      tx_buffer (memory s' p)
      = Some (mkBuffer (cfg_tx_size cfg + UART_TX_FIFO_SIZE) []))
  /\ (forall q, uartInstances s UART0 = Some q -> q <> p ->
      uart_nr (memory s q) = UART0 -> cfg_baudrate cfg <> 0 ->
      clkdiv (ports s' UART0) = UART_CLK_FREQ / cfg_baudrate cfg
      /\ baud_rate (memory s' q)
         = fst (smg_uart_set_baudrate_reg UART0 (cfg_baudrate cfg) s)).
Proof.
  intros Hnr. cbv zeta. apply init_ex_cases.
  - intros _ s' _ _ _ _. discriminate.
  - intros (_ & _ & _ & _ & Arx & Atx) S Hm Ho Hr _ (_ & H2 & _).
    rewrite init_finish_result. intros H. injection H as <-.
    destruct (hardware_fields _ _ (H2 Hnr)) as (HP & HI & HW & HK).
    destruct (registry_fields _ _ Hr) as (Hreg & _).
    assert (Hu : uart_nr (memory S (next_free s)) = UART2) by (rewrite Hm; exact Hnr).
    assert (Hphys : is_physical (uart_nr (memory S (next_free s))) = false)
      by (rewrite Hu; reflexivity).
    destruct (init_finish_virtual cfg (next_free s) S Hphys)
      as (I & W & K & P & RB & TB & BR).
    destruct (init_finish_frame cfg (next_free s) S) as (M & _). cbv zeta in M.
    destruct (settings_fields _ _ (proj1 (M (next_free s))))
      as (_ & _ & _ & Erx & Etx & _).
    set (s' := snd (init_finish cfg (next_free s) S)) in *.
    assert (Hgp : get_physical (Some (next_free s)) S = uartInstances s UART0).
    { unfold get_physical. rewrite Hu, Hreg. reflexivity. }
    split; [now rewrite I, HI|]. split; [now rewrite W, HW|]. split; [now rewrite K, HK|].
    split; [rewrite Erx, Hm; unfold opened_instance; cbv zeta; rewrite Hnr; reflexivity|].
    split; [rewrite Etx, Hm; unfold opened_instance; cbv zeta; rewrite Hnr; reflexivity|].
    split; [intros k; rewrite P, set_baudrate_divider_only, HP; reflexivity|].
    split; [intros Hnone k; rewrite P; unfold smg_uart_set_baudrate;
            rewrite Hgp, Hnone; cbn [snd]; now rewrite HP|].
    split; [|split].
    + intros Hrx H0 Hlt. rewrite RB, Hm. unfold smg_uart_rx_enabled, opened_instance.
      cbv zeta. cbn [mode rx_buffer]. fold (wants_rx cfg). rewrite Hrx.
      specialize (Arx Hrx). unfold rx_request in *. rewrite Hnr in *.
      change (UART2 =? UART2) with true in *. cbv iota in *.
      unfold uint32 in *. rewrite Z.mod_small in * by (unfold UART_RX_FIFO_SIZE in *; lia).
      unfold smg_uart_realloc_buffer in *.
      replace (cfg_rx_size cfg + UART_RX_FIFO_SIZE =? 0) with false in *
        by (symmetry; apply Z.eqb_neq; unfold UART_RX_FIFO_SIZE; lia).
      destruct (alloc_ok _); [reflexivity | discriminate].
    + intros Htx H0 Hlt. rewrite TB, Hm. unfold smg_uart_tx_enabled, opened_instance.
      cbv zeta. cbn [mode tx_buffer]. fold (wants_tx cfg). rewrite Htx.
      specialize (Atx Htx). unfold tx_request in *. rewrite Hnr in *.
      change (UART2 =? UART2) with true in *. cbv iota in *.
      unfold uint32 in *. rewrite Z.mod_small in * by (unfold UART_TX_FIFO_SIZE in *; lia).
      unfold smg_uart_realloc_buffer in *.
      replace (cfg_tx_size cfg + UART_TX_FIFO_SIZE =? 0) with false in *
        by (symmetry; apply Z.eqb_neq; unfold UART_TX_FIFO_SIZE; lia).
      destruct (alloc_ok _); [reflexivity | discriminate].
    + intros q Hq Hne Hq0 Hb.
      assert (Hgp' : get_physical (Some (next_free s)) S = Some q) by now rewrite Hgp.
      destruct (set_baudrate_spec _ (cfg_baudrate cfg) S q Hgp')
        as (_ & M1 & _ & P1 & _).
      cbv zeta in M1, P1. rewrite (Ho q Hne), Hq0 in M1, P1.
      split.
      * rewrite P, P1, set_baudrate_reg_ports. apply Z.eqb_neq in Hb. rewrite Hb, HP.
        reflexivity.
      * rewrite (BR q Hne), M1. cbn [set_baud_rate baud_rate].
        unfold smg_uart_set_baudrate_reg. break_if; reflexivity.
Qed.

Lemma init_ex_virtual_port_witness :
  let s := opened UART0 UART_FULL 8 8 in
  let s' := snd (smg_uart_init_ex true heap_ok (config UART2 UART_FULL 8 8) s) in
  io_mux s' = io_mux s /\ swap_reg s' = swap_reg s /\ isrMask s' = isrMask s.
Proof.
  destruct (init_ex_virtual_port true heap_ok (config UART2 UART_FULL 8 8)
              (opened UART0 UART_FULL 8 8) 2) as (H1 & H2 & H3 & _).
  - reflexivity.
  - reflexivity.
  - split; [exact H1 | split; [exact H2 | exact H3]].
Defined.

(** ** Bytes on their way *)

(** The receive loop moves the [n] oldest bytes of the receive FIFO to the
    end of the receive buffer, given that many bytes and that much room. *)
Lemma isr_rx_loop_moves n : forall read nr p s b,
  rx_buffer (memory s p) = Some b ->
  (n <= length (rx_fifo (ports s nr)))%nat ->
  ((0 < n)%nat -> Z.of_nat n <= getFreeSpace b) ->
  let s' := snd (isr_rx_loop n read nr p s) in
  rx_buffer (memory s' p)
  = Some (mkBuffer (capacity b) (contents b ++ firstn n (rx_fifo (ports s nr))))
  /\ rx_fifo (ports s' nr) = skipn n (rx_fifo (ports s nr)).
Proof.
  induction n as [|n IH]; intros read nr p s b Hb Hlen Hroom; cbn [isr_rx_loop].
  - cbn [snd skipn firstn]. rewrite app_nil_r. split; [|reflexivity].
    rewrite Hb. now destruct b.
  - unfold READ_UART_FIFO. cbv zeta.
    destruct (rx_fifo (ports s nr)) as [|c rest] eqn:Hf; cbn [length] in Hlen; [lia|].
    specialize (Hroom ltac:(lia)).
    match goal with |- context [isr_rx_loop n ?r ?a ?q ?S] =>
      destruct (IH r a q S (mkBuffer (capacity b) (contents b ++ [c])))
        as (Hbuf & Hfifo); set (s1 := S) in * end.
    + subst s1. unfold rx_buffer_writeChar. steps. rewrite Hb. unfold writeChar.
      destruct (getFreeSpace b <=? 0) eqn:E; [apply Z.leb_le in E; lia|].
      cbn [snd]. steps. cbn [READ_PERI_REG]. rewrite Hf. reflexivity.
    + subst s1. unfold rx_buffer_writeChar. steps. rewrite Hb. steps. rewrite Hf.
      cbn [tl]. lia.
    + intros _. unfold getFreeSpace, available in *. cbn [capacity contents].
      rewrite length_app. cbn [length]. lia.
    + cbv zeta in Hbuf, Hfifo. cbn [capacity contents] in Hbuf.
      rewrite Hbuf, Hfifo. subst s1. unfold rx_buffer_writeChar. steps. rewrite Hb. steps.
      rewrite Hf. cbn [tl firstn skipn]. rewrite <- app_assoc. split; reflexivity.
Qed.

Lemma min_if (a b : Z) : (if a <=? b then a else b) = Z.min a b.
Proof. destruct (Z.leb_spec a b); [rewrite Z.min_l | rewrite Z.min_r]; lia. Qed.

(** The receive part of the handler: with one of its interrupts pending it
    moves as many bytes as the FIFO reports and the buffer has room for. *)
Lemma isr_rx_moves nr p usis st s b :
  (Z.land usis (Z.lor (Z.lor UART_RXFIFO_FULL_INT_ST UART_RXFIFO_TOUT_INT_ST)
                      UART_RXFIFO_OVF_INT_ST) =? 0) = false ->
  rx_buffer (memory s p) = Some b ->
  let n := Z.to_nat (Z.min (uart_rxfifo_count nr s) (getFreeSpace b)) in
  let s' := snd (isr_rx nr p usis st s) in
  rx_buffer (memory s' p)
  = Some (mkBuffer (capacity b) (contents b ++ firstn n (rx_fifo (ports s nr))))
  /\ rx_fifo (ports s' nr) = skipn n (rx_fifo (ports s nr)).
Proof.
  intros Husis Hb n s'. subst s'. unfold isr_rx. rewrite Husis, Hb. cbn [negb]. cbv zeta.
  rewrite min_if. fold n.
  assert (Hn1 : (n <= length (rx_fifo (ports s nr)))%nat).
  { subst n. rewrite uart_rxfifo_count_eq, fifo_count_mod.
    assert (Z.of_nat (length (rx_fifo (ports s nr))) mod 2 ^ 8
            <= Z.of_nat (length (rx_fifo (ports s nr))))
      by (apply Z.mod_le; [lia | reflexivity]).
    set (m := _ mod _) in *. clearbody m. clear - H. lia. }
  assert (Hn2 : (0 < n)%nat -> Z.of_nat n <= getFreeSpace b) by (subst n; lia).
  match goal with |- context [isr_rx_loop n ?r nr p s] =>
    destruct (isr_rx_loop_moves n r nr p s b Hb Hn1 Hn2) as (Hbuf & Hfifo);
    destruct (isr_rx_loop n r nr p s) as [rd s1] end.
  cbv zeta in Hbuf, Hfifo. cbn [snd] in Hbuf, Hfifo. cbn [snd].
  repeat break_if; unfold READ_PERI_REG; steps; rewrite ?Hbuf, ?Hfifo; split; reflexivity.
Qed.

(** Without a receive buffer, or with none of its interrupts pending, the
    receive part leaves the received bytes where they are. *)
Lemma isr_rx_idle nr p usis st s :
  (Z.land usis (Z.lor (Z.lor UART_RXFIFO_FULL_INT_ST UART_RXFIFO_TOUT_INT_ST)
                      UART_RXFIFO_OVF_INT_ST) =? 0) = true
  \/ rx_buffer (memory s p) = None ->
  let s' := snd (isr_rx nr p usis st s) in
  memory s' = memory s /\ forall k, rx_fifo (ports s' k) = rx_fifo (ports s k).
Proof.
  intros H s'. subst s'. unfold isr_rx.
  destruct (Z.land usis _ =? 0) eqn:E; cbn [negb]; [cbn [snd]; split; reflexivity|].
  destruct H as [H|H]; [discriminate|]. rewrite H. cbv zeta. cbn [snd].
  repeat break_if; unfold READ_PERI_REG; (split; [|intros k]); steps;
    try upd_case; steps; reflexivity.
Qed.

(** The transmit part never touches what was received. *)
Lemma isr_tx_rx_side nr p usis st s :
  let s' := snd (isr_tx nr p usis st s) in
  (forall q, rx_buffer (memory s' q) = rx_buffer (memory s q))
  /\ forall k, rx_fifo (ports s' k) = rx_fifo (ports s k).
Proof.
  cbv zeta. unfold isr_tx. break_if; [|cbn [snd]; split; reflexivity]. cbv zeta.
  assert (H : exists s1,
    (match tx_buffer (memory s p) with
     | Some b =>
         snd (isr_tx_loop
                (Z.to_nat (if available b <=? uart_txfifo_free nr s
                           then available b else uart_txfifo_free nr s))
                (if available b <=? uart_txfifo_free nr s
                 then available b else uart_txfifo_free nr s) nr p s)
     | None => s
     end) = s1
    /\ (forall q, rx_buffer (memory s1 q) = rx_buffer (memory s q))
    /\ (forall k, rx_fifo (ports s1 k) = rx_fifo (ports s k))).
  { eexists. split; [reflexivity|].
    destruct (tx_buffer (memory s p)) as [b|]; [|split; reflexivity].
    match goal with |- context [isr_tx_loop ?m ?c nr p s] =>
      pose proof (isr_tx_loop_frame m c nr p s) as (Hm & Hp & _) end.
    cbv zeta in Hm, Hp. split.
    - intros q. now destruct (sans_tx_fields _ _ (Hm q)) as (_ & _ & _ & _ & _ & ? & _).
    - intros k. now destruct (port_sans_tx_fields _ _ (Hp k)). }
  destruct H as (s1 & -> & Hm & Hp).
  break_if; cbn [snd]; [|split; assumption].
  unfold READ_PERI_REG. split; [intros q | intros k]; steps; try upd_case; steps; auto.
Qed.

Lemma firstn_skipn_map {A B} (f : A -> B) n (l : list A) :
  map f (firstn n l) ++ map f (skipn n l) = map f l.
Proof. now rewrite <- map_app, firstn_skipn. Qed.

(** Servicing moves bytes between buffers and FIFOs, never in or out. *)
Lemma isr_service_conserves nr p usis s :
  let s' := snd (isr_service nr p usis s) in
  rx_queue p nr s' = rx_queue p nr s /\ tx_queue p nr s' = tx_queue p nr s.
Proof.
  cbv zeta. unfold isr_service. break_if; [|split; reflexivity].
  destruct (isr_rx nr p usis usis s) as [st s1] eqn:Hrx.
  assert (Hs1 : s1 = snd (isr_rx nr p usis usis s)) by now rewrite Hrx.
  destruct (isr_tx_rx_side nr p usis st s1) as (Hm2 & Hp2). cbv zeta in Hm2, Hp2.
  destruct (isr_rx_frame nr p usis usis s) as (Hm1 & Hp1 & _). cbv zeta in Hm1, Hp1.
  rewrite <- Hs1 in Hm1, Hp1.
  split.
  - unfold rx_queue, rx_held. rewrite Hm2, Hp2.
    destruct (Z.land usis (Z.lor (Z.lor UART_RXFIFO_FULL_INT_ST UART_RXFIFO_TOUT_INT_ST)
                                 UART_RXFIFO_OVF_INT_ST) =? 0) eqn:E.
    + destruct (isr_rx_idle nr p usis usis s (or_introl E)) as (Hm & Hp).
      cbv zeta in Hm, Hp. rewrite <- Hs1 in Hm, Hp. now rewrite Hm, Hp.
    + destruct (rx_buffer (memory s p)) as [b|] eqn:Hb.
      * destruct (isr_rx_moves nr p usis usis s b E Hb) as (Hbuf & Hfifo).
        cbv zeta in Hbuf, Hfifo. rewrite <- Hs1 in Hbuf, Hfifo. rewrite Hbuf, Hfifo.
        cbn [contents]. rewrite <- app_assoc. now rewrite firstn_skipn.
      * destruct (isr_rx_idle nr p usis usis s (or_intror Hb)) as (Hm & Hp).
        cbv zeta in Hm, Hp. rewrite <- Hs1 in Hm, Hp. now rewrite Hm, Hp, Hb.
  - assert (Hq1 : tx_queue p nr s1 = tx_queue p nr s).
    { unfold tx_queue, tx_held. destruct (Hp1 nr) as (-> & _).
      now destruct (sans_rx_fields _ _ (Hm1 p)) as (_ & _ & _ & _ & _ & -> & _). }
    rewrite <- Hq1. unfold tx_queue, tx_held.
    destruct (Z.land usis UART_TXFIFO_EMPTY_INT_ST =? 0) eqn:E.
    + unfold isr_tx. rewrite E. reflexivity.
    + destruct (isr_tx_spec nr p usis st s1 E) as (Hfifo & Hbuf & _).
      cbv zeta in Hfifo, Hbuf. rewrite Hfifo, Hbuf.
      destruct (tx_buffer (memory s1 p)) as [b|]; cbn [option_map contents].
      * rewrite <- app_assoc. now rewrite firstn_skipn_map.
      * rewrite firstn_nil. cbn [map]. now rewrite app_nil_r.
Qed.

(** The handler keeps the received bytes and their order. *)
Lemma handler_rx_queue nr p s :
  rx_queue p nr (handle_uart_interrupt nr (Some p) s) = rx_queue p nr s.
Proof.
  destruct (Z.eq_dec (int_st (ports s nr)) 0) as [H0|H0].
  { unfold handle_uart_interrupt, READ_PERI_REG. rewrite H0. reflexivity. }
  destruct (uart_isr_enabled nr s) eqn:Hen.
  - rewrite (handler_serviced nr p s H0 Hen). cbv zeta.
    destruct (isr_service_conserves nr p (int_st (ports s nr)) s) as (Hrx & _).
    cbv zeta in Hrx.
    destruct (isr_service nr p (int_st (ports s nr)) s) as [st s1]. cbn [snd] in Hrx.
    rewrite <- Hrx. unfold rx_queue, rx_held.
    steps; break_if; steps; reflexivity.
  - unfold handle_uart_interrupt, READ_PERI_REG. apply Z.eqb_neq in H0. rewrite H0, Hen.
    cbn [negb]. unfold rx_queue, rx_held. steps; reflexivity.
Qed.

(** X10. The interrupt handler loses no byte, invents none and keeps their order,
    in either direction and whatever is pending: what it takes out of the
    receive FIFO goes to the end of the receive buffer, what it takes out of
    the transmit buffer goes to the end of the transmit FIFO. *)
Theorem handler_conserves_bytes (nr p : Z) (s : driver) :
  let s' := handle_uart_interrupt nr (Some p) s in
  rx_queue p nr s' = rx_queue p nr s /\ tx_queue p nr s' = tx_queue p nr s.
Proof.
  cbv zeta. destruct (Z.eq_dec (int_st (ports s nr)) 0) as [H0|H0].
  { unfold handle_uart_interrupt, READ_PERI_REG. rewrite H0. split; reflexivity. }
  destruct (uart_isr_enabled nr s) eqn:Hen.
  - rewrite (handler_serviced nr p s H0 Hen). cbv zeta.
    destruct (isr_service_conserves nr p (int_st (ports s nr)) s) as (Hrx & Htx).
    cbv zeta in Hrx, Htx.
    destruct (isr_service nr p (int_st (ports s nr)) s) as [st s1]. cbn [snd] in Hrx, Htx.
    rewrite <- Hrx, <- Htx. unfold rx_queue, tx_queue, rx_held, tx_held.
    split; steps; break_if; steps; reflexivity.
  - unfold handle_uart_interrupt, READ_PERI_REG. apply Z.eqb_neq in H0. rewrite H0, Hen.
    cbn [negb]. unfold rx_queue, tx_queue, rx_held, tx_held. split; steps; reflexivity.
Qed.

(** ** Reading *)

(** The first loop of [smg_uart_read] takes the oldest bytes of the receive
    buffer, as many as asked for and present. *)
Lemma read_buffer_loop_spec left : forall p buf s b,
  rx_buffer (memory s p) = Some b ->
  let n := Nat.min left (length (contents b)) in
  let r := read_buffer_loop left p buf s in
  fst r = buf ++ map uint8 (firstn n (contents b))
  /\ rx_buffer (memory (snd r) p) = Some (mkBuffer (capacity b) (skipn n (contents b)))
  /\ (forall q, set_rx_buffer None (memory (snd r) q) = set_rx_buffer None (memory s q))
  /\ ports (snd r) = ports s /\ globals (snd r) = globals s.
Proof.
  induction left as [|left IH]; intros p buf s b Hb; cbn [read_buffer_loop].
  - cbn [Nat.min fst snd firstn skipn map]. rewrite app_nil_r, Hb.
    destruct b; repeat split.
  - rewrite Hb. destruct b as [cap [|c rest]]; unfold isEmpty, available; cbn [contents length].
    + cbn [Z.of_nat Z.eqb Nat.min fst snd firstn skipn map]. rewrite app_nil_r, Hb.
      repeat split.
    + replace (Z.of_nat (S (length rest)) =? 0) with false by (symmetry; apply Z.eqb_neq; lia).
      unfold readChar. cbn [contents capacity fst snd].
      match goal with |- context [read_buffer_loop left p ?B ?S] =>
        destruct (IH p B S (mkBuffer cap rest)) as (H1 & H2 & H3 & H4 & H5);
        [steps; reflexivity|] end.
      cbv zeta in H1, H2, H3, H4, H5. cbn [contents capacity] in H1, H2.
      cbn [Nat.min firstn skipn map]. rewrite H1, H2, H4, H5. rewrite <- app_assoc.
      repeat split.
      * intros q. rewrite H3. steps. upd_case; steps; reflexivity.
Qed.

(** The second loop takes the oldest bytes of the receive FIFO. UART_STATUS
    reports the occupancy in eight bits. *)
Lemma read_fifo_loop_spec left : forall nr buf s,
  (length (rx_fifo (ports s nr)) < 256)%nat ->
  let n := Nat.min left (length (rx_fifo (ports s nr))) in
  let r := read_fifo_loop left nr buf s in
  fst r = buf ++ map uint8 (firstn n (rx_fifo (ports s nr)))
  /\ rx_fifo (ports (snd r) nr) = skipn n (rx_fifo (ports s nr))
  /\ memory (snd r) = memory s
  /\ (forall k, with_rx_fifo [] (ports (snd r) k) = with_rx_fifo [] (ports s k))
  /\ globals (snd r) = globals s.
Proof.
  induction left as [|left IH]; intros nr buf s Hlen; cbn [read_fifo_loop].
  - cbn [Nat.min fst snd firstn skipn map]. rewrite app_nil_r. repeat split.
  - rewrite uart_rxfifo_count_eq, fifo_count_mod.
    rewrite Z.mod_small by (change (2 ^ 8) with 256; lia).
    destruct (rx_fifo (ports s nr)) as [|c rest] eqn:Hf; cbn [length] in *.
    + cbn [Z.of_nat Z.eqb Nat.min fst snd firstn skipn map]. rewrite app_nil_r, Hf.
      repeat split.
    + replace (Z.of_nat (S (length rest)) =? 0) with false by (symmetry; apply Z.eqb_neq; lia).
      unfold READ_UART_FIFO. cbv zeta. cbn [READ_PERI_REG]. rewrite Hf. cbn [hd tl].
      match goal with |- context [read_fifo_loop left nr ?B ?S] =>
        assert (Hf1 : rx_fifo (ports S nr) = rest) by (steps; rewrite Hf; reflexivity);
        destruct (IH nr B S) as (H1 & H2 & H3 & H4 & H5); [rewrite Hf1; lia|] end.
      cbv zeta in H1, H2, H3, H4, H5. rewrite Hf1 in H1, H2.
      cbn [Nat.min firstn skipn map]. rewrite H1, H2, H3, H5. rewrite <- app_assoc.
      repeat split.
      * intros k. rewrite H4. steps. upd_case; steps; reflexivity.
Qed.

Lemma firstn_min {A} n (l : list A) : firstn (Nat.min n (length l)) l = firstn n l.
Proof.
  destruct (Nat.le_ge_cases n (length l)).
  - now rewrite Nat.min_l by lia.
  - rewrite Nat.min_r by lia. rewrite firstn_all. symmetry. apply firstn_all2. lia.
Qed.

Lemma skipn_min {A} n (l : list A) : skipn (Nat.min n (length l)) l = skipn n l.
Proof.
  destruct (Nat.le_ge_cases n (length l)).
  - now rewrite Nat.min_l by lia.
  - rewrite Nat.min_r by lia. rewrite skipn_all. symmetry. apply skipn_all2. lia.
Qed.

(** Taking from one list and then, for what is still wanted, from a second
    is taking from the two put end to end. *)
Lemma take_two {A} N (l1 l2 : list A) :
  let n1 := Nat.min N (length l1) in
  let n2 := Nat.min (N - n1) (length l2) in
  firstn n1 l1 ++ firstn n2 l2 = firstn N (l1 ++ l2)
  /\ skipn n1 l1 ++ skipn n2 l2 = skipn N (l1 ++ l2)
  /\ (n1 + n2 = Nat.min N (length (l1 ++ l2)))%nat.
Proof.
  cbv zeta. rewrite !firstn_min, !skipn_min, firstn_app, skipn_app, length_app.
  destruct (Nat.le_ge_cases N (length l1)).
  - rewrite Nat.min_l by lia. replace (N - N)%nat with 0%nat by lia.
    replace (N - length l1)%nat with 0%nat by lia. repeat split. lia.
  - rewrite Nat.min_r by lia. repeat split. lia.
Qed.

(** What a read delivers and what it leaves. *)
Lemma read_delivers p size s :
  smg_uart_rx_enabled (memory s p) = true ->
  0 < size ->
  (length (rx_fifo (ports s (uart_nr (memory s p)))) < 256)%nat ->
  let r := smg_uart_read (Some p) true size s in
  fst r = map uint8 (firstn (Z.to_nat size) (rx_readable p s))
  /\ rx_readable p (snd r) = skipn (Z.to_nat size) (rx_readable p s).
Proof.
  intros Hrx Hsize Hlen.
  set (nr := uart_nr (memory s p)) in *.
  set (N := Z.to_nat size).
  set (fifo := if is_physical nr then rx_fifo (ports s nr) else []).
  change (rx_readable p s) with (rx_held p s ++ fifo).
  cbv zeta. unfold smg_uart_read. rewrite Hrx.
  replace (size =? 0) with false by (symmetry; apply Z.eqb_neq; lia).
  cbn [negb orb]. cbv zeta. fold N.
  set (s0 := notify p UART_NOTIFY_BEFORE_READ s).
  assert (Hm0 : memory s0 = memory s) by (unfold s0; now autorewrite with frame).
  assert (Hp0 : ports s0 = ports s) by (unfold s0; now autorewrite with frame).
  destruct (take_two N (rx_held p s) fifo) as (Hfirst & Hskip & _). cbv zeta in Hfirst, Hskip.
  rewrite <- Hfirst, <- Hskip. clear Hfirst Hskip.
  assert (Hstage1 : exists buf s1,
    (if is_some (rx_buffer (memory s0 p)) then read_buffer_loop N p [] s0 else ([], s0))
    = (buf, s1)
    /\ buf = map uint8 (firstn (Nat.min N (length (rx_held p s))) (rx_held p s))
    /\ rx_held p s1 = skipn (Nat.min N (length (rx_held p s))) (rx_held p s)
    /\ uart_nr (memory s1 p) = nr /\ ports s1 = ports s).
  { unfold rx_held. rewrite Hm0. destruct (rx_buffer (memory s p)) as [b|] eqn:Hb; cbn [is_some].
    - assert (Hb0 : rx_buffer (memory s0 p) = Some b) by now rewrite Hm0.
      destruct (read_buffer_loop_spec N p [] s0 b Hb0) as (H1 & H2 & H3 & H4 & _).
      cbv zeta in H1, H2, H3, H4.
      destruct (read_buffer_loop N p [] s0) as [buf s1]. cbn [fst snd] in *.
      exists buf, s1. rewrite H2. cbn [contents]. repeat split; try assumption.
      + destruct (sans_rx_fields _ _ (H3 p)) as (-> & _). now rewrite Hm0.
      + now rewrite H4.
    - exists [], s0. rewrite Hm0, Hb. cbn [length]. rewrite Nat.min_0_r.
      repeat split; try assumption; try now rewrite Hm0. }
  destruct Hstage1 as (buf & s1 & -> & Hbuf & Hheld & Hnr1 & Hp1).
  unfold is_physical_uart. rewrite Hnr1. unfold rx_readable.
  subst fifo. destruct (is_physical nr) eqn:Hphys.
  - assert (Hlen1 : (length (rx_fifo (ports s1 nr)) < 256)%nat) by now rewrite Hp1.
    assert (Hleft : Z.to_nat (size - Z.of_nat (length buf))
                    = (N - Nat.min N (length (rx_held p s)))%nat).
    { rewrite Hbuf, length_map, length_firstn. subst N. lia. }
    rewrite Hleft.
    destruct (read_fifo_loop_spec (N - Nat.min N (length (rx_held p s))) nr buf s1 Hlen1)
      as (H1 & H2 & H3 & _).
    cbv zeta in H1, H2, H3. rewrite Hp1 in H1, H2.
    destruct (read_fifo_loop _ nr buf s1) as [buf2 s2]. cbn [fst snd] in *.
    split.
    + rewrite H1, Hbuf, map_app. reflexivity.
    + unfold rx_held in *. unfold READ_PERI_REG. steps. rewrite H3, Hnr1, Hphys.
      steps. rewrite Hheld, H2. reflexivity.
  - cbn [fst snd]. rewrite Hnr1, Hphys, Hheld, Hbuf. cbn [length firstn skipn].
    rewrite Nat.min_0_r. cbn [firstn skipn]. rewrite !app_nil_r. split; reflexivity.
Qed.

(** X11. A read delivers the oldest bytes received, in the order of arrival:
    first those of the receive buffer, then those still in the FIFO of the
    port. It delivers as many as asked for, or all there are, which is the
    count [smg_uart_rx_available] gives; the bytes not delivered stay, in
    their order. *)
Theorem read_oldest_first (p size : Z) (s : driver) :
  smg_uart_rx_enabled (memory s p) = true ->
  0 < size ->
  (length (rx_fifo (ports s (uart_nr (memory s p)))) < 256)%nat ->
  let r := smg_uart_read (Some p) true size s in
  fst r = map uint8 (firstn (Z.to_nat size) (rx_readable p s))
  /\ rx_readable p (snd r) = skipn (Z.to_nat size) (rx_readable p s)
  /\ (Z.of_nat (length (rx_readable p s)) < 2 ^ 32 ->
      Z.of_nat (length (fst r)) = Z.min size (fst (smg_uart_rx_available (Some p) s))).
Proof.
  intros Hrx Hsize Hlen.
  destruct (read_delivers p size s Hrx Hsize Hlen) as (H1 & H2). cbv zeta in H1, H2 |- *.
  split; [exact H1|]. split; [exact H2|].
  set (nr := uart_nr (memory s p)) in *.
  set (fifo := if is_physical nr then rx_fifo (ports s nr) else []).
  assert (Hread : rx_readable p s = rx_held p s ++ fifo) by reflexivity.
  rewrite Hread in *.
  intros Hsmall. rewrite H1, length_map, length_firstn.
  rewrite rx_available_value. cbv zeta. rewrite Hrx. fold nr.
  assert (Havail : (match rx_buffer (memory s p) with
                    | Some b => uint32 ((if is_physical nr
                                         then fifo_count (rx_fifo (ports s nr)) else 0)
                                        + available b)
                    | None => if is_physical nr
                              then fifo_count (rx_fifo (ports s nr)) else 0
                    end) = Z.of_nat (length (rx_held p s ++ fifo))).
  { rewrite length_app in *. unfold rx_held, fifo in *.
    rewrite fifo_count_mod, Z.mod_small by (change (2 ^ 8) with 256; lia).
    destruct (rx_buffer (memory s p)) as [b|]; unfold available;
      destruct (is_physical nr); cbn [length] in *;
      rewrite ?(Z.mod_small _ (2 ^ 32)); unfold uint32; rewrite ?Z.mod_small; lia. }
  rewrite Havail. lia.
Qed.

Lemma read_oldest_first_witness :
  let s := fifo_full [7; 8; 9] (opened UART0 UART_FULL 8 8) in
  fst (smg_uart_read (Some 1) true 2 s) = [7; 8]
  /\ rx_readable 1 (snd (smg_uart_read (Some 1) true 2 s)) = [9].
Proof.
  destruct (read_oldest_first 1 2 (fifo_full [7; 8; 9] (opened UART0 UART_FULL 8 8)))
    as (H1 & H2 & _).
  - reflexivity.
  - lia.
  - vm_compute. lia.
  - split; [exact H1 | exact H2].
Defined.

(** ** Writing *)

(** The FIFO loop of [smg_uart_write] appends bytes of the source to the
    transmit FIFO until the FIFO holds 127. *)
Lemma write_fifo_loop_spec rest : forall written nr s,
  (length (tx_fifo (ports s nr)) < 256)%nat ->
  let k := Nat.min (length rest) (127 - length (tx_fifo (ports s nr))) in
  let r := write_fifo_loop rest written nr s in
  fst (fst r) = skipn k rest /\ snd (fst r) = written + Z.of_nat k
  /\ tx_fifo (ports (snd r) nr) = tx_fifo (ports s nr) ++ map uint8 (firstn k rest)
  /\ memory (snd r) = memory s
  /\ (forall j, with_tx_fifo [] (ports (snd r) j) = with_tx_fifo [] (ports s j))
  /\ globals (snd r) = globals s.
Proof.
  induction rest as [|c rest IH]; intros written nr s Hlen; cbn [write_fifo_loop].
  - cbn [length Nat.min fst snd firstn skipn map]. rewrite app_nil_r, Z.add_0_r. repeat split.
  - unfold uart_txfifo_full. rewrite uart_txfifo_count_eq, fifo_count_mod.
    rewrite Z.mod_small by (change (2 ^ 8) with 256; lia).
    change (UART_TX_FIFO_SIZE - 1) with 127.
    destruct (Z.geb_spec (Z.of_nat (length (tx_fifo (ports s nr)))) 127) as [Hfull|Hroom].
    + replace (127 - length (tx_fifo (ports s nr)))%nat with 0%nat by lia.
      rewrite Nat.min_0_r. cbn [fst snd firstn skipn map]. rewrite app_nil_r, Z.add_0_r.
      repeat split.
    + match goal with |- context [write_fifo_loop rest ?W nr ?S] =>
        assert (Hf1 : tx_fifo (ports S nr) = tx_fifo (ports s nr) ++ [uint8 c])
          by (unfold WRITE_PERI_REG; steps; reflexivity);
        destruct (IH W nr S) as (H1 & H2 & H3 & H4 & H5 & H6);
        [rewrite Hf1, length_app; cbn [length]; lia|] end.
      cbv zeta in H1, H2, H3, H4, H5, H6. rewrite Hf1 in H1, H2, H3.
      rewrite length_app in H1, H2, H3. cbn [length] in H1, H2, H3 |- *.
      replace (127 - (length (tx_fifo (ports s nr)) + 1))%nat
        with (127 - length (tx_fifo (ports s nr)) - 1)%nat in H1, H2, H3 by lia.
      destruct (127 - length (tx_fifo (ports s nr)))%nat as [|room] eqn:Hr; [lia|].
      replace (S room - 1)%nat with room in H1, H2, H3 by lia.
      cbn [Nat.min firstn skipn map]. rewrite H1, H2, H3, H4, H6, <- app_assoc.
      repeat split; try lia.
      intros j. rewrite H5. unfold WRITE_PERI_REG. steps. upd_case; steps; reflexivity.
Qed.

(** The buffer loop appends bytes of the source to the transmit buffer
    until it is full. *)
Lemma write_buffer_loop_spec rest : forall written p s b,
  tx_buffer (memory s p) = Some b ->
  let k := Nat.min (length rest) (Z.to_nat (getFreeSpace b)) in
  let r := write_buffer_loop rest written p s in
  fst (fst r) = skipn k rest /\ snd (fst r) = written + Z.of_nat k
  /\ tx_buffer (memory (snd r) p) = Some (mkBuffer (capacity b) (contents b ++ firstn k rest))
  /\ (forall q, set_tx_buffer None (memory (snd r) q) = set_tx_buffer None (memory s q))
  /\ ports (snd r) = ports s /\ globals (snd r) = globals s.
Proof.
  induction rest as [|c rest IH]; intros written p s b Hb; cbn [write_buffer_loop].
  - cbn [length Nat.min fst snd firstn skipn]. rewrite app_nil_r, Z.add_0_r, Hb.
    destruct b; repeat split.
  - rewrite Hb. unfold writeChar.
    destruct (Z.leb_spec (getFreeSpace b) 0) as [Hfull|Hroom]; cbn [fst snd].
    + replace (Z.to_nat (getFreeSpace b)) with 0%nat by lia.
      rewrite Nat.min_0_r. cbn [firstn skipn]. rewrite app_nil_r, Z.add_0_r, Hb.
      destruct b; repeat split.
    + match goal with |- context [write_buffer_loop rest ?W p ?S] =>
        destruct (IH W p S (mkBuffer (capacity b) (contents b ++ [c])))
          as (H1 & H2 & H3 & H4 & H5 & H6); [steps; reflexivity|] end.
      cbv zeta in H1, H2, H3, H4, H5, H6. cbn [capacity contents] in H3.
      assert (Hfree : Z.to_nat (getFreeSpace (mkBuffer (capacity b) (contents b ++ [c])))
                      = (Z.to_nat (getFreeSpace b) - 1)%nat).
      { unfold getFreeSpace, available. cbn [capacity contents]. rewrite length_app.
        cbn [length]. lia. }
      rewrite Hfree in H1, H2, H3.
      destruct (Z.to_nat (getFreeSpace b)) as [|room] eqn:Hr; [lia|].
      replace (S room - 1)%nat with room in H1, H2, H3 by lia.
      cbn [length Nat.min firstn skipn]. rewrite H1, H2, H3, H5, H6, <- app_assoc.
      repeat split; try lia.
      intros q. rewrite H4. steps. upd_case; steps; reflexivity.
Qed.

(** One pass of [smg_uart_write]: [k1] bytes go to the FIFO, which is used
    only while the transmit buffer holds nothing, then [k2] to the buffer. *)
Lemma write_pass_spec buf p phys s :
  let nr := uart_nr (memory s p) in
  (length (tx_fifo (ports s nr)) < 256)%nat ->
  let k1 := if phys && tx_buffer_idle p s
            then Nat.min (length buf) (127 - length (tx_fifo (ports s nr))) else 0%nat in
  let k2 := match tx_buffer (memory s p) with
            | Some b => Nat.min (length buf - k1) (Z.to_nat (getFreeSpace b))
            | None => 0%nat
            end in
  let r := write_pass buf 0 p phys s in
  fst (fst r) = skipn (k1 + k2) buf
  /\ snd (fst r) = Z.of_nat (k1 + k2)
  /\ tx_fifo (ports (snd r) nr) = tx_fifo (ports s nr) ++ map uint8 (firstn k1 buf)
  /\ tx_held p (snd r) = tx_held p s ++ firstn k2 (skipn k1 buf)
  /\ (forall q, set_tx_buffer None (memory (snd r) q) = set_tx_buffer None (memory s q)).
Proof.
  intros nr Hlen k1 k2 r. subst r. unfold write_pass. cbv zeta. fold nr.
  fold (tx_buffer_idle p s).
  assert (Hstage1 : exists rest1 w1 s1,
    (if phys && tx_buffer_idle p s
     then let '(rest, written, s0) := write_fifo_loop buf 0 nr s in
          (rest, written,
           SET_PERI_REG_MASK (UART_INT_ENA nr) UART_TXFIFO_EMPTY_INT_ENA
             (WRITE_PERI_REG (UART_INT_CLR nr) UART_TXFIFO_EMPTY_INT_CLR s0))
     else (buf, 0, s)) = (rest1, w1, s1)
    /\ rest1 = skipn k1 buf /\ w1 = Z.of_nat k1
    /\ tx_fifo (ports s1 nr) = tx_fifo (ports s nr) ++ map uint8 (firstn k1 buf)
    /\ memory s1 = memory s).
  { subst k1. destruct (phys && tx_buffer_idle p s).
    - destruct (write_fifo_loop_spec buf 0 nr s Hlen) as (H1 & H2 & H3 & H4 & _).
      cbv zeta in H1, H2, H3, H4.
      destruct (write_fifo_loop buf 0 nr s) as [[rest1 w1] s1]. cbn [fst snd] in *.
      do 3 eexists. split; [reflexivity|]. unfold READ_PERI_REG.
      repeat split; try assumption; steps; assumption.
    - do 3 eexists. split; [reflexivity|]. cbn [firstn skipn map]. rewrite app_nil_r.
      repeat split. }
  destruct Hstage1 as (rest1 & w1 & s1 & -> & Hrest1 & Hw1 & Hfifo1 & Hm1).
  rewrite Hm1. unfold tx_held. autorewrite with frame.
  destruct (tx_buffer (memory s p)) as [b|] eqn:Hb; cbn [is_some].
  - assert (Hb1 : tx_buffer (memory s1 p) = Some b) by now rewrite Hm1.
    destruct (write_buffer_loop_spec rest1 w1 p s1 b Hb1) as (H1 & H2 & H3 & H4 & H5 & _).
    cbv zeta in H1, H2, H3, H4, H5.
    destruct (write_buffer_loop rest1 w1 p s1) as [[rest2 w2] s2]. cbn [fst snd] in *.
    autorewrite with frame.
    assert (Hk2 : Nat.min (length rest1) (Z.to_nat (getFreeSpace b)) = k2)
      by (subst k2 rest1; now rewrite length_skipn).
    rewrite Hk2 in *. rewrite H3, H5, Hfifo1. cbn [contents]. subst rest1 w1.
    split; [rewrite H1, skipn_skipn; f_equal; lia|].
    split; [lia|]. split; [reflexivity|]. split; [reflexivity|].
    intros q. now rewrite H4, Hm1.
  - cbn [fst snd]. autorewrite with frame. rewrite Hm1, Hb. subst k2 rest1 w1.
    rewrite Nat.add_0_r, app_nil_r. cbn [firstn]. repeat split. assumption.
Qed.

Lemma firstn_add {A} k1 k2 (l : list A) :
  firstn (k1 + k2) l = firstn k1 l ++ firstn k2 (skipn k1 l).
Proof.
  revert l. induction k1 as [|k1 IH]; intros l; [reflexivity|].
  destruct l as [|x l]; cbn [Nat.add firstn skipn app].
  - now rewrite firstn_nil.
  - now rewrite IH.
Qed.

Lemma uart_txfifo_free_small nr s :
  (length (tx_fifo (ports s nr)) <= 127)%nat ->
  uart_txfifo_free nr s = 127 - Z.of_nat (length (tx_fifo (ports s nr))).
Proof.
  intros H. unfold uart_txfifo_free. rewrite uart_txfifo_count_eq, fifo_count_mod.
  rewrite Z.mod_small by (change (2 ^ 8) with 256; lia).
  change UART_TX_FIFO_SIZE with 128. unfold uint8. rewrite Z.mod_small by
    (change (2 ^ 8) with 256; lia).
  lia.
Qed.

(** X12. A write without UART_OPT_TXWAIT accepts a prefix of the source and
    returns its length: the bytes join, in their order, the end of what is
    waiting to be sent. The count never exceeds what [smg_uart_tx_free]
    gave, and is the whole source or all of that room when the transmit
    buffer held nothing. The transmit FIFO is never filled beyond 127
    bytes. *)
Theorem write_accepts_in_order (fuel : nat) (p : Z) (buf : list Z) (s : driver) :
  smg_uart_tx_enabled (memory s p) = true ->
  buf <> [] ->
  bitRead (options (memory s p)) UART_OPT_TXWAIT = false ->
  (length (tx_fifo (ports s (uart_nr (memory s p)))) <= 127)%nat ->
  (forall b, tx_buffer (memory s p) = Some b ->
             available b <= capacity b /\ capacity b + 127 < 2 ^ 32) ->
  exists written s',
    smg_uart_write (S fuel) (Some p) (Some buf) s = Some (written, s')
    /\ tx_accepted p s' = tx_accepted p s ++ map uint8 (firstn (Z.to_nat written) buf)
    /\ 0 <= written <= Z.min (Z.of_nat (length buf)) (fst (smg_uart_tx_free (Some p) s))
    /\ (tx_buffer_idle p s = true ->
        written = Z.min (Z.of_nat (length buf)) (fst (smg_uart_tx_free (Some p) s)))
    /\ (length (tx_fifo (ports s' (uart_nr (memory s p)))) <= 127)%nat.
Proof.
  intros Htx Hbuf Hopt Hlen Hok.
  set (nr := uart_nr (memory s p)) in *.
  assert (Hlen' : (length (tx_fifo (ports s nr)) < 256)%nat) by lia.
  destruct (write_pass_spec buf p (is_physical nr) s Hlen') as (_ & Hw & Hfifo & Hheld & Hm).
  cbv zeta in Hw, Hfifo, Hheld, Hm. fold nr in Hw, Hfifo, Hheld.
  set (k1 := if is_physical nr && tx_buffer_idle p s
             then Nat.min (length buf) (127 - length (tx_fifo (ports s nr))) else 0%nat) in *.
  set (k2 := match tx_buffer (memory s p) with
             | Some b => Nat.min (length buf - k1) (Z.to_nat (getFreeSpace b))
             | None => 0%nat
             end) in *.
  unfold smg_uart_write. rewrite Htx. cbn [negb orb].
  replace (Z.of_nat (length buf) =? 0) with false
    by (symmetry; apply Z.eqb_neq; destruct buf; [congruence | cbn [length]; lia]).
  destruct buf as [|c0 buf0]; [congruence|]. cbn [write_loop].
  set (buf := c0 :: buf0) in *. clearbody buf.
  unfold is_physical_uart. fold nr.
  destruct (write_pass buf 0 p (is_physical nr) s) as [[rest w] s1]. cbn [fst snd] in *.
  destruct (sans_tx_fields _ _ (Hm p)) as (Hnr1 & _ & Hopt1 & _).
  rewrite Hopt1, Hopt. cbn [negb].
  exists w, s1. split; [reflexivity|].
  assert (Hidle : tx_buffer_idle p s = true -> tx_held p s = []).
  { unfold tx_buffer_idle, tx_held, isEmpty, available.
    destruct (tx_buffer (memory s p)) as [b|]; [|reflexivity].
    intros H. apply Z.eqb_eq in H. destruct (contents b); [reflexivity | cbn [length] in H; lia]. }
  assert (Hfree : fst (smg_uart_tx_free (Some p) s)
                  = (if is_physical nr then 127 - Z.of_nat (length (tx_fifo (ports s nr))) else 0)
                    + match tx_buffer (memory s p) with
                      | Some b => getFreeSpace b | None => 0 end).
  { rewrite tx_free_value. cbv zeta. rewrite Htx. fold nr.
    rewrite uart_txfifo_free_small by exact Hlen.
    destruct (tx_buffer (memory s p)) as [b|] eqn:Hb; [|lia].
    destruct (Hok b eq_refl) as (Hav & Hcap). unfold getFreeSpace, uint32.
    assert (0 <= available b) by (unfold available; lia).
    apply Z.mod_small. destruct (is_physical nr); lia. }
  split; [|split; [|split]].
  - unfold tx_accepted. rewrite Hnr1. fold nr. rewrite Hheld, Hw, Nat2Z.id, firstn_add.
    destruct (is_physical nr) eqn:Hphys; cbn [andb] in k1.
    + rewrite Hfifo. destruct (tx_buffer_idle p s) eqn:Ei.
      * rewrite (Hidle eq_refl). cbn [app map].
        rewrite ?app_nil_r, ?map_app, <- ?app_assoc. reflexivity.
      * subst k1. cbn [firstn skipn map app].
        rewrite ?app_nil_r, ?map_app, <- ?app_assoc. reflexivity.
    + subst k1. cbn [firstn skipn map app].
      rewrite ?app_nil_r, ?map_app, <- ?app_assoc. reflexivity.
  - rewrite Hfree, Hw. subst k1 k2.
    destruct (tx_buffer (memory s p)) as [b|] eqn:Hb.
    + destruct (Hok b eq_refl) as (Hav & _). unfold getFreeSpace.
      destruct (is_physical nr && tx_buffer_idle p s) eqn:E;
        destruct (is_physical nr); try discriminate E; cbv iota; lia.
    + destruct (is_physical nr && tx_buffer_idle p s) eqn:E;
        destruct (is_physical nr); try discriminate E; cbv iota; lia.
  - intros Hi. rewrite Hfree, Hw. subst k1 k2. rewrite Hi, andb_true_r.
    destruct (tx_buffer (memory s p)) as [b|] eqn:Hb.
    + destruct (Hok b eq_refl) as (Hav & _). unfold getFreeSpace.
      destruct (is_physical nr); cbv iota; lia.
    + destruct (is_physical nr); cbv iota; lia.
  - rewrite Hfifo, length_app, length_map, length_firstn. subst k1.
    destruct (is_physical nr && tx_buffer_idle p s); cbv iota; lia.
Qed.

Lemma write_accepts_in_order_witness :
  exists written s',
    smg_uart_write 1 (Some 1) (Some [1; 2; 3]) (opened UART0 UART_FULL 8 8)
    = Some (written, s')
    /\ tx_accepted 1 s' = [1; 2; 3].
Proof.
  destruct (write_accepts_in_order 0 1 [1; 2; 3] (opened UART0 UART_FULL 8 8))
    as (w & s' & H1 & H2 & _ & H4 & _).
  - reflexivity.
  - discriminate.
  - reflexivity.
  - vm_compute. lia.
  - intros b Hb. vm_compute in Hb. injection Hb as <-. vm_compute. split; [discriminate | reflexivity].
  - exists w, s'. split; [exact H1|]. rewrite H2.
    rewrite (H4 eq_refl). reflexivity.
Defined.

(** ** The handler, receive side *)

(** After the servicing the handler touches neither the receive buffer nor
    the FIFOs. *)
Lemma handler_rx_effects nr p s :
  int_st (ports s nr) <> 0 ->
  uart_isr_enabled nr s = true ->
  let r := isr_service nr p (int_st (ports s nr)) s in
  let s' := handle_uart_interrupt nr (Some p) s in
  rx_buffer (memory s' p) = rx_buffer (memory (snd r) p)
  /\ (forall k, rx_fifo (ports s' k) = rx_fifo (ports (snd r) k))
  /\ (forall k, int_ena (ports s' k) = int_ena (ports (snd r) k)).
Proof.
  intros Hst Hen r s'. subst s'. rewrite (handler_serviced nr p s Hst Hen). cbv zeta.
  fold r. destruct r as [st s1]. cbn [fst snd].
  split; [|split].
  - steps. break_if; steps; reflexivity.
  - intros k. steps. try upd_case; steps; break_if; steps; reflexivity.
  - intros k. steps. try upd_case; steps; break_if; steps; reflexivity.
Qed.

(** X13. With a receive interrupt pending (FIFO full, timeout or overflow) the
    handler moves the oldest bytes of the receive FIFO to the end of the
    receive buffer: as many as the FIFO reports, or as the buffer has room
    for. *)
Theorem handler_receives (nr p : Z) (s : driver) (b : SerialBuffer) :
  uart_isr_enabled nr s = true ->
  bitRead (options (memory s p)) UART_OPT_CALLBACK_RAW = false ->
  Z.land (int_st (ports s nr))
         (Z.lor (Z.lor UART_RXFIFO_FULL_INT_ST UART_RXFIFO_TOUT_INT_ST)
                UART_RXFIFO_OVF_INT_ST) <> 0 ->
  rx_buffer (memory s p) = Some b ->
  let n := Z.to_nat (Z.min (uart_rxfifo_count nr s) (getFreeSpace b)) in
  let s' := handle_uart_interrupt nr (Some p) s in
  rx_buffer (memory s' p)
  = Some (mkBuffer (capacity b) (contents b ++ firstn n (rx_fifo (ports s nr))))
  /\ rx_fifo (ports s' nr) = skipn n (rx_fifo (ports s nr)).
Proof.
  intros Hen Hraw Hpend Hb n s'.
  assert (Hst : int_st (ports s nr) <> 0).
  { intros H0. rewrite H0 in Hpend. now rewrite Z.land_0_l in Hpend. }
  destruct (handler_rx_effects nr p s Hst Hen) as (Hbuf & Hfifo & _).
  cbv zeta in Hbuf, Hfifo. subst s'. rewrite Hbuf, Hfifo.
  rewrite (isr_service_nonraw nr p _ s Hraw).
  set (usis := int_st (ports s nr)) in *.
  destruct (isr_tx_rx_side nr p usis (fst (isr_rx nr p usis usis s))
              (snd (isr_rx nr p usis usis s))) as (Hm & Hp).
  cbv zeta in Hm, Hp. rewrite Hm, Hp.
  apply Z.eqb_neq in Hpend.
  exact (isr_rx_moves nr p usis usis s b Hpend Hb).
Qed.

Lemma handler_receives_witness :
  let s' := handle_uart_interrupt UART0 (Some 1) headroom_six in
  rx_buffer (memory s' 1) = Some (mkBuffer 8 [1; 2; 3; 4; 5; 6])
  /\ rx_fifo (ports s' UART0) = [].
Proof.
  apply (handler_receives UART0 1 headroom_six (mkBuffer 8 [])).
  - reflexivity.
  - reflexivity.
  - vm_compute. discriminate.
  - reflexivity.
Defined.

(** The transmit part never enables an interrupt source. *)
Lemma isr_tx_int_ena nr p usis st s k i :
  Z.testbit (int_ena (ports s k)) i = false ->
  Z.testbit (int_ena (ports (snd (isr_tx nr p usis st s)) k)) i = false.
Proof.
  intros H. unfold isr_tx. break_if; [|exact H]. cbv zeta.
  assert (Hs1 : exists s1,
    (match tx_buffer (memory s p) with
     | Some b =>
         snd (isr_tx_loop
                (Z.to_nat (if available b <=? uart_txfifo_free nr s
                           then available b else uart_txfifo_free nr s))
                (if available b <=? uart_txfifo_free nr s
                 then available b else uart_txfifo_free nr s) nr p s)
     | None => s
     end) = s1
    /\ int_ena (ports s1 k) = int_ena (ports s k)).
  { eexists. split; [reflexivity|].
    destruct (tx_buffer (memory s p)) as [b|]; [|reflexivity].
    match goal with |- context [isr_tx_loop ?m ?c nr p s] =>
      pose proof (isr_tx_loop_frame m c nr p s) as (_ & Hp & _) end.
    cbv zeta in Hp. now destruct (port_sans_tx_fields _ _ (Hp k)). }
  destruct Hs1 as (s1 & -> & Hk).
  break_if; cbn [snd]; [|now rewrite Hk].
  unfold READ_PERI_REG. steps. upd_case; steps; [|now rewrite Hk].
  rewrite Z.land_spec, Hk, H. reflexivity.
Qed.

(** The handler leaves the port number, the mode and the options of every
    instance as they are. *)
Lemma handler_instance_frame nr uart s q :
  let s' := handle_uart_interrupt nr uart s in
  uart_nr (memory s' q) = uart_nr (memory s q)
  /\ mode (memory s' q) = mode (memory s q)
  /\ options (memory s' q) = options (memory s q).
Proof.
  cbv zeta. destruct uart as [p|].
  2:{ unfold handle_uart_interrupt. break_if; [repeat split|].
      unfold WRITE_PERI_REG. steps. repeat split. }
  destruct (Z.eq_dec (int_st (ports s nr)) 0) as [H0|H0].
  { unfold handle_uart_interrupt, READ_PERI_REG. rewrite H0. repeat split. }
  destruct (uart_isr_enabled nr s) eqn:Hen.
  2:{ unfold handle_uart_interrupt, READ_PERI_REG. apply Z.eqb_neq in H0. rewrite H0, Hen.
      cbn [negb]. steps. repeat split. }
  rewrite (handler_serviced nr p s H0 Hen). cbv zeta.
  set (usis := int_st (ports s nr)).
  assert (Hsvc : let s1 := snd (isr_service nr p usis s) in
            uart_nr (memory s1 q) = uart_nr (memory s q)
            /\ mode (memory s1 q) = mode (memory s q)
            /\ options (memory s1 q) = options (memory s q)).
  { cbv zeta. unfold isr_service. break_if; [|repeat split].
    destruct (isr_rx nr p usis usis s) as [st s1] eqn:Hrx.
    assert (Hs1 : s1 = snd (isr_rx nr p usis usis s)) by now rewrite Hrx.
    destruct (isr_rx_frame nr p usis usis s) as (Hm1 & _). cbv zeta in Hm1.
    rewrite <- Hs1 in Hm1.
    destruct (sans_rx_fields _ _ (Hm1 q)) as (<- & <- & <- & _).
    destruct (Z.land usis UART_TXFIFO_EMPTY_INT_ST =? 0) eqn:E.
    - unfold isr_tx. rewrite E. repeat split.
    - destruct (isr_tx_spec nr p usis st s1 E) as (_ & _ & _ & Hm2 & _). cbv zeta in Hm2.
      destruct (sans_tx_fields _ _ (Hm2 q)) as (-> & -> & -> & _). repeat split. }
  cbv zeta in Hsvc. destruct (isr_service nr p usis s) as [st s1]. cbn [snd] in Hsvc.
  destruct Hsvc as (<- & <- & <-).
  repeat split; steps; break_if; steps; try upd_case; steps; reflexivity.
Qed.

(** ** Reading re-arms the receive interrupts *)

Lemma read_rearms p size s :
  let nr := uart_nr (memory s p) in
  smg_uart_rx_enabled (memory s p) = true ->
  0 < size ->
  is_physical nr = true ->
  let s' := snd (smg_uart_read (Some p) true size s) in
  int_ena (ports s' nr)
  = Z.lor (int_ena (ports s nr))
          (Z.lor (Z.lor UART_RXFIFO_FULL_INT_ENA UART_RXFIFO_TOUT_INT_ENA)
                 UART_RXFIFO_OVF_INT_ENA).
Proof.
  intros nr Hrx Hsize Hphys. cbv zeta. unfold smg_uart_read. rewrite Hrx.
  replace (size =? 0) with false by (symmetry; apply Z.eqb_neq; lia).
  cbn [negb orb]. cbv zeta.
  set (s0 := notify p UART_NOTIFY_BEFORE_READ s).
  assert (Hm0 : memory s0 = memory s) by (unfold s0; now autorewrite with frame).
  assert (Hp0 : ports s0 = ports s) by (unfold s0; now autorewrite with frame).
  assert (Hstage1 : exists buf s1,
    (if is_some (rx_buffer (memory s0 p))
     then read_buffer_loop (Z.to_nat size) p [] s0 else ([], s0)) = (buf, s1)
    /\ uart_nr (memory s1 p) = nr /\ ports s1 = ports s).
  { destruct (rx_buffer (memory s0 p)) as [b|] eqn:Hb; cbn [is_some].
    - destruct (read_buffer_loop_spec (Z.to_nat size) p [] s0 b Hb) as (_ & _ & H3 & H4 & _).
      cbv zeta in H3, H4.
      destruct (read_buffer_loop (Z.to_nat size) p [] s0) as [buf s1]. cbn [fst snd] in *.
      exists buf, s1. split; [reflexivity|]. split; [|now rewrite H4].
      destruct (sans_rx_fields _ _ (H3 p)) as (-> & _). now rewrite Hm0.
    - exists [], s0. split; [reflexivity|]. split; [now rewrite Hm0 | assumption]. }
  destruct Hstage1 as (buf & s1 & -> & Hnr1 & Hp1).
  unfold is_physical_uart. rewrite Hnr1, Hphys.
  match goal with |- context [read_fifo_loop ?l nr buf s1] =>
    pose proof (read_fifo_loop_int_ena l nr buf s1 nr) as Hk;
    destruct (read_fifo_loop l nr buf s1) as [buf2 s2] end.
  cbn [snd] in *. unfold READ_PERI_REG. steps. now rewrite Hk, Hp1.
Qed.

(** X14. A receive overflow is reported once: the handler that services it
    disables the overflow interrupt source of the port, and the source
    stays off until the application reads, which enables it again. *)
Theorem overflow_masked_until_read (nr p : Z) (s : driver) :
  uart_isr_enabled nr s = true ->
  bitRead (options (memory s p)) UART_OPT_CALLBACK_RAW = false ->
  Z.testbit (int_st (ports s nr)) OVF_BIT = true ->
  let s1 := handle_uart_interrupt nr (Some p) s in
  Z.testbit (int_ena (ports s1 nr)) OVF_BIT = false
  /\ (forall size,
        uart_nr (memory s p) = nr -> is_physical nr = true ->
        smg_uart_rx_enabled (memory s p) = true -> 0 < size ->
        Z.testbit (int_ena (ports (snd (smg_uart_read (Some p) true size s1)) nr)) OVF_BIT
        = true).
Proof.
  intros Hen Hraw Hovf s1.
  assert (Hst : int_st (ports s nr) <> 0) by (apply (testbit_nonzero _ OVF_BIT); exact Hovf).
  destruct (handler_instance_frame nr (Some p) s p) as (Hnr1 & Hmode1 & _).
  cbv zeta in Hnr1, Hmode1. fold s1 in Hnr1, Hmode1.
  split.
  - destruct (handler_rx_effects nr p s Hst Hen) as (_ & _ & Hena). cbv zeta in Hena.
    subst s1. rewrite Hena, (isr_service_nonraw nr p _ s Hraw).
    apply isr_tx_int_ena.
    set (usis := int_st (ports s nr)) in *.
    unfold isr_rx.
    assert (E1 : (Z.land usis (Z.lor (Z.lor UART_RXFIFO_FULL_INT_ST UART_RXFIFO_TOUT_INT_ST)
                                     UART_RXFIFO_OVF_INT_ST) =? 0) = false)
      by (apply (bit_set_land_nonzero _ _ OVF_BIT); [exact Hovf | reflexivity]).
    assert (E2 : (Z.land usis UART_RXFIFO_OVF_INT_ST =? 0) = false)
      by (apply (bit_set_land_nonzero _ _ OVF_BIT); [exact Hovf | reflexivity]).
    rewrite E1, E2. cbn [negb]. cbv zeta.
    destruct (rx_buffer (memory s p)) as [b|].
    + match goal with |- context [isr_rx_loop ?n ?r nr p s] =>
        destruct (isr_rx_loop n r nr p s) as [rd s2] end.
      cbn [snd]. unfold READ_PERI_REG. steps. rewrite Z.land_spec.
      replace (Z.testbit (-17) OVF_BIT) with false by reflexivity. apply andb_false_r.
    + cbn [snd]. unfold READ_PERI_REG. steps. rewrite Z.land_spec.
      replace (Z.testbit (-17) OVF_BIT) with false by reflexivity. apply andb_false_r.
  - intros size Hnr Hphys Hrx Hsize.
    assert (Hrx1 : smg_uart_rx_enabled (memory s1 p) = true)
      by (unfold smg_uart_rx_enabled in *; now rewrite Hmode1).
    pose proof (read_rearms p size s1) as Hre. cbv zeta in Hre.
    rewrite Hnr1, Hnr in Hre. rewrite (Hre Hrx1 Hsize Hphys).
    rewrite Z.lor_spec. apply orb_true_r.
Qed.

Lemma overflow_masked_until_read_witness :
  let s := raise_int UART0 UART_RXFIFO_OVF_INT_ST (opened UART0 UART_FULL 8 8) in
  Z.testbit (int_ena (ports (handle_uart_interrupt UART0 (Some 1) s) UART0)) OVF_BIT = false.
Proof.
  destruct (overflow_masked_until_read UART0 1
              (raise_int UART0 UART_RXFIFO_OVF_INT_ST (opened UART0 UART_FULL 8 8)))
    as (H & _).
  - vm_compute. reflexivity.
  - vm_compute. reflexivity.
  - vm_compute. reflexivity.
  - exact H.
Defined.

(** ** What a flush discards *)

(** X15. A flush discards what waits in the directions it covers, buffer and
    FIFO, so that nothing is left to read, and leaves what waits in the
    other direction, provided no FIFO reset bit had been left set in the
    configuration register of the port. *)
Theorem flush_clears_direction (p : Z) (m : smg_uart_mode_t) (s : driver) :
  let u := memory s p in
  let nr := uart_nr u in
  let s' := smg_uart_flush (Some p) m s in
  (flushes_rx m u = true ->
   rx_readable p s' = [] /\ fst (smg_uart_rx_available (Some p) s') = 0)
  /\ (flushes_tx m u = true -> tx_accepted p s' = [])
  /\ (flushes_rx m u = false -> Z.testbit (conf0 (ports s nr)) 17 = false ->
      rx_readable p s' = rx_readable p s)
  /\ (flushes_tx m u = false -> Z.testbit (conf0 (ports s nr)) 18 = false ->
      tx_accepted p s' = tx_accepted p s).
Proof.
  intros u nr s'.
  destruct (flush_spec p m s) as (Hm & _ & _ & _ & _ & Hother & Hport).
  cbv zeta in Hm, Hother, Hport. fold u nr s' in Hm, Hother, Hport.
  set (frx := flushes_rx m u) in *. set (ftx := flushes_tx m u) in *.
  destruct (flushed_port_fifos frx ftx (ports s nr)) as (F1 & F2 & F3 & F4 & _).
  assert (Hnr : uart_nr (memory s' p) = nr) by (rewrite Hm; reflexivity).
  assert (Hrxb : rx_buffer (memory s' p)
                 = if frx then option_map clear (rx_buffer u) else rx_buffer u)
    by (rewrite Hm; reflexivity).
  assert (Htxb : tx_buffer (memory s' p)
                 = if ftx then option_map clear (tx_buffer u) else tx_buffer u)
    by (rewrite Hm; reflexivity).
  assert (Hmode : mode (memory s' p) = mode u) by (rewrite Hm; reflexivity).
  assert (Hrd : frx = true -> rx_readable p s' = []).
  { intros E. unfold rx_readable, rx_held. cbv zeta. rewrite Hnr, Hrxb, E.
    destruct (is_physical nr) eqn:Hphys.
    - rewrite (Hport eq_refl), (F1 E). now destruct (rx_buffer u).
    - now destruct (rx_buffer u). }
  split; [|split; [|split]].
  - intros E. split; [exact (Hrd E)|].
    rewrite rx_available_value. cbv zeta. unfold smg_uart_rx_enabled.
    rewrite Hmode, Hnr, Hrxb, E.
    assert (Emode : negb (mode_eqb (mode u) UART_TX_ONLY) = true)
      by (unfold frx, flushes_rx in E; apply andb_true_iff in E; apply E).
    rewrite Emode.
    destruct (is_physical nr) eqn:Hphys.
    + rewrite (Hport eq_refl), (F1 E). destruct (rx_buffer u); reflexivity.
    + destruct (rx_buffer u); reflexivity.
  - intros E. unfold tx_accepted, tx_held. cbv zeta. rewrite Hnr, Htxb, E.
    destruct (is_physical nr) eqn:Hphys.
    + rewrite (Hport eq_refl), (F2 E). now destruct (tx_buffer u).
    + now destruct (tx_buffer u).
  - intros E Hbit. unfold rx_readable, rx_held. cbv zeta. rewrite Hnr, Hrxb, E. fold u nr.
    destruct (is_physical nr) eqn:Hphys; [|reflexivity].
    now rewrite (Hport eq_refl), (F3 E Hbit).
  - intros E Hbit. unfold tx_accepted, tx_held. cbv zeta. rewrite Hnr, Htxb, E. fold u nr.
    destruct (is_physical nr) eqn:Hphys; [|reflexivity].
    now rewrite (Hport eq_refl), (F4 E Hbit).
Qed.

Lemma flush_clears_direction_witness :
  let s := fifo_full [7; 8; 9] (opened UART0 UART_FULL 8 8) in
  rx_readable 1 s = [7; 8; 9]
  /\ rx_readable 1 (smg_uart_flush (Some 1) UART_RX_ONLY s) = [].
Proof.
  destruct (flush_clears_direction 1 UART_RX_ONLY
              (fifo_full [7; 8; 9] (opened UART0 UART_FULL 8 8))) as (H & _).
  split; [reflexivity|].
  apply H. vm_compute. reflexivity.
Defined.

(** ** Detaching a port *)

Lemma detach_spec nr s :
  is_physical nr = true ->
  let s' := smg_uart_detach nr s in
  isrMask s' = uint8 (bitClear (isrMask s) nr)
  /\ ports s' nr = detached_port (ports s nr)
  /\ (forall k, k <> nr -> ports s' k = ports s k)
  /\ ets_uart_intr_enabled s' = negb (uint8 (bitClear (isrMask s) nr) =? 0).
Proof.
  intros Hphys. cbv zeta. unfold smg_uart_detach, detached_port. rewrite Hphys.
  cbn [negb]. cbv zeta.
  split; [|split; [|split]].
  - steps. reflexivity.
  - steps. reflexivity.
  - intros k Hk. steps. reflexivity.
  - rewrite intr_enabled_restore. steps. apply orb_false_r.
Qed.

Lemma one_bit_other k nr :
  k <> nr -> 0 <= nr -> 0 <= k -> Z.testbit (Z.shiftl 1 nr) k = false.
Proof.
  intros Hne Hnr Hk. rewrite Z.shiftl_spec by lia.
  destruct (Z.lt_ge_cases k nr).
  - apply Z.testbit_neg_r. lia.
  - apply Z.bits_above_log2; [lia | cbn; lia].
Qed.

(** X16. After [smg_uart_detach] the port is silent. Its bit of the interrupt
    mask is clear and its interrupt sources are disabled; whatever the
    hardware raises on it afterwards, the handler touches no instance, calls
    no callback and moves no byte. The other port keeps its bit and its
    registers. *)
Theorem detached_port_is_inert (nr : Z) (uart : option Z) (mask : Z) (s : driver) :
  is_physical nr = true ->
  let s1 := smg_uart_detach nr s in
  let s2 := handle_uart_interrupt nr uart (raise_int nr mask s1) in
  uart_isr_enabled nr s1 = false
  /\ int_ena (ports s1 nr) = 0
  /\ (forall k, k <> nr -> 0 <= k < 8 ->
      uart_isr_enabled k s1 = uart_isr_enabled k s /\ ports s1 k = ports s k)
  /\ memory s2 = memory s /\ trace s2 = trace s
  /\ rx_fifo (ports s2 nr) = rx_fifo (ports s nr)
  /\ tx_fifo (ports s2 nr) = tx_fifo (ports s nr)
  /\ int_ena (ports s2 nr) = 0.
Proof.
  intros Hphys s1 s2.
  destruct (detach_spec nr s Hphys) as (Hmask & Hport & Hother & _).
  cbv zeta in Hmask, Hport, Hother. fold s1 in Hmask, Hport, Hother.
  assert (Hrange : 0 <= nr < 8).
  { unfold is_physical, UART_PHYSICAL_COUNT in Hphys. apply andb_true_iff in Hphys.
    destruct Hphys as (H1 & H2). apply Z.geb_le in H1. apply Z.ltb_lt in H2. lia. }
  assert (Hoff : uart_isr_enabled nr s1 = false).
  { unfold uart_isr_enabled, bitRead. rewrite Hmask, uint8_testbit by exact Hrange.
    unfold bitClear. rewrite Z.land_spec, Z.lnot_spec, Z.shiftl_spec by lia.
    rewrite Z.sub_diag. apply andb_false_r. }
  assert (Hm1 : memory s1 = memory s) by apply memory_detach.
  assert (Ht1 : trace s1 = trace s) by apply trace_detach.
  split; [exact Hoff|]. split; [rewrite Hport; reflexivity|].
  split.
  { intros k Hk Hk8. split; [|exact (Hother k Hk)].
    unfold uart_isr_enabled, bitRead. rewrite Hmask, uint8_testbit by exact Hk8.
    unfold bitClear. rewrite Z.land_spec, Z.lnot_spec by lia.
    rewrite one_bit_other by lia. apply andb_true_r. }
  set (s1r := raise_int nr mask s1).
  assert (Hen : uart_isr_enabled nr s1r = false) by exact Hoff.
  assert (Hs2 : s2 = s1r \/ s2 = WRITE_PERI_REG (UART_INT_ENA nr) 0 s1r).
  { subst s2. fold s1r. unfold handle_uart_interrupt.
    destruct (READ_PERI_REG (UART_INT_ST nr) s1r =? 0); [left; reflexivity|].
    right. destruct uart; [rewrite Hen|]; reflexivity. }
  assert (Hp1r : ports s1r nr
                 = mkPort (rx_fifo (ports s nr)) (tx_fifo (ports s nr))
                     (Z.lor (int_raw (ports s1 nr)) mask) (Z.lor (int_st (ports s1 nr)) mask)
                     0 (clkdiv (ports s1 nr)) (conf0 (ports s1 nr)) (conf1 (ports s1 nr))).
  { unfold s1r, raise_int, set_port. steps. rewrite !Hport. reflexivity. }
  destruct Hs2 as [-> | ->].
  - rewrite Hp1r. repeat split; assumption.
  - unfold WRITE_PERI_REG. steps. rewrite Hp1r. repeat split; assumption.
Qed.

Lemma detached_port_is_inert_witness :
  let s := opened UART0 UART_FULL 8 8 in
  let s1 := smg_uart_detach UART0 s in
  let s2 := handle_uart_interrupt UART0 (Some 1)
              (raise_int UART0 UART_RXFIFO_FULL_INT_ST s1) in
  uart_isr_enabled UART0 s = true /\ uart_isr_enabled UART0 s1 = false
  /\ trace s2 = trace s.
Proof.
  destruct (detached_port_is_inert UART0 (Some 1) UART_RXFIFO_FULL_INT_ST
              (opened UART0 UART_FULL 8 8)) as (H1 & _ & _ & _ & H5 & _).
  - reflexivity.
  - split; [reflexivity | split; [exact H1 | exact H5]].
Defined.

(** ** The interrupt gate *)

(** X17. The functions that bracket their work with a disable and a restore of
    the UART interrupt do not put the gate back as they found it: they
    leave the interrupt enabled exactly when some port has been started,
    whatever the gate was on entry. *)
Theorem interrupt_gate_not_restored (p : Z) (m : smg_uart_mode_t) (s : driver) :
  let started := negb (isrMask s =? 0) in
  ets_uart_intr_enabled (smg_uart_flush (Some p) m s) = started
  /\ ets_uart_intr_enabled (snd (smg_uart_get_status (Some p) s)) = started
  /\ (smg_uart_rx_enabled (memory s p) = true ->
      ets_uart_intr_enabled (snd (smg_uart_rx_available (Some p) s)) = started)
  /\ (smg_uart_tx_enabled (memory s p) = true ->
      ets_uart_intr_enabled (snd (smg_uart_tx_free (Some p) s)) = started).
Proof.
  cbv zeta. split; [|split; [|split]].
  - now destruct (flush_spec p m s) as (_ & _ & _ & _ & H & _).
  - unfold smg_uart_get_status. cbv zeta.
    destruct (get_physical _ _); cbn [snd]; rewrite intr_enabled_restore; steps;
      apply orb_false_r.
  - intros H. unfold smg_uart_rx_available. rewrite H. cbn [negb snd].
    rewrite intr_enabled_restore. steps. apply orb_false_r.
  - intros H. unfold smg_uart_tx_free. rewrite H. cbn [negb snd].
    rewrite intr_enabled_restore. steps. apply orb_false_r.
Qed.

Lemma interrupt_gate_not_restored_witness :
  let s := smg_uart_disable_interrupts (opened UART0 UART_FULL 8 8) in
  ets_uart_intr_enabled s = false
  /\ ets_uart_intr_enabled (snd (smg_uart_rx_available (Some 1) s)) = true.
Proof.
  destruct (interrupt_gate_not_restored 1 UART_FULL
              (smg_uart_disable_interrupts (opened UART0 UART_FULL 8 8)))
    as (_ & _ & H & _).
  split; [reflexivity|]. apply H. vm_compute. reflexivity.
Defined.

(** ** Pins accepted *)

Ltac eqb_cases :=
  repeat match goal with
         | H : context [?a =? ?b] |- _ => destruct (Z.eqb_spec a b)
         | |- context [?a =? ?b] => destruct (Z.eqb_spec a b)
         end.

(** The transmit step of [smg_uart_set_pins], lines 888-900: where it ends
    with the transmit pin not the one asked for, the receive step will
    refuse. *)
Lemma set_pins_tx_step p t r s :
  let u := memory s p in
  uart_nr u = UART0 ->
  smg_uart_rx_enabled u = true ->
  (smg_uart_tx_enabled u = true -> tx_pin u = 1 \/ tx_pin u = 2 \/ tx_pin u = 15) ->
  (rx_pin u = 3 \/ rx_pin u = 13) ->
  exists res1 s1,
    (if smg_uart_tx_enabled u && negb (tx_pin u =? t)
     then if (r =? 13) && (t =? 15) then (true, smg_uart_swap (Some p) 15 s)
          else if (r =? 3) && ((t =? 1) || (t =? 2))
               then if negb (rx_pin u =? r)
                    then (true, smg_uart_swap (Some p) t s)
                    else (true, snd (smg_uart_set_tx (Some p) t s))
               else (false, s)
     else (true, s)) = (res1, s1)
    /\ uart_nr (memory s1 p) = UART0
    /\ mode (memory s1 p) = mode u
    /\ (rx_pin (memory s1 p) = 3 \/ rx_pin (memory s1 p) = 13)
    /\ (res1 = true -> smg_uart_tx_enabled u = true ->
        tx_pin (memory s1 p) = t
        \/ (rx_pin (memory s1 p) <> r /\ (r =? 13) && (t =? 15) = false)).
Proof.
  intros u Hnr Hrx Htx Hrxp. subst u.
  pose proof (swap_spec p 15 s Hnr) as (T15 & R15 & _ & M15 & N15).
  pose proof (swap_spec p t s Hnr) as (Tt & Rt & _ & Mt & Nt).
  cbv zeta in T15, R15, M15, N15, Tt, Rt, Mt, Nt.
  rewrite Hrx in R15, Rt.
  destruct (smg_uart_tx_enabled (memory s p)) eqn:Etx; cbn [andb].
  2:{ exists true, s. repeat split; try assumption. discriminate. }
  specialize (Htx eq_refl).
  pose proof (set_tx_spec p t s Hnr Etx) as (_ & Ts & Rs & _ & Ms).
  cbv zeta in Ts, Rs, Ms.
  assert (Ns : uart_nr (memory (snd (smg_uart_set_tx (Some p) t s)) p) = UART0).
  { unfold smg_uart_set_tx. rewrite Hnr, Etx. change ((UART0 =? UART0) && true) with true.
    cbv iota. cbn [snd]. steps. exact Hnr. }
  destruct (tx_pin (memory s p) =? t) eqn:E1; cbn [negb].
  { exists true, s. apply Z.eqb_eq in E1. repeat split; try assumption. intros _ _. now left. }
  apply Z.eqb_neq in E1.
  destruct ((r =? 13) && (t =? 15)) eqn:A.
  { exists true, (smg_uart_swap (Some p) 15 s).
    apply andb_true_iff in A. destruct A as (A1 & A2).
    apply Z.eqb_eq in A1. apply Z.eqb_eq in A2. subst r t.
    rewrite N15, M15, R15, T15. split; [reflexivity|]. split; [exact Hnr|].
    split; [reflexivity|].
    split; [eqb_cases; cbn [orb]; lia|].
    intros _ _. left. eqb_cases; cbn [orb]; lia. }
  destruct ((r =? 3) && ((t =? 1) || (t =? 2))) eqn:B.
  2:{ exists false, s. repeat split; try assumption. discriminate. }
  apply andb_true_iff in B. destruct B as (B1 & B2). apply Z.eqb_eq in B1. subst r.
  destruct (rx_pin (memory s p) =? 3) eqn:E3; cbn [negb].
  - exists true, (snd (smg_uart_set_tx (Some p) t s)).
    rewrite Ns, Ms, Rs, Ts. apply Z.eqb_eq in E3.
    split; [reflexivity|]. split; [reflexivity|]. split; [reflexivity|].
    split; [assumption|]. intros _ _. left. revert B2. eqb_cases; cbn [orb]; intros; lia || discriminate.
  - exists true, (smg_uart_swap (Some p) t s).
    rewrite Nt, Mt, Rt, Tt. apply Z.eqb_neq in E3.
    split; [reflexivity|]. split; [exact Hnr|]. split; [reflexivity|].
    split; [eqb_cases; cbn [orb]; lia|].
    intros _ _. revert B2 A. eqb_cases; cbn [orb andb]; intros; try discriminate;
      try (left; lia); try (right; split; [lia | reflexivity]); lia.
Qed.

(** X18. When [smg_uart_set_pins] returns true on a UART0 instance that
    receives, the instance has the pins asked for: the receive pin, and the
    transmit pin when it transmits. The pins are taken to be among those the
    driver assigns: 1, 2 or 15 to transmit, 3 or 13 to receive. *)
Theorem set_pins_accepted (p t r : Z) (s : driver) :
  uart_nr (memory s p) = UART0 ->
  smg_uart_rx_enabled (memory s p) = true ->
  (smg_uart_tx_enabled (memory s p) = true ->
   tx_pin (memory s p) = 1 \/ tx_pin (memory s p) = 2 \/ tx_pin (memory s p) = 15) ->
  (rx_pin (memory s p) = 3 \/ rx_pin (memory s p) = 13) ->
  fst (smg_uart_set_pins (Some p) t r s) = true ->
  let s' := snd (smg_uart_set_pins (Some p) t r s) in
  (smg_uart_tx_enabled (memory s p) = true -> tx_pin (memory s' p) = t)
  /\ rx_pin (memory s' p) = r.
Proof.
  intros Hnr Hrx Htx Hrxp. cbv zeta. unfold smg_uart_set_pins. rewrite Hnr.
  change (negb (UART0 =? UART0)) with false. cbv iota zeta.
  destruct (set_pins_tx_step p t r s Hnr Hrx Htx Hrxp)
    as (res1 & s1 & -> & N1 & M1 & R1 & T1).
  assert (Hrx1 : smg_uart_rx_enabled (memory s1 p) = true)
    by (unfold smg_uart_rx_enabled in *; now rewrite M1).
  assert (Htx1 : smg_uart_tx_enabled (memory s1 p) = smg_uart_tx_enabled (memory s p))
    by (unfold smg_uart_tx_enabled; now rewrite M1).
  rewrite Hrx1. cbn [andb].
  destruct (rx_pin (memory s1 p) =? r) eqn:E; cbn [negb].
  - cbn [fst snd]. intros ->. apply Z.eqb_eq in E. split; [|exact E].
    intros Etx. destruct (T1 eq_refl Etx) as [H | (H & _)]; [exact H | contradiction].
  - apply Z.eqb_neq in E. destruct ((r =? 13) && (t =? 15)) eqn:A; cbn [fst snd];
      [|discriminate].
    intros ->. apply andb_true_iff in A. destruct A as (A1 & A2).
    apply Z.eqb_eq in A1. apply Z.eqb_eq in A2. subst r t.
    pose proof (swap_spec p 15 s1 N1) as (T15 & R15 & _). cbv zeta in T15, R15.
    rewrite Hrx1 in R15. rewrite Htx1 in T15. rewrite T15, R15.
    assert (D : (tx_pin (memory s1 p) =? 1) || (tx_pin (memory s1 p) =? 2)
                || (rx_pin (memory s1 p) =? 3) = true).
    { destruct R1 as [R1 | R1]; [|contradiction]. rewrite R1. apply orb_true_r. }
    rewrite D. split; [intros ->; reflexivity | reflexivity].
Qed.

Lemma set_pins_accepted_witness :
  let s := opened UART0 UART_FULL 8 8 in
  let s' := snd (smg_uart_set_pins (Some 1) 15 13 s) in
  tx_pin (memory s 1) = 1 /\ rx_pin (memory s 1) = 3
  /\ tx_pin (memory s' 1) = 15 /\ rx_pin (memory s' 1) = 13.
Proof.
  destruct (set_pins_accepted 1 15 13 (opened UART0 UART_FULL 8 8)) as (H1 & H2).
  - reflexivity.
  - reflexivity.
  - intros _. left. reflexivity.
  - left. reflexivity.
  - vm_compute. reflexivity.
  - split; [reflexivity|]. split; [reflexivity|]. split; [apply H1; reflexivity | exact H2].
Defined.

(** X19. On a UART0 instance that only transmits, asking [smg_uart_set_pins] for
    the other of the two default transmit pins does not give it: the call
    returns true, and the transmit pin is 15 with the pin swap switched
    on. *)
Theorem set_pins_tx_only_swaps (p t : Z) (s : driver) :
  uart_nr (memory s p) = UART0 ->
  mode (memory s p) = UART_TX_ONLY ->
  tx_pin (memory s p) = 1 \/ tx_pin (memory s p) = 2 ->
  t = 1 \/ t = 2 ->
  t <> tx_pin (memory s p) ->
  rx_pin (memory s p) <> 3 ->
  let r := smg_uart_set_pins (Some p) t 3 s in
  fst r = true
  /\ tx_pin (memory (snd r) p) = 15
  /\ Z.testbit (swap_reg (snd r)) SWAP0_BIT = true.
Proof.
  intros Hnr Hmode Htx Ht Hne Hrx. cbv zeta. unfold smg_uart_set_pins. rewrite Hnr.
  change (negb (UART0 =? UART0)) with false. cbv iota zeta.
  assert (Etx : smg_uart_tx_enabled (memory s p) = true)
    by (unfold smg_uart_tx_enabled; rewrite Hmode; reflexivity).
  rewrite Etx. cbn [andb].
  replace (tx_pin (memory s p) =? t) with false by (symmetry; apply Z.eqb_neq; lia).
  change (3 =? 13) with false. change (3 =? 3) with true. cbn [negb andb].
  replace ((t =? 1) || (t =? 2)) with true
    by (destruct Ht as [-> | ->]; reflexivity).
  replace (rx_pin (memory s p) =? 3) with false by (symmetry; apply Z.eqb_neq; lia).
  cbn [negb]. cbv iota.
  pose proof (swap_spec p t s Hnr) as (Tt & _ & St & Mt & _). cbv zeta in Tt, St, Mt.
  rewrite Etx in Tt.
  assert (D : (tx_pin (memory s p) =? 1) || (tx_pin (memory s p) =? 2)
              || (rx_pin (memory s p) =? 3) = true)
    by (destruct Htx as [-> | ->]; reflexivity).
  rewrite D in Tt, St.
  unfold smg_uart_rx_enabled. rewrite Mt, Hmode. cbn [mode_eqb negb andb fst snd].
  split; [reflexivity|]. split; [exact Tt|].
  rewrite St, Z.lor_spec, swap0_testbit. apply orb_true_r.
Qed.

Lemma set_pins_tx_only_swaps_witness :
  let s := opened UART0 UART_TX_ONLY 0 8 in
  let r := smg_uart_set_pins (Some 1) 2 3 s in
  tx_pin (memory s 1) = 1 /\ fst r = true /\ tx_pin (memory (snd r) 1) = 15.
Proof.
  destruct (set_pins_tx_only_swaps 1 2 (opened UART0 UART_TX_ONLY 0 8)) as (H1 & H2 & _).
  - reflexivity.
  - reflexivity.
  - left. reflexivity.
  - right. reflexivity.
  - vm_compute. discriminate.
  - vm_compute. discriminate.
  - split; [reflexivity|]. split; [exact H1 | exact H2].
Defined.

(** ** The pin multiplexer across a swap *)

(** X25. A swap of UART0 away from its default pins hands the pins over: the
    transmit pin in use (1 or 2) and receive pin 3 go back to being GPIOs,
    pins 15 and 13 get their UART function, and no other pin is touched. *)
Theorem swap_hands_pins_over (p t : Z) (s : driver) :
  uart_nr (memory s p) = UART0 ->
  mode (memory s p) = UART_FULL ->
  tx_pin (memory s p) = 1 \/ tx_pin (memory s p) = 2 ->
  rx_pin (memory s p) = 3 ->
  let s' := smg_uart_swap (Some p) t s in
  io_mux s' PERIPHS_IO_MUX_MTDO_U = FUNC_UART0_RTS
  /\ io_mux s' PERIPHS_IO_MUX_MTCK_U = FUNC_UART0_CTS
  /\ io_mux s' PERIPHS_IO_MUX_U0RXD_U = FUNC_GPIO3
  /\ (tx_pin (memory s p) = 1 ->
      io_mux s' PERIPHS_IO_MUX_U0TXD_U = FUNC_GPIO1
      /\ io_mux s' PERIPHS_IO_MUX_GPIO2_U = io_mux s PERIPHS_IO_MUX_GPIO2_U)
  /\ (tx_pin (memory s p) = 2 ->
      io_mux s' PERIPHS_IO_MUX_GPIO2_U = FUNC_GPIO2
      /\ io_mux s' PERIPHS_IO_MUX_U0TXD_U = io_mux s PERIPHS_IO_MUX_U0TXD_U).
Proof.
  intros Hnr Hmode Htx Hrx. cbv zeta.
  assert (Heq : smg_uart_swap (Some p) t s
                = uart0_pin_select 13 (uart0_pin_select 15
                    (SET_PERI_REG_MASK UART_SWAP_REG UART_SWAP0
                       (store p (set_rx_pin 13) (store p (set_tx_pin 15)
                          (uart0_pin_restore 3
                             (uart0_pin_restore (tx_pin (memory s p)) s))))))).
  { unfold smg_uart_swap. rewrite Hnr. change (UART0 =? UART0) with true. cbv iota zeta.
    unfold smg_uart_tx_enabled, smg_uart_rx_enabled.
    rewrite !memory_pin0_restore, Hrx, Hmode. cbn [mode_eqb negb].
    change (3 =? 3) with true. rewrite orb_true_r. cbv iota.
    repeat (progress (rewrite ?memory_store_same, ?memory_pin0_restore;
                      cbn [set_tx_pin set_rx_pin mode]; rewrite ?Hmode;
                      cbn [mode_eqb negb]; cbv iota)).
    assert (Hrp : rx_pin (memory (SET_PERI_REG_MASK UART_SWAP_REG UART_SWAP0
                     (store p (set_rx_pin 13) (store p (set_tx_pin 15)
                        (uart0_pin_restore 3
                           (uart0_pin_restore (tx_pin (memory s p)) s))))) p) = 13)
      by (steps; reflexivity).
    assert (Htp : tx_pin (memory (SET_PERI_REG_MASK UART_SWAP_REG UART_SWAP0
                     (store p (set_rx_pin 13) (store p (set_tx_pin 15)
                        (uart0_pin_restore 3
                           (uart0_pin_restore (tx_pin (memory s p)) s))))) p) = 15)
      by (steps; reflexivity).
    rewrite memory_pin0_select, Hrp, Htp. reflexivity. }
  rewrite Heq. clear Heq.
  unfold SET_PERI_REG_MASK, WRITE_PERI_REG.
  destruct Htx as [H | H]; rewrite H;
    unfold uart0_pin_select, uart0_pin_restore, PIN_FUNC_SELECT; cbn;
    repeat split; intros; try reflexivity; lia.
Qed.

Lemma swap_hands_pins_over_witness :
  let s := opened UART0 UART_FULL 8 8 in
  let s' := smg_uart_swap (Some 1) 15 s in
  io_mux s PERIPHS_IO_MUX_U0RXD_U = FUNC_UART0_RXD
  /\ io_mux s' PERIPHS_IO_MUX_U0RXD_U = FUNC_GPIO3
  /\ io_mux s' PERIPHS_IO_MUX_MTCK_U = FUNC_UART0_CTS.
Proof.
  destruct (swap_hands_pins_over 1 15 (opened UART0 UART_FULL 8 8))
    as (_ & H2 & H3 & _).
  - reflexivity.
  - reflexivity.
  - left. reflexivity.
  - reflexivity.
  - split; [reflexivity | split; [exact H3 | exact H2]].
Defined.

(** ** The handler acknowledges what it services *)





(** ** Raw mode *)

(** X21. With UART_OPT_CALLBACK_RAW the handler moves no byte and changes no
    interrupt enable: it adds the interrupt status to the sticky status of
    the instance and hands it, unfiltered, to the callback when there is
    one. *)
Theorem handler_raw_reports_only (nr p : Z) (s : driver) :
  uart_isr_enabled nr s = true ->
  bitRead (options (memory s p)) UART_OPT_CALLBACK_RAW = true ->
  int_st (ports s nr) <> 0 ->
  let usis := int_st (ports s nr) in
  let s' := handle_uart_interrupt nr (Some p) s in
  rx_buffer (memory s' p) = rx_buffer (memory s p)
  /\ tx_buffer (memory s' p) = tx_buffer (memory s p)
  /\ (forall k, rx_fifo (ports s' k) = rx_fifo (ports s k)
                /\ tx_fifo (ports s' k) = tx_fifo (ports s k)
                /\ int_ena (ports s' k) = int_ena (ports s k))
  /\ status (memory s' p) = uint16 (Z.lor (status (memory s p)) usis)
  /\ trace s' = (if is_some (callback (memory s p))
                 then EvCallback p usis :: trace s else trace s).
Proof.
  intros Hen Hraw Hst usis s'. subst s'. rewrite (handler_serviced nr p s Hst Hen).
  cbv zeta. fold usis. unfold isr_service. rewrite Hraw. cbn [negb].
  apply Z.eqb_neq in Hst. fold usis in Hst. rewrite Hst. cbn [negb andb].
  unfold WRITE_PERI_REG.
  assert (Hcb : callback (memory (store p (fun u => set_status
                   (uint16 (Z.lor (status u) usis)) u) s) p) = callback (memory s p))
    by (steps; reflexivity).
  rewrite Hcb.
  destruct (callback (memory s p)); cbn [is_some];
    ((split; [|split; [|split; [|split]]]);
     [ steps; reflexivity | steps; reflexivity
     | intros k; repeat split; steps; try upd_case; steps; reflexivity
     | steps; reflexivity | steps; reflexivity ]).
Qed.

Lemma handler_raw_reports_only_witness :
  let s := fifo_full [1; 2; 3]
             (store 1 (set_options 2) (opened UART0 UART_FULL 8 8)) in
  let s' := handle_uart_interrupt UART0 (Some 1) s in
  rx_fifo (ports s UART0) = [1; 2; 3]
  /\ rx_fifo (ports s' UART0) = rx_fifo (ports s UART0).
Proof.
  destruct (handler_raw_reports_only UART0 1
              (fifo_full [1; 2; 3] (store 1 (set_options 2) (opened UART0 UART_FULL 8 8))))
    as (_ & _ & H3 & _).
  - vm_compute. reflexivity.
  - vm_compute. reflexivity.
  - vm_compute. discriminate.
  - split; [vm_compute; reflexivity|]. destruct (H3 UART0) as (Hr & _). exact Hr.
Defined.

(** ** Detaching everything *)

(** For a port that is not started the handler does no more than disable
    its interrupt sources. *)
Lemma handler_off nr uart s :
  uart_isr_enabled nr s = false ->
  let s' := handle_uart_interrupt nr uart s in
  memory s' = memory s /\ trace s' = trace s /\ isrMask s' = isrMask s
  /\ uartInstances s' = uartInstances s
  /\ ets_uart_intr_enabled s' = ets_uart_intr_enabled s
  /\ (forall k, rx_fifo (ports s' k) = rx_fifo (ports s k)
                /\ tx_fifo (ports s' k) = tx_fifo (ports s k)).
Proof.
  intros Hen. cbv zeta.
  assert (Hs : handle_uart_interrupt nr uart s = s
               \/ handle_uart_interrupt nr uart s = WRITE_PERI_REG (UART_INT_ENA nr) 0 s).
  { unfold handle_uart_interrupt.
    destruct (READ_PERI_REG (UART_INT_ST nr) s =? 0); [left; reflexivity|].
    right. destruct uart; [rewrite Hen|]; reflexivity. }
  destruct Hs as [-> | ->]; [repeat split|].
  unfold WRITE_PERI_REG. repeat split; steps; try upd_case; steps; reflexivity.
Qed.

Lemma detach_all_spec s :
  let s1 := smg_uart_detach_all s in
  isrMask s1 = 0 /\ ets_uart_intr_enabled s1 = false
  /\ int_ena (ports s1 UART0) = 0 /\ int_ena (ports s1 UART1) = 0
  /\ memory s1 = memory s /\ trace s1 = trace s
  /\ (forall k, rx_fifo (ports s1 k) = rx_fifo (ports s k)
                /\ tx_fifo (ports s1 k) = tx_fifo (ports s k)).
Proof.
  cbv zeta. unfold smg_uart_detach_all. cbv zeta. unfold WRITE_PERI_REG.
  assert (H01 : 0 <> 1) by discriminate. assert (H10 : 1 <> 0) by discriminate.
  split; [reflexivity|]. split; [reflexivity|].
  split; [simpl_update; reflexivity|]. split; [simpl_update; reflexivity|].
  split; [reflexivity|]. split; [reflexivity|].
  intros k. cbn [ports set_isrMask set_port set_ports smg_uart_disable_interrupts
                 ETS_UART_INTR_DISABLE set_intr_enabled].
  destruct (Z.eq_dec k 1) as [-> | Hk1]; [|destruct (Z.eq_dec k 0) as [-> | Hk0]];
    upd_simpl; cbn [rx_fifo tx_fifo with_int_ena with_int_clr with_conf1];
    upd_simpl; cbn [rx_fifo tx_fifo with_int_ena with_int_clr with_conf1];
    upd_simpl; split; reflexivity.
Qed.

Lemma raise_int_frame nr mask s :
  isrMask (raise_int nr mask s) = isrMask s
  /\ memory (raise_int nr mask s) = memory s
  /\ trace (raise_int nr mask s) = trace s
  /\ (forall k, rx_fifo (ports (raise_int nr mask s) k) = rx_fifo (ports s k)
                /\ tx_fifo (ports (raise_int nr mask s) k) = tx_fifo (ports s k)).
Proof.
  unfold raise_int, set_port. split; [reflexivity|]. split; [reflexivity|].
  split; [reflexivity|]. intros k. cbn [ports set_ports].
  destruct (Z.eq_dec k nr) as [-> | Hk]; upd_simpl; split; reflexivity.
Qed.

(** X22. After [smg_uart_detach_all] no port is started and the UART interrupt
    is left disabled. Whatever the hardware raises afterwards, the shared
    interrupt routine touches no instance, calls no callback and moves no
    byte. *)
Theorem detach_all_silences (m0 m1 : Z) (s : driver) :
  let s1 := smg_uart_detach_all s in
  let s2 := uart_isr (raise_int UART1 m1 (raise_int UART0 m0 s1)) in
  isrMask s1 = 0 /\ ets_uart_intr_enabled s1 = false
  /\ int_ena (ports s1 UART0) = 0 /\ int_ena (ports s1 UART1) = 0
  /\ memory s2 = memory s /\ trace s2 = trace s
  /\ (forall k, rx_fifo (ports s2 k) = rx_fifo (ports s k)
                /\ tx_fifo (ports s2 k) = tx_fifo (ports s k)).
Proof.
  intros s1 s2.
  destruct (detach_all_spec s) as (Hmask & Hgate & E0 & E1 & Hm & Ht & Hf).
  cbv zeta in Hmask, Hgate, E0, E1, Hm, Ht, Hf. fold s1 in Hmask, Hgate, E0, E1, Hm, Ht, Hf.
  clearbody s1.
  destruct (raise_int_frame UART0 m0 s1) as (R1 & R2 & R3 & R4).
  set (sq := raise_int UART0 m0 s1) in *. clearbody sq.
  destruct (raise_int_frame UART1 m1 sq) as (Q1 & Q2 & Q3 & Q4).
  set (sr := raise_int UART1 m1 sq) in *. clearbody sr.
  assert (Hmr : isrMask sr = 0) by now rewrite Q1, R1.
  assert (Hoff : forall k x, isrMask x = 0 -> uart_isr_enabled k x = false).
  { intros k x Hx. unfold uart_isr_enabled, bitRead. rewrite Hx. apply Z.bits_0. }
  subst s2. unfold uart_isr. cbv zeta.
  destruct (handler_off UART0 (uartInstances sr UART0) sr (Hoff _ _ Hmr))
    as (A1 & A2 & A3 & A4 & _ & A5). cbv zeta in A1, A2, A3, A4, A5.
  set (sa := handle_uart_interrupt UART0 (uartInstances sr UART0) sr) in *. clearbody sa.
  assert (Hma : isrMask sa = 0) by now rewrite A3.
  destruct (handler_off UART1 (uartInstances sa UART1) sa (Hoff _ _ Hma))
    as (B1 & B2 & _ & _ & _ & B5). cbv zeta in B1, B2, B5.
  split; [exact Hmask|]. split; [exact Hgate|]. split; [exact E0|]. split; [exact E1|].
  split; [now rewrite B1, A1, Q2, R2|]. split; [now rewrite B2, A2, Q3, R3|].
  intros k. destruct (B5 k) as (-> & ->). destruct (A5 k) as (-> & ->).
  destruct (Q4 k) as (-> & ->). destruct (R4 k) as (-> & ->). exact (Hf k).
Qed.

(** ** From the wire to the application *)

(** The handler takes bytes out of the receive FIFO, never puts any in. *)
Lemma handler_rx_fifo_shrinks nr p s :
  (length (rx_fifo (ports (handle_uart_interrupt nr (Some p) s) nr))
   <= length (rx_fifo (ports s nr)))%nat.
Proof.
  destruct (Z.eq_dec (int_st (ports s nr)) 0) as [H0|H0].
  { unfold handle_uart_interrupt, READ_PERI_REG. rewrite H0. cbn [Z.eqb]. lia. }
  destruct (uart_isr_enabled nr s) eqn:Hen.
  2:{ destruct (handler_off nr (Some p) s Hen) as (_ & _ & _ & _ & _ & H). cbv zeta in H.
      destruct (H nr) as (-> & _). lia. }
  destruct (handler_rx_effects nr p s H0 Hen) as (_ & Hfifo & _). cbv zeta in Hfifo.
  rewrite Hfifo. set (usis := int_st (ports s nr)).
  unfold isr_service. break_if; [|cbn [snd]; lia].
  destruct (isr_rx nr p usis usis s) as [st s1] eqn:Hrx.
  assert (Hs1 : s1 = snd (isr_rx nr p usis usis s)) by now rewrite Hrx.
  destruct (isr_tx_rx_side nr p usis st s1) as (_ & Hp2). cbv zeta in Hp2. rewrite Hp2.
  destruct (Z.land usis (Z.lor (Z.lor UART_RXFIFO_FULL_INT_ST UART_RXFIFO_TOUT_INT_ST)
                               UART_RXFIFO_OVF_INT_ST) =? 0) eqn:E.
  - destruct (isr_rx_idle nr p usis usis s (or_introl E)) as (_ & Hp).
    cbv zeta in Hp. rewrite <- Hs1 in Hp. rewrite Hp. lia.
  - destruct (rx_buffer (memory s p)) as [b|] eqn:Hb.
    + destruct (isr_rx_moves nr p usis usis s b E Hb) as (_ & Hfifo1).
      cbv zeta in Hfifo1. rewrite <- Hs1 in Hfifo1. rewrite Hfifo1, length_skipn. lia.
    + destruct (isr_rx_idle nr p usis usis s (or_intror Hb)) as (_ & Hp).
      cbv zeta in Hp. rewrite <- Hs1 in Hp. rewrite Hp. lia.
Qed.

(** X23. Bytes that arrive on the wire of a physical port reach the application
    in the order of arrival, behind those already waiting: whatever
    interrupt is raised and whether or not the handler moves them to the
    buffer first, the next read delivers the oldest of them all. *)
Theorem received_bytes_read_in_order (p size mask : Z) (bytes : list Z) (s : driver) :
  let nr := uart_nr (memory s p) in
  is_physical nr = true ->
  smg_uart_rx_enabled (memory s p) = true ->
  0 < size ->
  (length (rx_fifo (ports s nr)) + length bytes < 256)%nat ->
  let s1 := raise_int nr mask (receive nr bytes s) in
  let s2 := handle_uart_interrupt nr (Some p) s1 in
  fst (smg_uart_read (Some p) true size s2)
  = map uint8 (firstn (Z.to_nat size) (rx_readable p s ++ bytes)).
Proof.
  intros nr Hphys Hrx Hsize Hlen s1 s2.
  assert (Hm1 : memory s1 = memory s) by reflexivity.
  assert (Hf1 : rx_fifo (ports s1 nr) = rx_fifo (ports s nr) ++ bytes).
  { unfold s1, raise_int, receive, set_port. steps. reflexivity. }
  pose proof (handler_rx_queue nr p s1) as Hq. fold s2 in Hq.
  destruct (handler_instance_frame nr (Some p) s1 p) as (Hnr2 & Hmode2 & _).
  cbv zeta in Hnr2, Hmode2. fold s2 in Hnr2, Hmode2. rewrite Hm1 in Hnr2, Hmode2.
  fold nr in Hnr2.
  pose proof (handler_rx_fifo_shrinks nr p s1) as Hshr. fold s2 in Hshr.
  assert (Hrd2 : rx_readable p s2 = rx_readable p s ++ bytes).
  { unfold rx_readable. cbv zeta. rewrite Hnr2. fold nr. rewrite Hphys.
    change (rx_held p s2 ++ rx_fifo (ports s2 nr)) with (rx_queue p nr s2).
    rewrite Hq. unfold rx_queue, rx_held. rewrite Hm1, Hf1. apply app_assoc. }
  destruct (read_delivers p size s2) as (H & _).
  - unfold smg_uart_rx_enabled in *. now rewrite Hmode2.
  - exact Hsize.
  - rewrite Hnr2. rewrite Hf1, length_app in Hshr. lia.
  - rewrite H, Hrd2. reflexivity.
Qed.

Lemma received_bytes_read_in_order_witness :
  let s := opened UART0 UART_FULL 8 8 in
  let s1 := raise_int UART0 UART_RXFIFO_TOUT_INT_ST (receive UART0 [65; 66; 67] s) in
  fst (smg_uart_read (Some 1) true 2 (handle_uart_interrupt UART0 (Some 1) s1))
  = map uint8 (firstn (Z.to_nat 2) (rx_readable 1 s ++ [65; 66; 67])).
Proof.
  apply (received_bytes_read_in_order 1 2 UART_RXFIFO_TOUT_INT_ST [65; 66; 67]
           (opened UART0 UART_FULL 8 8)).
  - vm_compute. reflexivity.
  - vm_compute. reflexivity.
  - lia.
  - vm_compute. lia.
Defined.

(** ** The transmit FIFO is never overfilled *)

(** X24. The handler refills the transmit FIFO up to 127 bytes at most: a FIFO
    that holds no more than that before the call holds no more after. *)
Theorem handler_respects_tx_fifo (nr p : Z) (s : driver) :
  (length (tx_fifo (ports s nr)) <= 127)%nat ->
  (length (tx_fifo (ports (handle_uart_interrupt nr (Some p) s) nr)) <= 127)%nat.
Proof.
  intros Hlen.
  destruct (Z.eq_dec (int_st (ports s nr)) 0) as [H0|H0].
  { unfold handle_uart_interrupt, READ_PERI_REG. rewrite H0. exact Hlen. }
  destruct (uart_isr_enabled nr s) eqn:Hen.
  2:{ destruct (handler_off nr (Some p) s Hen) as (_ & _ & _ & _ & _ & H). cbv zeta in H.
      destruct (H nr) as (_ & ->). exact Hlen. }
  destruct (handler_effects nr p s H0 Hen) as (_ & Hfifo & _). cbv zeta in Hfifo.
  rewrite Hfifo. set (usis := int_st (ports s nr)).
  unfold isr_service. break_if; [|exact Hlen].
  destruct (isr_rx nr p usis usis s) as [st s1] eqn:Hrx.
  assert (Hs1 : s1 = snd (isr_rx nr p usis usis s)) by now rewrite Hrx.
  destruct (isr_rx_frame nr p usis usis s) as (_ & Hp1 & _). cbv zeta in Hp1.
  rewrite <- Hs1 in Hp1. destruct (Hp1 nr) as (Hf1 & _).
  assert (Hlen1 : (length (tx_fifo (ports s1 nr)) <= 127)%nat) by now rewrite Hf1.
  destruct (Z.land usis UART_TXFIFO_EMPTY_INT_ST =? 0) eqn:E.
  - unfold isr_tx. rewrite E. exact Hlen1.
  - destruct (isr_tx_spec nr p usis st s1 E) as (Hfifo2 & _). cbv zeta in Hfifo2.
    rewrite Hfifo2, length_app, length_map, length_firstn.
    rewrite (uart_txfifo_free_small nr s1 Hlen1). lia.
Qed.

Lemma handler_respects_tx_fifo_witness :
  (length (tx_fifo (ports (handle_uart_interrupt UART0 (Some 1%Z) tx_pending) UART0))
   <= 127)%nat.
Proof.
  apply (handler_respects_tx_fifo UART0 1 tx_pending). vm_compute. lia.
Defined.

(** ** The notification hook *)






